(** * pgv_faiss: the FAISS wrapper, its stub, and the pgvector row encoding

    A shallow embedding of
      - [FAISSWrapper] as built against the real FAISS library
        (faiss_wrapper.cpp and the GPU helper class [GPUImpl]),
      - [FAISSWrapper] as built from [src/lib/faiss/faiss_stub.cpp],
      - the SQL text produced by [pgvector::PGVConnection]
        ([src/lib/pgvector/pgv_operations.cpp]),
    followed by the properties checked against them.

    Conventions.  [size_t] is [N]; [int] and [int64_t] are [Z] (no
    arithmetic in the modelled code can overflow them); a possibly null
    pointer to an array is an [option (list _)]; a [std::vector<uint8_t>] is a
    [list byte].  A C++ call either returns or throws: [outcome]. *)

From Stdlib Require Import ZArith NArith QArith List String Ascii Bool Lia.
From Stdlib Require Import Qabs Qround DecimalString.
From Stdlib Require Import Permutation Sorted.
Import ListNotations.

Set Implicit Arguments.
Open Scope Z_scope.

(* ------------------------------------------------------------------ *)
(** ** C++ outcomes *)

(** The [what()] text of a [std::exception]. *)
Definition exn : Type := string.

Inductive outcome (A : Type) : Type :=
| Returns (a : A)
| Throws (e : exn).

Arguments Returns {A} a.
Arguments Throws {A} e.

(* ------------------------------------------------------------------ *)
(** ** The FAISS library, as the wrapper sees it

    FAISS is an external library.  The wrapper only ever talks to it through
    the members below, so they are the interface the embedding is
    parameterised by.  [F] is the C++ type [float]; [I] is the state of a
    [faiss::Index] object.  A mutating member returns the state it leaves
    behind together with the exception it threw, if any. *)

Class FaissLib (F I : Type) : Type := {
  (** [0.0f]: what [std::vector<float> distances(k)] is filled with. *)
  fzero : F;
  (** the public field [faiss::Index::is_trained] *)
  faiss_is_trained : I -> bool;
  (** the public field [faiss::Index::ntotal] *)
  faiss_ntotal : I -> N;
  (** [index->train(n, x)] *)
  faiss_train : N -> list F -> I -> I * option exn;
  (** [index->add(n, x)] *)
  faiss_add : N -> list F -> I -> I * option exn;
  (** [index->add_with_ids(n, x, xids)] *)
  faiss_add_with_ids : N -> list F -> list Z -> I -> I * option exn;
  (** [index->search(1, x, k, distances, labels)]: the values written to the
      two output arrays, in slot order. *)
  faiss_search : I -> list F -> N -> outcome (list F * list Z);
  (** [faiss::write_index(index, &stream)]: the bytes left in the stream *)
  faiss_write_index : I -> outcome (list Byte.byte);
  (** [faiss::read_index(&stream)]; [None] is a null pointer *)
  faiss_read_index : list Byte.byte -> outcome (option I);
  (** [new faiss::IndexFlatL2(d)] *)
  new_IndexFlatL2 : Z -> I;
  (** [new faiss::IndexIVFFlat(quantizer, d, nlist)] *)
  new_IndexIVFFlat : I -> Z -> Z -> I;
  (** [new faiss::IndexHNSWFlat(d, M)] *)
  new_IndexHNSWFlat : Z -> Z -> I;
  (** [index->hnsw.efConstruction = v] *)
  set_efConstruction : Z -> I -> I;
  (** [new faiss::gpu::GpuIndexFlat(res, d, METRIC_L2)]; acquiring device
      memory can throw *)
  new_GpuIndexFlat : Z -> outcome I;
  (** [new faiss::gpu::GpuIndexIVFFlat(res, d, nlist, METRIC_L2)] *)
  new_GpuIndexIVFFlat : Z -> Z -> outcome I
}.

(** [struct SearchResult { int64_t id; float distance; }] *)
Record SearchResult (F : Type) : Type := mkSearchResult {
  id : Z;
  distance : F
}.

Arguments mkSearchResult {F} id distance.
Arguments id {F} s.
Arguments distance {F} s.

(** The calls a wrapper method makes on its [faiss::Index], in order.  This
    log is not program state; it is what lets "training ran once" be said.
    In [CTrain n x] (and likewise the others) [x] is the array the pointer
    argument leads to and [n] the number of vectors FAISS is told to read
    from its start. *)
Inductive Call (F : Type) : Type :=
| CTrain (n : N) (x : list F)
| CAdd (n : N) (x : list F)
| CAddWithIds (n : N) (x : list F) (xids : list Z)
| CSearch (x : list F) (k : N).

Arguments CTrain {F} n x.
Arguments CAdd {F} n x.
Arguments CAddWithIds {F} n x xids.
Arguments CSearch {F} x k.

Definition is_train {F} (c : Call F) : bool :=
  match c with CTrain _ _ => true | _ => false end.

(** The call by which [add_vectors] inserts a batch: [add_with_ids] when
    identifiers are given, [add] otherwise. *)
Definition add_call {F} (x : list F) (ids : option (list Z)) (count : N)
    : Call F :=
  match ids with
  | Some xids => CAddWithIds count x xids
  | None => CAdd count x
  end.

(** Number of [index->train] calls in a log. *)
Definition train_count {F} (log : list (Call F)) : nat :=
  List.length (filter is_train log).

(* ------------------------------------------------------------------ *)
(** ** [FAISSWrapper], built against FAISS *)

Module Wrapper.
Section WithFaiss.

Context {F I : Type} `{FaissLib F I}.

(** The build flag [WITH_GPU] and [faiss::gpu::getNumDevices()]. *)
Variable WITH_GPU : bool.
Variable getNumDevices : Z.

Record FAISSWrapper : Type := mkWrapper {
  index_ : option I;          (* std::unique_ptr<faiss::Index>; None = null *)
  dimension_ : Z;
  use_gpu_ : bool;
  gpu_device_ : Z;
  index_type_ : string;
  trained_ : bool
}.

Definition set_index (h : FAISSWrapper) (i : option I) : FAISSWrapper :=
  mkWrapper i (dimension_ h) (use_gpu_ h) (gpu_device_ h) (index_type_ h)
            (trained_ h).

Definition set_trained (h : FAISSWrapper) (b : bool) : FAISSWrapper :=
  mkWrapper (index_ h) (dimension_ h) (use_gpu_ h) (gpu_device_ h)
            (index_type_ h) b.

(** [std::min(4 * (int)sqrt(100000), 65536)].  [sqrt] is the [double]
    square root of 100000 (316.22...), and the cast to [int] truncates it;
    on a non-negative integer that is the integer square root [Z.sqrt]. *)
Definition ncentroids : Z := Z.min (4 * Z.sqrt 100000) 65536.

(** [FAISSWrapper::create_index].  The GPU branches exist only under
    [WITH_GPU]. *)
Definition create_index (use_gpu : bool) (index_type : string)
    (dimension : Z) : outcome I :=
  if (index_type =? "Flat")%string then
    if WITH_GPU && use_gpu then new_GpuIndexFlat dimension
    else Returns (new_IndexFlatL2 dimension)
  else if (index_type =? "IVFFlat")%string then
    let quantizer := new_IndexFlatL2 dimension in
    if WITH_GPU && use_gpu then new_GpuIndexIVFFlat dimension ncentroids
    else Returns (new_IndexIVFFlat quantizer dimension ncentroids)
  else if (index_type =? "HNSW")%string then
    let M := 16 in
    Returns (set_efConstruction 40 (new_IndexHNSWFlat dimension M))
  else Returns (new_IndexFlatL2 dimension).

(** [FAISSWrapper::setup_gpu_resources] of faiss_wrapper.cpp: the effect on
    [use_gpu_]. *)
Definition setup_gpu_resources (use_gpu : bool) (gpu_device : Z) : bool :=
  if WITH_GPU then
    if getNumDevices <=? gpu_device then false else use_gpu
  else use_gpu.

(** The constructor. *)
Definition new (dimension : Z) (index_type : string) (use_gpu : bool)
    (gpu_device : Z) : outcome FAISSWrapper :=
  let use_gpu1 :=
    if WITH_GPU then
      if use_gpu then setup_gpu_resources use_gpu gpu_device else use_gpu
    else false in
  match create_index use_gpu1 index_type dimension with
  | Returns i =>
      Returns (mkWrapper (Some i) dimension use_gpu1 gpu_device index_type
                         false)
  | Throws e => Throws e
  end.

(** [FAISSWrapper::is_trained] *)
Definition is_trained (h : FAISSWrapper) : bool :=
  match index_ h with
  | Some i => faiss_is_trained i || trained_ h
  | None => false
  end.

(** [FAISSWrapper::train].  An exception of [index_->train] is caught and
    logged; [trained_] is then left as it was. *)
Definition train (h : FAISSWrapper) (training_data : option (list F))
    (count : N) : FAISSWrapper * list (Call F) :=
  match index_ h, training_data with
  | Some i, Some x =>
      if (count =? 0)%N then (h, [])
      else if negb (faiss_is_trained i) then
        let training_size := N.min count 100000 in
        match faiss_train training_size x i with
        | (i', None) =>
            (set_trained (set_index h (Some i')) true,
             [CTrain training_size x])
        | (i', Some _) =>
            (set_index h (Some i'), [CTrain training_size x])
        end
      else (set_trained h true, [])
  | _, _ => (h, [])
  end.

(** [FAISSWrapper::add_vectors]: status, handle afterwards, calls made. *)
Definition add_vectors (h : FAISSWrapper) (vectors : option (list F))
    (ids : option (list Z)) (count : N)
    : Z * FAISSWrapper * list (Call F) :=
  match index_ h, vectors with
  | Some _, Some x =>
      if (count =? 0)%N then (-1, h, [])
      else
        let '(h1, log1) :=
          if negb (is_trained h) && (index_type_ h =? "IVFFlat")%string
          then train h vectors count
          else (h, []) in
        match index_ h1 with
        | Some i1 =>
            let '(r, c) :=
              match ids with
              | Some xids =>
                  (faiss_add_with_ids count x xids i1,
                   CAddWithIds count x xids)
              | None => (faiss_add count x i1, CAdd count x)
              end in
            let h2 := set_index h1 (Some (fst r)) in
            match snd r with
            | None => (0, h2, log1 ++ [c])
            | Some _ => (-2, h2, log1 ++ [c])
            end
        | None => (-2, h1, log1)   (* not reached: train keeps index_ *)
        end
  | _, _ => (-1, h, [])
  end.

(** The loop of [search] over the two output arrays: slot [i] is kept when
    its label is non-negative.  The arrays have [k] slots, zero-initialised,
    overwritten by what the index wrote. *)
Definition collect (k : N) (distances : list F) (labels : list Z)
    : list (SearchResult F) :=
  flat_map
    (fun i =>
       if 0 <=? nth i labels 0
       then [mkSearchResult (nth i labels 0) (nth i distances fzero)]
       else [])
    (seq 0 (N.to_nat k)).

(** [FAISSWrapper::search].  An exception of [index_->search] is caught and
    logged, and the (empty) result vector is returned. *)
Definition search (h : FAISSWrapper) (query : option (list F)) (k : N)
    : outcome (list (SearchResult F)) * list (Call F) :=
  match index_ h, query with
  | Some i, Some q =>
      if (k =? 0)%N then (Returns [], [])
      else
        match faiss_search i q k with
        | Returns (distances, labels) =>
            (Returns (collect k distances labels), [CSearch q k])
        | Throws _ => (Returns [], [CSearch q k])
        end
  | _, _ => (Returns [], [])
  end.

(** [FAISSWrapper::serialize] *)
Definition serialize (h : FAISSWrapper) : list Byte.byte :=
  match index_ h with
  | None => []
  | Some i =>
      match faiss_write_index i with
      | Returns data => data
      | Throws _ => []
      end
  end.

(** [FAISSWrapper::deserialize]: status and handle afterwards. *)
Definition deserialize (h : FAISSWrapper) (data : list Byte.byte)
    : Z * FAISSWrapper :=
  match data with
  | [] => (-1, h)
  | _ :: _ =>
      match faiss_read_index data with
      | Returns None => (-2, h)
      | Returns (Some loaded_index) =>
          (0, set_trained (set_index h (Some loaded_index))
                          (faiss_is_trained loaded_index))
      | Throws _ => (-3, h)
      end
  end.

(** [FAISSWrapper::get_ntotal] *)
Definition get_ntotal (h : FAISSWrapper) : N :=
  match index_ h with Some i => faiss_ntotal i | None => 0%N end.

Definition get_dimension (h : FAISSWrapper) : Z := dimension_ h.

(** [GPUImpl::create_gpu_index] of the GPU helper; [gpu_resources] says
    whether the resources pointer is set.  A throwing constructor is caught
    and a null pointer returned. *)
Definition GPUImpl_create_gpu_index (gpu_resources : bool)
    (index_type : string) (dimension : Z) : option I :=
  if negb gpu_resources then None
  else if (index_type =? "Flat")%string then
    match new_GpuIndexFlat dimension with
    | Returns i => Some i
    | Throws _ => None
    end
  else if (index_type =? "IVFFlat")%string then
    let ncentroids := Z.min (4 * Z.sqrt 100000) 65536 in
    match new_GpuIndexIVFFlat dimension ncentroids with
    | Returns i => Some i
    | Throws _ => None
    end
  else None.

(** A run of [add_vectors] calls, one per batch, with the calls of all of
    them. *)
Fixpoint add_all (h : FAISSWrapper)
    (batches : list (option (list F) * option (list Z) * N))
    : FAISSWrapper * list (Call F) :=
  match batches with
  | [] => (h, [])
  | (vectors, ids, count) :: rest =>
      let '(_, h1, log1) := add_vectors h vectors ids count in
      let '(h2, log2) := add_all h1 rest in
      (h2, log1 ++ log2)
  end.

(** The batches [add_vectors] turns away at its first test: a null
    [vectors] pointer or a [count] of zero. *)
Definition rejected (batch : option (list F) * option (list Z) * N) : bool :=
  match batch with
  | (None, _, _) => true
  | (Some _, _, count) => (count =? 0)%N
  end.

(** A blob is malformed when [faiss::read_index] throws on it or returns a
    null pointer. *)
Definition reader_rejects (data : list Byte.byte) : bool :=
  match faiss_read_index data with
  | Returns (Some _) => false
  | _ => true
  end.

End WithFaiss.
End Wrapper.

(* ------------------------------------------------------------------ *)
(** ** [FAISSWrapper], built from faiss_stub.cpp

    The stub replaces the whole class when FAISS is not installed.  Its
    [search] draws its distances from a [std::uniform_real_distribution]
    seeded by [std::random_device]; the values [dis(gen)] returns during one
    call are an input of the model, [dis i] being the value of draw number
    [i].  An array argument is the list of the elements that may be read
    through the pointer; a read outside it is undefined behaviour, [None]. *)

Module Stub.
Section WithFloat.

Variable F : Type.
(** [a < b] on [float] *)
Variable flt : F -> F -> bool.

(** [struct FakeIndex] *)
Record FakeIndex : Type := mkFake {
  dimension : Z;
  vectors : list (list F);
  ids : list Z
}.

Record FAISSWrapper : Type := mkStub {
  index_ : FakeIndex;
  dimension_ : Z;
  use_gpu_ : bool;
  gpu_device_ : Z;
  index_type_ : string;
  trained_ : bool
}.

Definition set_index (h : FAISSWrapper) (i : FakeIndex) : FAISSWrapper :=
  mkStub i (dimension_ h) (use_gpu_ h) (gpu_device_ h) (index_type_ h)
         (trained_ h).

(** The constructor: whatever the arguments, no GPU and [trained_(true)]. *)
Definition new (dimension : Z) (index_type : string) (use_gpu : bool)
    (gpu_device : Z) : FAISSWrapper :=
  mkStub (mkFake dimension [] []) dimension false 0 index_type true.

(** The elements [a[start] .. a[start+len-1]]. *)
Definition slice (start len : Z) (a : list F) : option (list F) :=
  if (0 <=? start) && (0 <=? len)
     && (start + len <=? Z.of_nat (List.length a))
  then Some (firstn (Z.to_nat len) (skipn (Z.to_nat start) a))
  else None.

(** One turn of the loop of [add_vectors]. *)
Definition add_one (dim : Z) (vecs : list F) (xids : list Z)
    (acc : option FakeIndex) (i : nat) : option FakeIndex :=
  match acc with
  | None => None
  | Some idx =>
      match slice (Z.of_nat i * dim) dim vecs, nth_error xids i with
      | Some vec, Some xid =>
          Some (mkFake (dimension idx) (vectors idx ++ [vec])
                       (ids idx ++ [xid]))
      | _, _ => None
      end
  end.

(** [FAISSWrapper::add_vectors] *)
Definition add_vectors (h : FAISSWrapper) (vecs : list F) (xids : list Z)
    (count : N) : option (Z * FAISSWrapper) :=
  match fold_left (add_one (dimension_ h) vecs xids)
                  (seq 0 (N.to_nat count)) (Some (index_ h)) with
  | Some idx => Some (0, set_index h idx)
  | None => None
  end.

(** [std::sort] with the comparator [a.distance < b.distance], as an
    insertion sort.  [std::sort] leaves the relative order of elements with
    equal distances unspecified; this one keeps it. *)
Fixpoint insert_by_distance (x : SearchResult F) (l : list (SearchResult F))
    : list (SearchResult F) :=
  match l with
  | [] => [x]
  | y :: l' =>
      if flt (distance y) (distance x) then y :: insert_by_distance x l'
      else x :: y :: l'
  end.

Definition sort_by_distance (l : list (SearchResult F))
    : list (SearchResult F) :=
  fold_right insert_by_distance [] l.

(** [FAISSWrapper::search]; the query is never read. *)
Definition search (h : FAISSWrapper) (query : list F) (k : N)
    (dis : nat -> F) : list (SearchResult F) :=
  let fake_ids := ids (index_ h) in
  let count := N.min k (N.of_nat (List.length fake_ids)) in
  let results :=
    flat_map
      (fun i =>
         if (i <? List.length fake_ids)%nat
         then [mkSearchResult (nth i fake_ids 0) (dis i)]
         else [])
      (seq 0 (N.to_nat count)) in
  sort_by_distance results.

(** [FAISSWrapper::serialize]: "Return a dummy serialization". *)
Definition serialize (h : FAISSWrapper) : list Byte.byte :=
  list_byte_of_string "stub_faiss_index_v1.0".

(** [FAISSWrapper::deserialize]: "Accept any data for stub
    implementation". *)
Definition deserialize (h : FAISSWrapper) (data : list Byte.byte)
    : Z * FAISSWrapper :=
  (0, h).

(** [FAISSWrapper::train] *)
Definition train (h : FAISSWrapper) (training_data : list F) (count : N)
    : FAISSWrapper :=
  mkStub (index_ h) (dimension_ h) (use_gpu_ h) (gpu_device_ h)
         (index_type_ h) true.

Definition is_trained (h : FAISSWrapper) : bool := trained_ h.

Definition get_ntotal (h : FAISSWrapper) : N :=
  N.of_nat (List.length (ids (index_ h))).

Definition get_dimension (h : FAISSWrapper) : Z := dimension_ h.

End WithFloat.
End Stub.

(* ------------------------------------------------------------------ *)
(** ** [pgvector::PGVConnection]: the SQL text it sends

    A [float] that is written to a stream is modelled by the rational number
    it denotes (finite values only).  A [std::ostringstream] is its buffer
    together with the two pieces of formatting state the code touches: the
    [floatfield] flag, set by [std::fixed], and the precision, set by
    [std::setprecision].  A fresh stream has no [floatfield] flag and
    precision 6. *)

Module Pgv.

Definition dec_of_Z (z : Z) : string := NilZero.string_of_int (Z.to_int z).

Definition digit_char (d : Z) : ascii :=
  ascii_of_nat (48 + Z.to_nat (d mod 10)).

(** The last [w] decimal digits of [n], most significant first. *)
Fixpoint fixed_digits (w : nat) (n : Z) : string :=
  match w with
  | O => EmptyString
  | S w' =>
      (fixed_digits w' (n / 10) ++ String (digit_char n) EmptyString)%string
  end.

(** Nearest integer of a non-negative rational, ties to even. *)
Definition round_half_even (a : Q) : Z :=
  let n := Qnum a in
  let d := Zpos (Qden a) in
  let fl := n / d in
  let r2 := 2 * (n mod d) in
  if r2 <? d then fl
  else if d <? r2 then fl + 1
  else if Z.even fl then fl else fl + 1.

Definition scale10 (a : Q) (e : Z) : Q := (a * (inject_Z 10) ^ e)%Q.

Definition sign_of (x : Q) : string :=
  if Qnum x <? 0 then "-"%string else ""%string.

(** Conversion [%.<prec>f]: what [operator<<(float)] writes when the
    [floatfield] is [fixed]. *)
Definition fmt_fixed (prec : nat) (x : Q) : string :=
  let n := round_half_even (scale10 (Qabs x) (Z.of_nat prec)) in
  let p10 := 10 ^ Z.of_nat prec in
  (sign_of x ++ dec_of_Z (n / p10)
   ++ match prec with
      | O => ""
      | S _ => "." ++ fixed_digits prec (n mod p10)
      end)%string.

(** Removes the zeros that end a string of fraction digits. *)
Fixpoint strip_zeros (s : string) : string :=
  match s with
  | EmptyString => EmptyString
  | String c r =>
      match strip_zeros r with
      | EmptyString => if Ascii.eqb c "0" then EmptyString
                       else String c EmptyString
      | r' => String c r'
      end
  end.

Definition point_fraction (frac : string) : string :=
  match strip_zeros frac with
  | EmptyString => EmptyString
  | f => ("." ++ f)%string
  end.

(** The least [j >= j0] with [1 <= a * 10^j], searched for [fuel] steps. *)
Fixpoint lead_zeros (fuel : nat) (a : Q) (j : Z) : Z :=
  match fuel with
  | O => j
  | S f => if Qle_bool 1 (scale10 a j) then j else lead_zeros f a (j + 1)
  end.

(** [floor (log10 a)] for [a > 0]. *)
Definition ilog10 (a : Q) : Z :=
  if Qle_bool 1 a
  then Z.of_nat (String.length (dec_of_Z (Qfloor a))) - 1
  else - lead_zeros (S (Pos.size_nat (Qden a))) a 1.

(** Conversion [%.<prec>g]: what [operator<<(float)] writes when no
    [floatfield] flag is set. *)
Definition fmt_general (prec : nat) (x : Q) : string :=
  let P := Z.of_nat (match prec with O => 1%nat | _ => prec end) in
  if Qeq_bool x 0 then "0"%string
  else
    let a := Qabs x in
    let X0 := ilog10 a in
    let m0 := round_half_even (scale10 a (P - 1 - X0)) in
    let '(m, X) :=
      if m0 =? 10 ^ P then (10 ^ (P - 1), X0 + 1) else (m0, X0) in
    if (X <? -4) || (P <=? X) then
      (sign_of x
       ++ fixed_digits 1 (m / 10 ^ (P - 1))
       ++ point_fraction (fixed_digits (Z.to_nat (P - 1)) m)
       ++ "e" ++ (if (X <? 0)%Z then "-" else "+")
       ++ (if (Z.abs X <? 100)%Z then fixed_digits 2 (Z.abs X)
           else dec_of_Z (Z.abs X)))%string
    else
      let fd := Z.to_nat (P - 1 - X) in
      let n := round_half_even (scale10 a (Z.of_nat fd)) in
      let p10 := 10 ^ Z.of_nat fd in
      (sign_of x ++ dec_of_Z (n / p10)
       ++ point_fraction (fixed_digits fd (n mod p10)))%string.

Inductive floatfield : Type := ff_unset | ff_fixed.

Record ostream : Type := mkOstream {
  str : string;
  flags_floatfield : floatfield;
  precision : nat
}.

(** A default-constructed [std::ostringstream] / [std::stringstream]. *)
Definition ostringstream : ostream := mkOstream "" ff_unset 6.

(** [os << s] for a string *)
Definition put (s : string) (os : ostream) : ostream :=
  mkOstream (str os ++ s) (flags_floatfield os) (precision os).

(** [os << n] for an [int64_t], an [int] or a [size_t] *)
Definition put_int (n : Z) (os : ostream) : ostream := put (dec_of_Z n) os.

(** [os << std::fixed] *)
Definition fixed (os : ostream) : ostream :=
  mkOstream (str os) ff_fixed (precision os).

(** [os << std::setprecision(n)] *)
Definition setprecision (n : nat) (os : ostream) : ostream :=
  mkOstream (str os) (flags_floatfield os) n.

(** [os << x] for a [float] *)
Definition put_float (x : Q) (os : ostream) : ostream :=
  match flags_floatfield os with
  | ff_fixed => put (fmt_fixed (precision os) x) os
  | ff_unset => put (fmt_general (precision os) x) os
  end.

(** [for (size_t i = 0; i < v.size(); ++i) body(i, v[i])], from index [i]. *)
Fixpoint for_each {A} (body : nat -> A -> ostream -> ostream) (i : nat)
    (v : list A) (os : ostream) : ostream :=
  match v with
  | [] => os
  | x :: rest => for_each body (S i) rest (body i x os)
  end.

Definition comma_if_not_first (i : nat) (os : ostream) : ostream :=
  match i with O => os | S _ => put "," os end.

(** The text built by [insert_vector]. *)
Definition insert_vector_query (table_name : string) (id : Z)
    (vector : list Q) : string :=
  let query := ostringstream in
  let query :=
    put ", '[" (put_int id (put " (id, embedding) VALUES ("
      (put table_name (put "INSERT INTO " query)))) in
  let query :=
    for_each
      (fun i x os =>
         put_float x (setprecision 6 (fixed (comma_if_not_first i os))))
      0 vector query in
  str (put "]')" query).

(** The text built by [batch_insert_vectors]. *)
Definition batch_insert_vectors_query (table_name : string) (ids : list Z)
    (vectors : list (list Q)) : string :=
  let query := ostringstream in
  let query :=
    put " (id, embedding) VALUES "
      (put table_name (put "INSERT INTO " query)) in
  let query :=
    for_each
      (fun i xid os =>
         let os := match i with O => os | S _ => put ", " os end in
         let os := put ", '[" (put_int xid (put "(" os)) in
         let os :=
           for_each
             (fun j x os =>
                put_float x
                  (setprecision 6 (fixed (comma_if_not_first j os))))
             0 (nth i vectors []) os in
         put "]')" os)
      0 ids query in
  str query.

(** The text built by one turn of the outer loop of [store_vectors]; each
    turn declares a fresh [std::stringstream]. *)
Definition store_vectors_query (table_name : string) (id : Z)
    (vector : list Q) : string :=
  let query := ostringstream in
  let query :=
    put ", '[" (put_int id (put " (id, embedding) VALUES ("
      (put table_name (put "INSERT INTO " query)))) in
  let query :=
    for_each (fun j x os => put_float x (comma_if_not_first j os))
             0 vector query in
  str (put "]')" query).

(** A comma-separated list of [%.6f] literals, the element at index [i]
    first. *)
Fixpoint fixed6_list (i : nat) (v : list Q) : string :=
  match v with
  | [] => EmptyString
  | x :: rest =>
      ((match i with O => "" | S _ => "," end)
       ++ fmt_fixed 6 x ++ fixed6_list (S i) rest)%string
  end.

Section WithServer.

(** Whether the server answers [PGRES_COMMAND_OK] to a command. *)
Variable command_ok : string -> bool.

(** [conn_]: [None] is a null pointer; otherwise whether [PQstatus] is
    [CONNECTION_OK]. *)
Record PGVConnection : Type := mkConn {
  conn_string_ : string;
  conn_ : option bool
}.

Definition is_connected (c : PGVConnection) : bool :=
  match conn_ c with Some ok => ok | None => false end.

(** [execute_query]: the result and the commands sent to the server. *)
Definition execute_query (c : PGVConnection) (query : string)
    : bool * list string :=
  if negb (is_connected c) then (false, [])
  else (command_ok query, [query]).

Definition insert_vector (c : PGVConnection) (table_name : string) (id : Z)
    (vector : list Q) : bool * list string :=
  execute_query c (insert_vector_query table_name id vector).

Definition batch_insert_vectors (c : PGVConnection) (table_name : string)
    (ids : list Z) (vectors : list (list Q)) : bool * list string :=
  if negb (List.length ids =? List.length vectors)%nat then (false, [])
  else execute_query c (batch_insert_vectors_query table_name ids vectors).

(** The loop of [store_vectors] from row [i] on: whether every [INSERT]
    succeeded, and the commands sent. *)
Fixpoint store_rows (table_name : string) (rows : list (list Q * Z))
    : bool * list string :=
  match rows with
  | [] => (true, [])
  | (vector, id) :: rest =>
      let query := store_vectors_query table_name id vector in
      if command_ok query then
        let '(ok, sent) := store_rows table_name rest in
        (ok, query :: sent)
      else (false, [query; "ROLLBACK"%string])
  end.

Definition store_vectors (c : PGVConnection) (table_name : string)
    (vectors : list (list Q)) (ids : list Z)
    : outcome bool * list string :=
  match conn_ c with
  | None => (Throws "Database connection not established"%string, [])
  | Some _ =>
      if negb (List.length vectors =? List.length ids)%nat
      then (Throws "Vector and ID count mismatch"%string, [])
      else if negb (command_ok "BEGIN"%string)
      then (Returns false, ["BEGIN"%string])
      else
        let '(ok, sent) := store_rows table_name (combine vectors ids) in
        if ok
        then (Returns (command_ok "COMMIT"%string),
              "BEGIN"%string :: sent ++ ["COMMIT"%string])
        else (Returns false, "BEGIN"%string :: sent)
  end.

End WithServer.
End Pgv.

(* ------------------------------------------------------------------ *)
(** ** A reference index

    An executable instance of [FaissLib], used to run the wrapper on concrete
    inputs.  It is exact brute force over rational coordinates: an index is
    its kind, its dimension, its [is_trained] flag and the stored vectors with
    their labels.  As in FAISS, only the inverted-file kind starts untrained,
    [add] refuses an untrained index, [search] fills the slots it has no
    neighbour for with label -1 and distance [FLT_MAX].  The written form is
    the model's own: the FAISS four-character code of the kind, then the
    fields in decimal. *)

Definition Qltb (a b : Q) : bool := negb (Qle_bool b a).

Module RefFaiss.

Inductive kind : Type :=
| Flat
| IVFFlat (nlist : Z)
| HNSWFlat (M efConstruction : Z).

Record index : Type := mkIndex {
  kind_of : kind;
  d : Z;
  trained : bool;
  xids : list Z;
  xs : list (list Q)
}.

(** [std::numeric_limits<float>::max()] *)
Definition FLT_MAX : Q := inject_Z ((2 ^ 24 - 1) * 2 ^ 104).

(** The first [n] rows of [dim] coordinates of a flattened array. *)
Fixpoint rows (n : nat) (dim : nat) (x : list Q) : list (list Q) :=
  match n with
  | O => []
  | S n' => firstn dim x :: rows n' dim (skipn dim x)
  end.

Definition train (n : N) (x : list Q) (i : index) : index * option exn :=
  (mkIndex (kind_of i) (d i) true (xids i) (xs i), None).

Definition add_with_ids (n : N) (x : list Q) (labels : list Z) (i : index)
    : index * option exn :=
  if trained i then
    (mkIndex (kind_of i) (d i) true
             (xids i ++ firstn (N.to_nat n) labels)
             (xs i ++ rows (N.to_nat n) (Z.to_nat (d i)) x),
     None)
  else (i, Some "Error: 'is_trained' failed"%string).

(** [add] labels the new vectors [ntotal], [ntotal + 1], ... *)
Definition add (n : N) (x : list Q) (i : index) : index * option exn :=
  add_with_ids n x
    (map (fun j => Z.of_nat (List.length (xids i) + j))
         (seq 0 (N.to_nat n)))
    i.

(** Squared Euclidean distance. *)
Fixpoint l2sqr (a b : list Q) : Q :=
  match a, b with
  | x :: a', y :: b' => Qred ((x - y) * (x - y) + l2sqr a' b')
  | _, _ => 0
  end.

Fixpoint insert_near (e : Q * Z) (l : list (Q * Z)) : list (Q * Z) :=
  match l with
  | [] => [e]
  | y :: l' =>
      if Qltb (fst y) (fst e) then y :: insert_near e l' else e :: y :: l'
  end.

Definition nearest (q : list Q) (i : index) (k : nat) : list (Q * Z) :=
  firstn k
    (fold_right insert_near []
       (combine (map (l2sqr q) (xs i)) (xids i))).

Definition search (i : index) (q : list Q) (k : N)
    : outcome (list Q * list Z) :=
  if (k =? 0)%N then Throws "Error: 'k > 0' failed"%string
  else
    let found := nearest q i (N.to_nat k) in
    let missing := (N.to_nat k - List.length found)%nat in
    Returns (map fst found ++ repeat FLT_MAX missing,
             map snd found ++ repeat (-1) missing).

(** *** The written form: a four-character code, then the fields as decimal
    numbers, one space before each. *)

Definition fourcc (k : kind) : string :=
  match k with
  | Flat => "IxF2"%string
  | IVFFlat _ => "IwFl"%string
  | HNSWFlat _ _ => "IHNf"%string
  end.

Definition kind_fields (k : kind) : list Z :=
  match k with
  | Flat => [0; 0]
  | IVFFlat nlist => [nlist; 0]
  | HNSWFlat M efc => [M; efc]
  end.

Definition Q_fields (x : Q) : list Z := [Qnum x; Zpos (Qden x)].

Definition fields (i : index) : list Z :=
  kind_fields (kind_of i)
  ++ [d i; if trained i then 1 else 0; Z.of_nat (List.length (xids i))]
  ++ xids i
  ++ flat_map (flat_map Q_fields) (xs i).

Definition write_index (i : index) : outcome (list Byte.byte) :=
  Returns
    (list_byte_of_string
       (fourcc (kind_of i)
        ++ String.concat ""%string
             (map (fun z => (" " ++ Pgv.dec_of_Z z)%string) (fields i)))).

(** Splits a text at its spaces. *)
Fixpoint words (s : string) (cur : string) : list string :=
  match s with
  | EmptyString => [cur]
  | String c r =>
      if Ascii.eqb c " "%char then cur :: words r EmptyString
      else words r (cur ++ String c EmptyString)
  end.

Definition Z_of_word (w : string) : option Z :=
  match NilZero.int_of_string w with
  | Some n => Some (Z.of_int n)
  | None => None
  end.

Fixpoint Zs_of_words (ws : list string) : option (list Z) :=
  match ws with
  | [] => Some []
  | w :: r =>
      match Z_of_word w, Zs_of_words r with
      | Some z, Some zs => Some (z :: zs)
      | _, _ => None
      end
  end.

Definition kind_of_fourcc (c : string) (p1 p2 : Z) : option kind :=
  if (c =? "IxF2"%string)%string then Some Flat
  else if (c =? "IwFl"%string)%string then Some (IVFFlat p1)
  else if (c =? "IHNf"%string)%string then Some (HNSWFlat p1 p2)
  else None.

Fixpoint Qs_of_fields (n : nat) (zs : list Z) : option (list Q) :=
  match n, zs with
  | O, _ => Some []
  | S n', num :: Zpos den :: r =>
      match Qs_of_fields n' r with
      | Some l => Some ((num # den) :: l)
      | None => None
      end
  | S _, _ => None
  end.

Fixpoint rows_of_fields (n dim : nat) (zs : list Z)
    : option (list (list Q)) :=
  match n with
  | O => match zs with [] => Some [] | _ => None end
  | S n' =>
      match Qs_of_fields dim (firstn (2 * dim) zs),
            rows_of_fields n' dim (skipn (2 * dim) zs) with
      | Some v, Some l => Some (v :: l)
      | _, _ => None
      end
  end.

Definition index_of_fields (c : string) (zs : list Z) : option index :=
  match zs with
  | p1 :: p2 :: dim :: tr :: n :: r =>
      match kind_of_fourcc c p1 p2 with
      | Some k =>
          if (0 <=? dim) && (0 <=? n)
             && (Z.to_nat n <=? List.length r)%nat then
            match rows_of_fields (Z.to_nat n) (Z.to_nat dim)
                                 (skipn (Z.to_nat n) r) with
            | Some vs =>
                Some (mkIndex k dim (negb (tr =? 0))
                              (firstn (Z.to_nat n) r) vs)
            | None => None
            end
          else None
      | None => None
      end
  | _ => None
  end.

Definition read_index (data : list Byte.byte) : outcome (option index) :=
  match words (string_of_list_byte data) EmptyString with
  | c :: ws =>
      match Zs_of_words ws with
      | Some zs =>
          match index_of_fields c zs with
          | Some i => Returns (Some i)
          | None => Throws "Error: index type not recognized"%string
          end
      | None => Throws "Error: read error"%string
      end
  | [] => Throws "Error: read error"%string
  end.

#[global] Instance lib : FaissLib Q index := {
  fzero := 0%Q;
  faiss_is_trained := trained;
  faiss_ntotal := fun i => N.of_nat (List.length (xids i));
  faiss_train := train;
  faiss_add := add;
  faiss_add_with_ids := add_with_ids;
  faiss_search := search;
  faiss_write_index := write_index;
  faiss_read_index := read_index;
  new_IndexFlatL2 := fun dim => mkIndex Flat dim true [] [];
  new_IndexIVFFlat := fun _ dim nlist =>
    mkIndex (IVFFlat nlist) dim false [] [];
  new_IndexHNSWFlat := fun dim M => mkIndex (HNSWFlat M 40) dim true [] [];
  set_efConstruction := fun v i =>
    match kind_of i with
    | HNSWFlat M _ => mkIndex (HNSWFlat M v) (d i) (trained i) (xids i) (xs i)
    | _ => i
    end;
  new_GpuIndexFlat := fun _ => Throws "GPU support not compiled"%string;
  new_GpuIndexIVFFlat := fun _ _ => Throws "GPU support not compiled"%string
}.

End RefFaiss.

(* ------------------------------------------------------------------ *)
(** ** Concrete handles and inputs *)

Module Examples.

(** The handle [FAISSWrapper(4, "IVFFlat")] of a CPU-only build over the
    reference index: untrained, empty. *)
Definition ivf_handle : Wrapper.FAISSWrapper (I := RefFaiss.index) :=
  Wrapper.mkWrapper
    (Some (RefFaiss.mkIndex (RefFaiss.IVFFlat 1264) 4 false [] []))
    4 false 0 "IVFFlat" false.

(** Three vectors of dimension 4, flattened, and their identifiers. *)
Definition three_vectors : list Q :=
  [0; 0; 0; 0;  1; 0; 0; 0;  0; 1; 0; 0]%Q.
Definition three_ids : list Z := [1; 2; 3].
Definition origin : list Q := [0; 0; 0; 0]%Q.

(** [ivf_handle] after [add_vectors(three_vectors, three_ids, 3)]. *)
Definition ivf_loaded : Wrapper.FAISSWrapper (I := RefFaiss.index) :=
  snd (fst (Wrapper.add_vectors ivf_handle (Some three_vectors)
                                (Some three_ids) 3)).

(** The stub handle [FAISSWrapper(4, "Flat")], then with the three vectors
    added. *)
Definition stub_flat : Stub.FAISSWrapper Q := Stub.new Q 4 "Flat" false 0.

Definition stub_loaded : Stub.FAISSWrapper Q :=
  match Stub.add_vectors stub_flat three_vectors three_ids 3 with
  | Some (_, h) => h
  | None => stub_flat
  end.

(** A run of the random generator: 5.0 first, then 0.5, then 1.0 for ever. *)
Definition draws (i : nat) : Q :=
  match i with
  | O => 5
  | S O => 1 # 2
  | _ => 1
  end.

(** A server that accepts every command, and an open connection to it. *)
Definition accept_all (command : string) : bool := true.
Definition open_conn : Pgv.PGVConnection :=
  Pgv.mkConn "dbname=vectordb" (Some true).

End Examples.

(* ------------------------------------------------------------------ *)
(** ** Sessions on one handle

    A sequence of method calls made on one FAISS-backed handle, run in
    order; the calls of all of them on the index are collected. *)

Module Session.
Section WithFaiss.

Context {F I : Type} `{FaissLib F I}.

(** The call by which [add_vectors] inserts a batch, as a FAISS call. *)
Definition insertion (x : list F) (ids : option (list Z)) (count : N)
    (i : I) : I * option exn :=
  match ids with
  | Some xids => faiss_add_with_ids count x xids i
  | None => faiss_add count x i
  end.

Inductive op : Type :=
| Train (training_data : option (list F)) (count : N)
| Add (vectors : option (list F)) (ids : option (list Z)) (count : N)
| Search (query : option (list F)) (k : N)
| Deserialize (data : list Byte.byte).

Definition is_deserialize (o : op) : bool :=
  match o with Deserialize _ => true | _ => false end.

Definition is_train_op (o : op) : bool :=
  match o with Train _ _ => true | _ => false end.

Definition step (h : Wrapper.FAISSWrapper (I := I)) (o : op)
    : Wrapper.FAISSWrapper (I := I) * list (Call F) :=
  match o with
  | Train training_data count => Wrapper.train h training_data count
  | Add vectors ids count =>
      let '(_, h1, log) := Wrapper.add_vectors h vectors ids count in
      (h1, log)
  | Search query k => (h, snd (Wrapper.search h query k))
  | Deserialize data => (snd (Wrapper.deserialize h data), [])
  end.

Fixpoint run (h : Wrapper.FAISSWrapper (I := I)) (ops : list op)
    : Wrapper.FAISSWrapper (I := I) * list (Call F) :=
  match ops with
  | [] => (h, [])
  | o :: rest =>
      let '(h1, log1) := step h o in
      let '(h2, log2) := run h1 rest in
      (h2, log1 ++ log2)
  end.

(** The configuration a handle was constructed from. *)
Definition config (h : Wrapper.FAISSWrapper (I := I))
    : Z * bool * Z * string :=
  (Wrapper.dimension_ h, Wrapper.use_gpu_ h, Wrapper.gpu_device_ h,
   Wrapper.index_type_ h).

End WithFaiss.
End Session.

(* ------------------------------------------------------------------ *)
(** ** [FAISSWrapper::GPUImpl], the GPU helper

    The CUDA runtime is an environment: the number of devices, whether
    [cudaSetDevice] succeeds on a device, whether constructing and sizing
    the [StandardGpuResources] throws, and the free device memory that
    [cudaMemGetInfo] reports.  [gpu_resources] is [None] for a null pointer
    and otherwise holds the temporary memory that was set. *)

Module GPUImpl.
Section WithCuda.

Context {F I : Type} `{FaissLib F I}.

Variable getNumDevices : Z.
Variable cudaSetDevice_ok : Z -> bool.
Variable resources_throw : bool.
Variable free_mem : N.

Record GPUImpl : Type := mkGPUImpl {
  gpu_resources : option N;
  gpu_device : Z
}.

(** [size_t(1536 * 1024 * 1024)]; the product fits an [int]. *)
Definition temp_mem_cap : N := 1536 * 1024 * 1024.

(** [GPUImpl::setup_gpu_resources]: the value of [gpu_resources]. *)
Definition setup_gpu_resources (device : Z) : option N :=
  if getNumDevices <=? device then None
  else if negb (cudaSetDevice_ok device) then None
  else if resources_throw then None
  else Some (N.min (free_mem / 4) temp_mem_cap).

(** The constructor [GPUImpl(int device)]. *)
Definition new (device : Z) : GPUImpl :=
  mkGPUImpl (setup_gpu_resources device) device.

Definition has_resources (g : GPUImpl) : bool :=
  match gpu_resources g with Some _ => true | None => false end.

(** [GPUImpl::create_gpu_index] *)
Definition create_gpu_index (g : GPUImpl) (index_type : string)
    (dimension : Z) : option I :=
  Wrapper.GPUImpl_create_gpu_index (has_resources g) index_type dimension.

(** [FAISSWrapper::setup_gpu_resources] of the GPU helper file: the value
    of [gpu_impl_]. *)
Definition wrapper_setup_gpu_resources (use_gpu : bool) (device : Z)
    : option GPUImpl :=
  if use_gpu then Some (new device) else None.

(** [FAISSWrapper::create_gpu_index] *)
Definition wrapper_create_gpu_index (use_gpu : bool)
    (gpu_impl : option GPUImpl) (index_type : string) (dimension : Z)
    : option I :=
  match gpu_impl with
  | Some g => if use_gpu then create_gpu_index g index_type dimension
              else None
  | None => None
  end.

End WithCuda.
End GPUImpl.

(* ------------------------------------------------------------------ *)
(** ** A reference index that can refuse to train

    The reference index again, except that training an inverted-file index
    on fewer vectors than it has clusters throws, as the k-means of FAISS
    does.  Used where a property is about a failed training. *)

Module StrictFaiss.

Definition train (n : N) (x : list Q) (i : RefFaiss.index)
    : RefFaiss.index * option exn :=
  match RefFaiss.kind_of i with
  | RefFaiss.IVFFlat nlist =>
      if Z.of_N n <? nlist
      then (i, Some "Error: 'nx >= k' failed"%string)
      else RefFaiss.train n x i
  | _ => RefFaiss.train n x i
  end.

Definition lib : FaissLib Q RefFaiss.index := {|
  fzero := 0%Q;
  faiss_is_trained := RefFaiss.trained;
  faiss_ntotal := fun i => N.of_nat (List.length (RefFaiss.xids i));
  faiss_train := train;
  faiss_add := RefFaiss.add;
  faiss_add_with_ids := RefFaiss.add_with_ids;
  faiss_search := RefFaiss.search;
  faiss_write_index := RefFaiss.write_index;
  faiss_read_index := RefFaiss.read_index;
  new_IndexFlatL2 := new_IndexFlatL2 (FaissLib := RefFaiss.lib);
  new_IndexIVFFlat := new_IndexIVFFlat (FaissLib := RefFaiss.lib);
  new_IndexHNSWFlat := new_IndexHNSWFlat (FaissLib := RefFaiss.lib);
  set_efConstruction := set_efConstruction (FaissLib := RefFaiss.lib);
  new_GpuIndexFlat := new_GpuIndexFlat (FaissLib := RefFaiss.lib);
  new_GpuIndexIVFFlat := new_GpuIndexIVFFlat (FaissLib := RefFaiss.lib)
|}.

End StrictFaiss.

(* ------------------------------------------------------------------ *)
(** ** What a stub handle holds *)

Module StubInv.
Section WithFloat.

Variable F : Type.

(** Vector number [i] of a flattened array of vectors of [dim]
    components. *)
Definition row (dim : Z) (vecs : list F) (i : nat) : list F :=
  firstn (Z.to_nat dim) (skipn (Z.to_nat (Z.of_nat i * dim)) vecs).

(** Every stored vector carries one identifier and has [dimension_]
    components. *)
Definition well_formed (h : Stub.FAISSWrapper F) : Prop :=
  List.length (Stub.vectors (Stub.index_ h))
  = List.length (Stub.ids (Stub.index_ h))
  /\ Forall (fun v => Z.of_nat (List.length v) = Stub.dimension_ h)
            (Stub.vectors (Stub.index_ h)).

(** The arrays passed to [add_vectors] hold [count] vectors and [count]
    identifiers. *)
Definition readable (dim : Z) (vecs : list F) (xids : list Z) (count : N)
    : Prop :=
  0 <= dim
  /\ Z.of_N count * dim <= Z.of_nat (List.length vecs)
  /\ (N.to_nat count <= List.length xids)%nat.

End WithFloat.
End StubInv.

(* ------------------------------------------------------------------ *)
(** ** [pgvector::PGVConnection]: reading rows, searching, index storage

    The server and the C library functions the code calls are an
    environment: [command_ok] as before; [tuples], the rows the server
    returns for a query, each row the list of its column values ([None] when
    the result status is not [PGRES_TUPLES_OK]); [stof] and [stoll], [None]
    when they throw; the two bytea conversions, [None] when they return a
    null pointer. *)

Module PgvIO.

(** The items [while (std::getline(ss, item, ','))] reads from a stream
    holding [s].  [item] is what the current call has extracted so far and
    [read] whether it has extracted anything, the delimiter included: a call
    that meets the end of the stream at once fails and ends the loop. *)
Fixpoint getline_items (s : string) (item : string) (read : bool)
    : list string :=
  match s with
  | EmptyString => if read then [item] else []
  | String c r =>
      if Ascii.eqb c ","
      then item :: getline_items r EmptyString false
      else getline_items r (item ++ String c EmptyString) true
  end.

(** No character of [s] is a comma. *)
Definition comma_free (s : string) : Prop :=
  Forall (fun c => c <> ","%char) (list_ascii_of_string s).

(** [separator]-joined concatenation. *)
Fixpoint join (separator : string) (l : list string) : string :=
  match l with
  | [] => EmptyString
  | [a] => a
  | a :: rest => (a ++ separator ++ join separator rest)%string
  end.

(** One row of a [VALUES] list as the insert methods write it. *)
Definition row_values (row : Z * list Q) : string :=
  ("(" ++ Pgv.dec_of_Z (fst row) ++ ", '["
   ++ join "," (map (Pgv.fmt_fixed 6) (snd row)) ++ "]')")%string.

Section WithServer.

Variable command_ok : string -> bool.
Variable tuples : string -> option (list (list string)).
Variable PQerrorMessage : string.
Variable stof : string -> option Q.
Variable stoll : string -> option Z.
Variable PQescapeByteaConn : list Byte.byte -> option string.
Variable PQunescapeBytea : string -> option (list Byte.byte).

(** [vector_data.push_back(std::stof(item))] inside [try]/[catch]. *)
Definition push_stof (item : string) : list Q :=
  match stof item with Some x => [x] | None => [] end.

(** The body of the row loop of [fetch_vectors]: the vector read from one
    [embedding] value. *)
Definition parse_vector_text (str : string) : list Q :=
  match String.get 0 str, String.get (String.length str - 1) str with
  | Some first, Some last =>
      if (2 <? String.length str)%nat && Ascii.eqb first "["
         && Ascii.eqb last "]"
      then flat_map push_stof
             (getline_items
                (String.substring 1 (String.length str - 2) str)
                EmptyString false)
      else []
  | _, _ => []
  end.

Definition fetch_vectors_query (table_name : string) (limit : Z) : string :=
  let query :=
    Pgv.put table_name (Pgv.put "SELECT embedding FROM " Pgv.ostringstream) in
  Pgv.str (if 0 <? limit
           then Pgv.put_int limit (Pgv.put " LIMIT " query)
           else query).

(** [fetch_vectors]: the result and the queries sent. *)
Definition fetch_vectors (c : Pgv.PGVConnection) (table_name : string)
    (limit : Z) : outcome (list (list Q)) * list string :=
  match Pgv.conn_ c with
  | None => (Throws "Database connection not established"%string, [])
  | Some _ =>
      let query := fetch_vectors_query table_name limit in
      match tuples query with
      | None => (Throws ("Query failed: " ++ PQerrorMessage)%string, [query])
      | Some rows =>
          (Returns (map (fun r => parse_vector_text (nth 0 r EmptyString))
                        rows),
           [query])
      end
  end.

(** [execute_query_result]: a null pointer is [None]. *)
Definition execute_query_result (c : Pgv.PGVConnection) (query : string)
    : option (list (list string)) * list string :=
  if negb (Pgv.is_connected c) then (None, [])
  else (tuples query, [query]).

Definition fixed6_component (i : nat) (x : Q) (os : Pgv.ostream)
    : Pgv.ostream :=
  Pgv.put_float x
    (Pgv.setprecision 6 (Pgv.fixed (Pgv.comma_if_not_first i os))).

(** The text built by [similarity_search]. *)
Definition similarity_search_query (table_name : string) (query : list Q)
    (k : N) : string :=
  let sql := Pgv.put "SELECT id, embedding <-> '[" Pgv.ostringstream in
  let sql := Pgv.for_each fixed6_component 0 query sql in
  let sql :=
    Pgv.put " ORDER BY embedding <-> '["
      (Pgv.put table_name (Pgv.put "]' AS distance FROM " sql)) in
  let sql := Pgv.for_each fixed6_component 0 query sql in
  Pgv.str (Pgv.put_int (Z.of_N k) (Pgv.put "]' LIMIT " sql)).

(** The row loop of [similarity_search]; an exception of [std::stoll] or
    [std::stof] is not caught there. *)
Fixpoint read_rows (rows : list (list string)) : outcome (list (Z * Q)) :=
  match rows with
  | [] => Returns []
  | r :: rest =>
      match stoll (nth 0 r EmptyString) with
      | None => Throws "stoll"%string
      | Some id =>
          match stof (nth 1 r EmptyString) with
          | None => Throws "stof"%string
          | Some distance =>
              match read_rows rest with
              | Returns l => Returns ((id, distance) :: l)
              | Throws e => Throws e
              end
          end
      end
  end.

Definition similarity_search (c : Pgv.PGVConnection) (table_name : string)
    (query : list Q) (k : N) : outcome (list (Z * Q)) * list string :=
  let '(result, sent) :=
    execute_query_result c (similarity_search_query table_name query k) in
  match result with
  | Some rows => (read_rows rows, sent)
  | None => (Returns [], sent)
  end.

Definition create_extension (c : Pgv.PGVConnection) : bool * list string :=
  Pgv.execute_query command_ok c
    "CREATE EXTENSION IF NOT EXISTS vector"%string.

Definition create_table (c : Pgv.PGVConnection) (table_name : string)
    (dimension : Z) : bool * list string :=
  Pgv.execute_query command_ok c
    (Pgv.str
       (Pgv.put "))"
          (Pgv.put_int dimension
             (Pgv.put " (id bigserial PRIMARY KEY, embedding vector("
                (Pgv.put table_name
                   (Pgv.put "CREATE TABLE IF NOT EXISTS "
                            Pgv.ostringstream)))))).

Definition index_table (table_name : string) : string :=
  (table_name ++ "_faiss_index")%string.

Definition save_index_insert (table_name escaped : string) : string :=
  ("INSERT INTO " ++ index_table table_name ++ " (index_data) VALUES ('"
   ++ escaped ++ "')")%string.

(** [save_index]: status and commands sent. *)
Definition save_index (c : Pgv.PGVConnection) (table_name : string)
    (index_data : list Byte.byte) : Z * list string :=
  let '(_, sent1) :=
    Pgv.execute_query command_ok c
      ("CREATE TABLE IF NOT EXISTS " ++ index_table table_name
       ++ " (id SERIAL PRIMARY KEY, index_data BYTEA)")%string in
  let '(_, sent2) :=
    Pgv.execute_query command_ok c
      ("DELETE FROM " ++ index_table table_name)%string in
  match PQescapeByteaConn index_data with
  | None => (-1, sent1 ++ sent2)
  | Some escaped_data =>
      let '(ok, sent3) :=
        Pgv.execute_query command_ok c
          (save_index_insert table_name escaped_data) in
      (if ok then 0 else -1, sent1 ++ sent2 ++ sent3)
  end.

Definition load_index_query (table_name : string) : string :=
  ("SELECT index_data FROM " ++ index_table table_name
   ++ " ORDER BY id DESC LIMIT 1")%string.

(** [load_index]: the bytes and the queries sent. *)
Definition load_index (c : Pgv.PGVConnection) (table_name : string)
    : list Byte.byte * list string :=
  let '(result, sent) :=
    execute_query_result c (load_index_query table_name) in
  match result with
  | Some (r :: _) =>
      match PQunescapeBytea (nth 0 r EmptyString) with
      | Some raw_data => (raw_data, sent)
      | None => ([], sent)
      end
  | _ => ([], sent)
  end.

End WithServer.
End PgvIO.

(* ------------------------------------------------------------------ *)
(** ** The benchmark's recall measure

    [calculate_recall] of the benchmark suite.  [result_ids] is the array
    [result.ids] with its [result.count] entries.  The quotient is computed
    in [double]; it is modelled by the rational it rounds. *)

Module Benchmark.

(** The inner loop: whether [g] occurs among the result identifiers. *)
Definition found (g : Z) (result_ids : list Z) : bool :=
  existsb (fun r => g =? r) result_ids.

Definition check_count (ground_truth result_ids : list Z) : nat :=
  Nat.min (List.length ground_truth) (List.length result_ids).

(** The value of [matches] after the outer loop. *)
Definition matches (ground_truth result_ids : list Z) : nat :=
  fold_left
    (fun m i => if found (nth i ground_truth 0) result_ids then S m else m)
    (seq 0 (check_count ground_truth result_ids)) O.

Definition calculate_recall (ground_truth result_ids : list Z) : Q :=
  match result_ids, ground_truth with
  | [], _ => 0
  | _, [] => 0
  | _, _ =>
      Z.of_nat (matches ground_truth result_ids)
      # Pos.of_nat (check_count ground_truth result_ids)
  end.

End Benchmark.

(* ------------------------------------------------------------------ *)
(** ** The database cleanup tool ([examples/tools/db_cleanup.cpp])

    [conn_] is whether the connection pointer is non-null; [tuples query]
    is the rows the server answers [query] with, [None] when the result
    status is not [PGRES_TUPLES_OK].  Each method returns its result and the
    statements it sent, in order. *)

Module Cleanup.

(** [s.find(sub) != std::string::npos] *)
Fixpoint contains (sub s : string) : bool :=
  if String.prefix sub s then true
  else match s with
       | EmptyString => false
       | String _ r => contains sub r
       end.

(** The test of [clear_all_vector_tables]. *)
Definition is_vector_table (table : string) : bool :=
  contains "test" table || contains "vector" table
  || contains "faiss" table || contains "index" table
  || contains "benchmark" table || contains "sample" table
  || contains "embedding" table.

(** The test of [clear_faiss_indices]. *)
Definition is_faiss_index_table (table : string) : bool :=
  contains "_faiss_index" table.

Section WithServer.

Variable command_ok : string -> bool.
Variable conn_ : bool.
Variable tuples : string -> option (list (list string)).

Definition execute_query (query : string) : bool * list string :=
  if negb conn_ then (false, []) else (command_ok query, [query]).

Definition tables_query : string :=
  "SELECT tablename FROM pg_tables WHERE schemaname = 'public'".

(** [get_tables]: nothing is asked on a null connection; a result that is
    not [PGRES_TUPLES_OK] gives no table. *)
Definition get_tables : list string * list string :=
  if negb conn_ then ([], [])
  else (match tuples tables_query with
        | Some rows => map (fun r => nth 0 r EmptyString) rows
        | None => []
        end,
        [tables_query]).

Definition clear_table (table_name : string) : bool * list string :=
  execute_query ("DROP TABLE IF EXISTS " ++ table_name ++ " CASCADE")%string.

(** The loop shared by [clear_all_vector_tables] and
    [clear_faiss_indices] over the tables [get_tables] returned: [success]
    and the commands sent. *)
Fixpoint clear_matching (selected : string -> bool) (tables : list string)
    : bool * list string :=
  match tables with
  | [] => (true, [])
  | table :: rest =>
      if selected table then
        let '(ok, sent1) := clear_table table in
        let '(success, sent2) := clear_matching selected rest in
        (ok && success, sent1 ++ sent2)
      else clear_matching selected rest
  end.

Definition clear_all_vector_tables : bool * list string :=
  let '(tables, sent0) := get_tables in
  let '(success, sent) := clear_matching is_vector_table tables in
  (success, sent0 ++ sent).

Definition clear_faiss_indices : bool * list string :=
  let '(tables, sent0) := get_tables in
  let '(success, sent) := clear_matching is_faiss_index_table tables in
  (success, sent0 ++ sent).

End WithServer.
End Cleanup.

(* ------------------------------------------------------------------ *)
(** ** More concrete inputs *)

Module MoreExamples.

(** The index of [Examples.ivf_handle] and of [Examples.ivf_loaded]. *)
Definition empty_ivf : RefFaiss.index :=
  RefFaiss.mkIndex (RefFaiss.IVFFlat 1264) 4 false [] [].

Definition loaded_ivf : RefFaiss.index :=
  RefFaiss.mkIndex (RefFaiss.IVFFlat 1264) 4 true [1; 2; 3]
    [[0; 0; 0; 0]; [1; 0; 0; 0]; [0; 1; 0; 0]]%Q.

(** A session on a trained handle: an add, a search, an explicit train. *)
Definition session : list (Session.op (F := Q)) :=
  [Session.Add (Some Examples.three_vectors) None 3;
   Session.Search (Some Examples.origin) 2;
   Session.Train (Some Examples.three_vectors) 3].

(** One CUDA device, on which everything succeeds. *)
Definition one_device : Z := 1.
Definition set_device_ok (device : Z) : bool := true.

(** A [std::stof] that knows two literals. *)
Definition stof_two (item : string) : option Q :=
  if (item =? "0.500000")%string then Some (1 # 2)%Q
  else if (item =? "-1.500000")%string then Some (- (3 # 2))%Q
  else None.

Definition stoll_none (item : string) : option Z := None.
Definition no_tuples (query : string) : option (list (list string)) := None.
Definition escape_none (data : list Byte.byte) : option string := None.
Definition unescape_none (text : string) : option (list Byte.byte) := None.

(** A server that refuses the insert of identifier 2 and nothing else. *)
Definition refuse_id_2 (command : string) : bool :=
  negb (command
        =? "INSERT INTO items (id, embedding) VALUES (2, '[1.5]')")%string.

Definition closed_conn : Pgv.PGVConnection :=
  Pgv.mkConn "dbname=vectordb" None.



(** One batch of three vectors, as an argument triple of [add_vectors]. *)
Definition small_batch : option (list Q) * option (list Z) * N :=
  (Some Examples.three_vectors, Some Examples.three_ids, 3%N).

(** The answer of the server to the table query of the cleanup tool. *)
Definition public_tables (query : string) : option (list (list string)) :=
  if (query =? Cleanup.tables_query)%string
  then Some [["users"]; ["items_faiss_index"]; ["test_vectors"]]%string
  else None.

End MoreExamples.

(* ================================================================== *)
(** * Properties *)

(* ------------------------------------------------------------------ *)
(** ** The FAISS-backed wrapper, for every FAISS *)

Section WrapperProps.

Context {F I : Type} `{FaissLib F I}.

Implicit Types h : Wrapper.FAISSWrapper (I := I).

Lemma add_vectors_rejected h vectors ids count :
  Wrapper.rejected (vectors, ids, count) = true ->
  Wrapper.add_vectors h vectors ids count = (-1, h, []).
Proof.
  unfold Wrapper.rejected, Wrapper.add_vectors. intro Hr.
  destruct (Wrapper.index_ h), vectors as [x|]; try reflexivity.
  now rewrite Hr.
Qed.

Lemma add_all_skips_rejected pre : forall h batches,
  forallb Wrapper.rejected pre = true ->
  Wrapper.add_all h (pre ++ batches) = Wrapper.add_all h batches.
Proof.
  induction pre as [|[[vectors ids] count] pre IH]; intros h batches Hr;
    [reflexivity|].
  cbn [forallb] in Hr. apply andb_prop in Hr. destruct Hr as [Hb Hpre].
  cbn [app Wrapper.add_all]. rewrite (add_vectors_rejected h _ _ _ Hb).
  rewrite (IH h batches Hpre).
  now destruct (Wrapper.add_all h batches).
Qed.

(** C10.  [add_vectors] called with a null [vectors] pointer, or with a
    [count] of zero, returns -1, calls nothing on the index and leaves the
    handle (stored vectors and training state included) as it was. *)
Theorem add_vectors_null_or_empty_rejected :
  (forall h ids count,
      Wrapper.add_vectors h None ids count = (-1, h, []))
  /\ (forall h vectors ids,
      Wrapper.add_vectors h vectors ids 0 = (-1, h, [])).
Proof.
  split; intros.
  - now apply add_vectors_rejected.
  - apply add_vectors_rejected. now destruct vectors.
Qed.

Lemma add_call_not_train x ids count :
  is_train (add_call (F := F) x ids count) = false.
Proof. destruct ids; reflexivity. Qed.

Lemma eqb_of_neq (s t : string) : s <> t -> (s =? t)%string = false.
Proof. intro Hne. now apply String.eqb_neq. Qed.

(** C7.  A family string other than "Flat", "IVFFlat" and "HNSW" makes
    [create_index] return a CPU [IndexFlatL2] of the requested dimension,
    whatever the GPU settings, and the constructor installs it. *)
Theorem unrecognized_family_falls_back_to_flat :
  forall (WITH_GPU : bool) (getNumDevices : Z) (index_type : string)
         (dimension : Z) (use_gpu : bool) (gpu_device : Z),
    index_type <> "Flat"%string ->
    index_type <> "IVFFlat"%string ->
    index_type <> "HNSW"%string ->
    (forall g,
        Wrapper.create_index WITH_GPU g index_type dimension
        = Returns (new_IndexFlatL2 dimension))
    /\ exists g,
        Wrapper.new WITH_GPU getNumDevices dimension index_type use_gpu
                    gpu_device
        = Returns (Wrapper.mkWrapper (Some (new_IndexFlatL2 dimension))
                                     dimension g gpu_device index_type false).
Proof.
  intros W nd ty dim ug dev H1 H2 H3.
  assert (Hc : forall g, Wrapper.create_index W g ty dim
                         = Returns (new_IndexFlatL2 dim)).
  { intro g. unfold Wrapper.create_index.
    rewrite (eqb_of_neq H1), (eqb_of_neq H2), (eqb_of_neq H3). reflexivity. }
  split; [exact Hc|].
  unfold Wrapper.new. eexists. rewrite Hc. reflexivity.
Qed.

(** C8.  The cluster count of an inverted-file index is
    [min (4 * 316, 65536) = 1264], 316 being the truncated square root of
    the fixed size 100000; both [create_index] (CPU and GPU branch) and
    [GPUImpl::create_gpu_index] pass this number to the constructor. *)
Theorem ivfflat_cluster_count :
  Z.sqrt 100000 = 316
  /\ Wrapper.ncentroids = Z.min (4 * 316) 65536
  /\ Wrapper.ncentroids = 1264
  /\ (forall (WITH_GPU use_gpu : bool) (dimension : Z),
        Wrapper.create_index WITH_GPU use_gpu "IVFFlat" dimension
        = if WITH_GPU && use_gpu
          then new_GpuIndexIVFFlat dimension 1264
          else Returns (new_IndexIVFFlat (new_IndexFlatL2 dimension)
                                         dimension 1264))
  /\ (forall dimension : Z,
        Wrapper.GPUImpl_create_gpu_index true "IVFFlat" dimension
        = match new_GpuIndexIVFFlat dimension 1264 with
          | Returns i => Some i
          | Throws _ => None
          end).
Proof.
  repeat split; reflexivity.
Qed.

(** *** The training gate *)

(** Splits on what the insertion call of [add_vectors] did, then closes a
    goal that only needs the shape of the handle left behind. *)
Ltac after_add :=
  match goal with
  | |- context [match ?ids with Some _ => _ | None => _ end] =>
      destruct ids;
      [destruct (faiss_add_with_ids _ _ _ _) as [? [?|]]
      |destruct (faiss_add _ _ _) as [? [?|]]];
      cbn; first [discriminate | reflexivity | now split]
  end.

Lemma add_vectors_keeps_trained h vectors ids count :
  Wrapper.trained_ h = true ->
  Wrapper.trained_ (snd (fst (Wrapper.add_vectors h vectors ids count))) = true
  /\ train_count (snd (Wrapper.add_vectors h vectors ids count)) = 0%nat.
Proof.
  intro Ht. unfold Wrapper.add_vectors.
  destruct (Wrapper.index_ h) as [i|] eqn:Hi; [|now split].
  destruct vectors as [x|]; [|now split].
  destruct (count =? 0)%N; [now split|].
  unfold Wrapper.is_trained. rewrite Hi, Ht, orb_true_r. cbn [negb andb].
  rewrite Hi.
  destruct ids as [xids|].
  - destruct (faiss_add_with_ids count x xids i) as [i' [e|]]; cbn; now split.
  - destruct (faiss_add count x i) as [i' [e|]]; cbn; now split.
Qed.

Lemma add_all_keeps_trained batches : forall h,
  Wrapper.trained_ h = true ->
  Wrapper.trained_ (fst (Wrapper.add_all h batches)) = true
  /\ train_count (snd (Wrapper.add_all h batches)) = 0%nat.
Proof.
  induction batches as [|[[vectors ids] count] rest IH]; intros h Ht.
  - now split.
  - cbn [Wrapper.add_all].
    destruct (add_vectors_keeps_trained h vectors ids count Ht) as [Ht1 Hc1].
    destruct (Wrapper.add_vectors h vectors ids count) as [[st h1] log1].
    cbn [fst snd] in Ht1, Hc1.
    destruct (IH h1 Ht1) as [Ht2 Hc2].
    destruct (Wrapper.add_all h1 rest) as [h2 log2]. cbn [fst snd] in *.
    split; [exact Ht2|].
    unfold train_count in *. rewrite filter_app, length_app. lia.
Qed.

Lemma trained_flag_is_trained h :
  Wrapper.index_ h <> None -> Wrapper.trained_ h = true ->
  Wrapper.is_trained h = true.
Proof.
  unfold Wrapper.is_trained. intros Hi Ht.
  destruct (Wrapper.index_ h); [|congruence].
  rewrite Ht. apply orb_true_r.
Qed.

Lemma add_vectors_keeps_index h vectors ids count :
  Wrapper.index_ h <> None ->
  Wrapper.index_ (snd (fst (Wrapper.add_vectors h vectors ids count))) <> None.
Proof.
  intro Hi. unfold Wrapper.add_vectors.
  destruct (Wrapper.index_ h) as [i|] eqn:Ei; [|congruence].
  destruct vectors as [x|]; [|cbn; congruence].
  destruct (count =? 0)%N; [cbn; congruence|].
  destruct (negb (Wrapper.is_trained h)
            && (Wrapper.index_type_ h =? "IVFFlat")%string).
  - unfold Wrapper.train. rewrite Ei.
    destruct (count =? 0)%N; [|destruct (negb (faiss_is_trained i))].
    + rewrite Ei. after_add.
    + destruct (faiss_train _ _ _) as [i' [e|]];
        cbn [Wrapper.set_index Wrapper.set_trained Wrapper.index_];
        after_add.
    + cbn [Wrapper.set_trained Wrapper.index_]. rewrite Ei. after_add.
  - rewrite Ei. after_add.
Qed.

Lemma add_all_keeps_index batches : forall h,
  Wrapper.index_ h <> None ->
  Wrapper.index_ (fst (Wrapper.add_all h batches)) <> None.
Proof.
  induction batches as [|[[vectors ids] count] rest IH]; intros h Hi.
  - exact Hi.
  - cbn [Wrapper.add_all].
    pose proof (add_vectors_keeps_index h vectors ids count Hi) as Hi1.
    destruct (Wrapper.add_vectors h vectors ids count) as [[st h1] log1].
    cbn [fst snd] in Hi1. specialize (IH h1 Hi1).
    destruct (Wrapper.add_all h1 rest) as [h2 log2]. exact IH.
Qed.

Lemma untrained_parts h i :
  Wrapper.index_ h = Some i -> Wrapper.is_trained h = false ->
  faiss_is_trained i = false /\ Wrapper.trained_ h = false.
Proof.
  unfold Wrapper.is_trained. intros -> Hf. now apply orb_false_elim.
Qed.

Lemma train_untrained h i x count :
  Wrapper.index_ h = Some i ->
  Wrapper.is_trained h = false ->
  count <> 0%N ->
  snd (faiss_train (N.min count 100000) x i) = None ->
  Wrapper.train h (Some x) count
  = (Wrapper.set_trained
       (Wrapper.set_index h
          (Some (fst (faiss_train (N.min count 100000) x i)))) true,
     [CTrain (N.min count 100000) x]).
Proof.
  intros Hi Hu Hc Hok. destruct (untrained_parts h Hi Hu) as [Hfi _].
  unfold Wrapper.train. rewrite Hi.
  apply N.eqb_neq in Hc. rewrite Hc, Hfi. cbn [negb].
  destruct (faiss_train (N.min count 100000) x i) as [i' [e|]];
    cbn [snd fst] in *; [discriminate|reflexivity].
Qed.

Lemma first_add h i x ids count :
  Wrapper.index_ h = Some i ->
  Wrapper.index_type_ h = "IVFFlat"%string ->
  Wrapper.is_trained h = false ->
  count <> 0%N ->
  snd (faiss_train (N.min count 100000) x i) = None ->
  exists st h1,
    Wrapper.add_vectors h (Some x) ids count
    = (st, h1, [CTrain (N.min count 100000) x; add_call x ids count])
    /\ Wrapper.trained_ h1 = true
    /\ Wrapper.index_ h1 <> None.
Proof.
  intros Hi Hty Hu Hc Hok.
  unfold Wrapper.add_vectors. rewrite Hi.
  pose proof Hc as Hc'. apply N.eqb_neq in Hc'. rewrite Hc'.
  rewrite Hu, Hty. cbn [negb andb String.eqb Ascii.eqb Bool.eqb].
  rewrite (train_untrained h x Hi Hu Hc Hok).
  cbn [Wrapper.set_trained Wrapper.set_index Wrapper.index_].
  destruct ids as [xids|]; cbn [add_call].
  - destruct (faiss_add_with_ids count x xids _) as [i2 [e|]];
      cbn [fst snd app]; do 2 eexists; (split; [reflexivity|]);
      cbn; (split; [reflexivity|discriminate]).
  - destruct (faiss_add count x _) as [i2 [e|]];
      cbn [fst snd app]; do 2 eexists; (split; [reflexivity|]);
      cbn; (split; [reflexivity|discriminate]).
Qed.

Lemma untrained_add_log h i x ids count :
  Wrapper.index_ h = Some i ->
  Wrapper.index_type_ h = "IVFFlat"%string ->
  Wrapper.is_trained h = false ->
  count <> 0%N ->
  snd (Wrapper.add_vectors h (Some x) ids count)
  = [CTrain (N.min count 100000) x; add_call x ids count].
Proof.
  intros Hi Hty Hu Hc. destruct (untrained_parts h Hi Hu) as [Hfi _].
  unfold Wrapper.add_vectors. rewrite Hi.
  apply N.eqb_neq in Hc. rewrite Hc, Hu, Hty.
  cbn [negb andb String.eqb Ascii.eqb Bool.eqb].
  unfold Wrapper.train. rewrite Hi, Hc, Hfi. cbn [negb].
  destruct (faiss_train _ _ _) as [i' [e|]];
    cbn [Wrapper.set_index Wrapper.set_trained Wrapper.index_];
    unfold add_call; destruct ids;
    [destruct (faiss_add_with_ids _ _ _ _) as [? [?|]]
    |destruct (faiss_add _ _ _) as [? [?|]]
    |destruct (faiss_add_with_ids _ _ _ _) as [? [?|]]
    |destruct (faiss_add _ _ _) as [? [?|]]]; reflexivity.
Qed.

Lemma set_index_same h i :
  Wrapper.index_ h = Some i -> Wrapper.set_index h (Some i) = h.
Proof. destruct h. cbn. now intros ->. Qed.

Lemma first_add_on_trained_index h i x ids count :
  Wrapper.index_ h = Some i ->
  Wrapper.index_type_ h = "IVFFlat"%string ->
  Wrapper.is_trained h = false ->
  count <> 0%N ->
  Wrapper.index_ (snd (fst (Wrapper.add_vectors h (Some x) ids count)))
  = Some (fst (Session.insertion x ids count
                 (fst (faiss_train (N.min count 100000) x i)))).
Proof.
  intros Hi Hty Hu Hc. destruct (untrained_parts h Hi Hu) as [Hfi _].
  unfold Wrapper.add_vectors. rewrite Hi.
  apply N.eqb_neq in Hc. rewrite Hc, Hu, Hty.
  cbn [negb andb String.eqb Ascii.eqb Bool.eqb].
  unfold Wrapper.train. rewrite Hi, Hc, Hfi. cbn [negb].
  destruct (faiss_train (N.min count 100000) x i) as [i' [e|]];
    cbn [fst Wrapper.set_index Wrapper.set_trained Wrapper.index_];
    unfold Session.insertion; destruct ids;
    [destruct (faiss_add_with_ids _ _ _ _) as [? [?|]]
    |destruct (faiss_add _ _ _) as [? [?|]]
    |destruct (faiss_add_with_ids _ _ _ _) as [? [?|]]
    |destruct (faiss_add _ _ _) as [? [?|]]]; reflexivity.
Qed.

Lemma failed_add_is_a_fixed_point h i x ids count e e' :
  Wrapper.index_ h = Some i ->
  Wrapper.index_type_ h = "IVFFlat"%string ->
  Wrapper.is_trained h = false ->
  count <> 0%N ->
  faiss_train (N.min count 100000) x i = (i, Some e) ->
  Session.insertion x ids count i = (i, Some e') ->
  Wrapper.add_vectors h (Some x) ids count
  = (-2, h, [CTrain (N.min count 100000) x; add_call x ids count]).
Proof.
  intros Hi Hty Hu Hc Ht Hins. destruct (untrained_parts h Hi Hu) as [Hfi _].
  unfold Wrapper.add_vectors. rewrite Hi.
  apply N.eqb_neq in Hc. rewrite Hc, Hu, Hty.
  cbn [negb andb String.eqb Ascii.eqb Bool.eqb].
  unfold Wrapper.train. rewrite Hi, Hc, Hfi, Ht. cbn [negb].
  cbn [Wrapper.set_index Wrapper.index_].
  unfold Session.insertion in Hins. unfold add_call.
  destruct ids; rewrite Hins; cbn [fst snd app];
    now rewrite !(set_index_same h Hi).
Qed.

(** C3, as the code has it.  On an inverted-file handle that is not yet
    trained, the first [add_vectors] of a non-empty batch calls
    [index->train] once, on that very batch with the count capped at
    100000, and only then inserts the batch, into the index as the training
    left it.

    If the training call returns, the handle is trained from then on:
    whatever adds follow (and whatever rejected calls came before), the
    whole run contains exactly one training call.  If the owner calls
    [train] first, on any non-empty training data on which the training
    returns, that call trains once and no later [add_vectors] trains again.

    If the training call throws, the exception is swallowed and the handle
    stays untrained.  When the failed training and the insertion that is
    then refused leave the index as it was, the add answers -2 and the
    handle is exactly what it was, so every further add of the batch trains
    again: [n] adds make [n] training calls. *)
Theorem first_add_trains_exactly_once :
  forall h i x ids count,
    Wrapper.index_ h = Some i ->
    Wrapper.index_type_ h = "IVFFlat"%string ->
    Wrapper.is_trained h = false ->
    count <> 0%N ->
    (exists st h1,
        Wrapper.add_vectors h (Some x) ids count
        = (st, h1, [CTrain (N.min count 100000) x; add_call x ids count])
        /\ Wrapper.index_ h1
           = Some (fst (Session.insertion x ids count
                          (fst (faiss_train (N.min count 100000) x i)))))
    /\ (snd (faiss_train (N.min count 100000) x i) = None ->
        Wrapper.is_trained
          (snd (fst (Wrapper.add_vectors h (Some x) ids count))) = true
        /\ (forall pre rest,
              forallb Wrapper.rejected pre = true ->
              train_count
                (snd (Wrapper.add_all h
                        (pre ++ (Some x, ids, count) :: rest)))
              = 1%nat
              /\ Wrapper.is_trained
                   (fst (Wrapper.add_all h
                           (pre ++ (Some x, ids, count) :: rest)))
                 = true))
    /\ (forall training_data n,
          n <> 0%N ->
          snd (faiss_train (N.min n 100000) training_data i) = None ->
          Wrapper.train h (Some training_data) n
          = (Wrapper.set_trained
               (Wrapper.set_index h
                  (Some (fst (faiss_train (N.min n 100000) training_data
                                          i)))) true,
             [CTrain (N.min n 100000) training_data])
          /\ Wrapper.is_trained
               (fst (Wrapper.train h (Some training_data) n)) = true
          /\ forall batches,
              train_count
                (snd (Wrapper.add_all
                        (fst (Wrapper.train h (Some training_data) n))
                        batches)) = 0%nat)
    /\ (forall e e',
          faiss_train (N.min count 100000) x i = (i, Some e) ->
          Session.insertion x ids count i = (i, Some e') ->
          Wrapper.add_vectors h (Some x) ids count
          = (-2, h, [CTrain (N.min count 100000) x; add_call x ids count])
          /\ forall n,
              fst (Wrapper.add_all h (repeat (Some x, ids, count) n)) = h
              /\ train_count
                   (snd (Wrapper.add_all h (repeat (Some x, ids, count) n)))
                 = n).
Proof.
  intros h i x ids count Hi Hty Hu Hc.
  split; [|split; [|split]].
  - pose proof (first_add_on_trained_index h x ids Hi Hty Hu Hc) as Hidx.
    pose proof (untrained_add_log h x ids Hi Hty Hu Hc) as Hlog.
    destruct (Wrapper.add_vectors h (Some x) ids count) as [[st h1] log].
    cbn [fst snd] in *. subst log. exists st, h1. now split.
  - intro Hok.
    destruct (first_add h x ids Hi Hty Hu Hc Hok)
      as (st & h1 & Hadd & Ht1 & Hi1).
    split.
    + rewrite Hadd. cbn [fst snd]. now apply trained_flag_is_trained.
    + intros pre rest Hpre. rewrite (add_all_skips_rejected pre h _ Hpre).
      cbn [Wrapper.add_all]. rewrite Hadd.
      destruct (add_all_keeps_trained rest h1 Ht1) as [Ht2 Hc2].
      pose proof (add_all_keeps_index rest h1 Hi1) as Hi2.
      destruct (Wrapper.add_all h1 rest) as [h2 log2]. cbn [fst snd] in *.
      split.
      * unfold train_count in *. cbn [app filter is_train].
        rewrite add_call_not_train. cbn [List.length]. now rewrite Hc2.
      * now apply trained_flag_is_trained.
  - intros x0 n Hn Hok0.
    rewrite (train_untrained h x0 Hi Hu Hn Hok0). cbn [fst].
    split; [reflexivity|]. split.
    + apply trained_flag_is_trained; cbn; [discriminate|reflexivity].
    + intro batches. now apply add_all_keeps_trained.
  - intros e e' Ht Hins.
    pose proof (failed_add_is_a_fixed_point h x ids Hi Hty Hu Hc Ht Hins)
      as Hadd.
    split; [exact Hadd|].
    induction n as [|n [IHh IHc]]; [now split|].
    cbn [repeat Wrapper.add_all]. rewrite Hadd.
    destruct (Wrapper.add_all h (repeat (Some x, ids, count) n))
      as [h2 log2].
    cbn [fst snd] in *. split; [exact IHh|].
    unfold train_count in *. cbn [app filter is_train].
    rewrite add_call_not_train. cbn [List.length]. now rewrite IHc.
Qed.

Lemma collect_members (k : N) (distances : list F) (labels : list Z)
    (r : SearchResult F) :
  In r (Wrapper.collect k distances labels)
  <-> exists j,
        (j < N.to_nat k)%nat /\ 0 <= nth j labels 0
        /\ r = mkSearchResult (nth j labels 0) (nth j distances fzero).
Proof.
  unfold Wrapper.collect. rewrite in_flat_map. split.
  - intros (j & Hj & Hin). apply in_seq in Hj.
    destruct (0 <=? nth j labels 0) eqn:E; [|destruct Hin].
    destruct Hin as [<-|[]]. exists j. apply Z.leb_le in E.
    repeat split; [lia|exact E].
  - intros (j & Hj & Hl & ->). exists j. split; [apply in_seq; lia|].
    apply Z.leb_le in Hl. rewrite Hl. now left.
Qed.

(** C2, as the code has it.  [search] has no failure status: whatever the
    handle, trained or not, it returns a result vector and never calls
    [index->train].  The vector is empty, and the index is not even asked,
    when the index pointer or the query is null or [k] is 0; it is empty
    when [index->search] throws; and when [index->search] returns, it is
    the list [collect] builds from the two output arrays: its entries are
    exactly the slots, among the first [k], whose label is non-negative,
    each with the distance of its slot. *)
Theorem search_returns_without_training :
  forall h query k,
    train_count (snd (Wrapper.search h query k)) = 0%nat
    /\ (exists results, fst (Wrapper.search h query k) = Returns results)
    /\ (Wrapper.index_ h = None \/ query = None \/ k = 0%N ->
        Wrapper.search h query k = (Returns [], []))
    /\ (forall i q e,
          Wrapper.index_ h = Some i -> query = Some q -> k <> 0%N ->
          faiss_search i q k = Throws e ->
          Wrapper.search h query k = (Returns [], [CSearch q k]))
    /\ (forall i q distances labels,
          Wrapper.index_ h = Some i -> query = Some q -> k <> 0%N ->
          faiss_search i q k = Returns (distances, labels) ->
          Wrapper.search h query k
          = (Returns (Wrapper.collect k distances labels), [CSearch q k])
          /\ forall r,
               In r (Wrapper.collect k distances labels)
               <-> exists j,
                     (j < N.to_nat k)%nat /\ 0 <= nth j labels 0
                     /\ r = mkSearchResult (nth j labels 0)
                                           (nth j distances fzero)).
Proof.
  intros h query k. split; [|split; [|split; [|split]]].
  - unfold Wrapper.search.
    destruct (Wrapper.index_ h) as [i|]; [|reflexivity].
    destruct query as [q|]; [|reflexivity].
    destruct (k =? 0)%N; [reflexivity|].
    destruct (faiss_search i q k) as [[ds ls]|e]; reflexivity.
  - unfold Wrapper.search.
    destruct (Wrapper.index_ h) as [i|]; [|eexists; reflexivity].
    destruct query as [q|]; [|eexists; reflexivity].
    destruct (k =? 0)%N; [eexists; reflexivity|].
    destruct (faiss_search i q k) as [[ds ls]|e]; eexists; reflexivity.
  - intros Hcase. unfold Wrapper.search.
    destruct (Wrapper.index_ h) as [i|]; [|reflexivity].
    destruct query as [q|]; [|reflexivity].
    destruct Hcase as [Hc|[Hc|Hc]]; [discriminate|discriminate|].
    subst k. reflexivity.
  - intros i q e Hi -> Hk Hs. unfold Wrapper.search.
    rewrite Hi. apply N.eqb_neq in Hk. now rewrite Hk, Hs.
  - intros i q ds ls Hi -> Hk Hs. split.
    + unfold Wrapper.search.
      rewrite Hi. apply N.eqb_neq in Hk. now rewrite Hk, Hs.
    + intro r. apply collect_members.
Qed.

(** *** The number of results *)

Lemma length_flat_map_if {A B} (p : A -> bool) (f : A -> B) (l : list A) :
  List.length (flat_map (fun a => if p a then [f a] else []) l)
  = List.length (filter p l).
Proof.
  induction l as [|a l IH]; [reflexivity|].
  cbn [flat_map filter]. rewrite length_app, IH.
  destruct (p a); reflexivity.
Qed.

Lemma length_filter_below (n k : nat) :
  List.length (filter (fun j => j <? n)%nat (seq 0 k)) = Nat.min k n.
Proof.
  induction k as [|k IH]; [reflexivity|].
  rewrite seq_S, filter_app, length_app, IH. cbn [Nat.add filter].
  destruct (k <? n)%nat eqn:E.
  - apply Nat.ltb_lt in E. cbn [List.length]. lia.
  - apply Nat.ltb_ge in E. cbn [List.length]. lia.
Qed.

(** *** Restoring a handle *)

(** The FAISS-backed wrapper forwards to [faiss::write_index] and
    [faiss::read_index]: the round trip of a handle is as good as theirs. *)
Lemma wrapper_roundtrip h h2 i blob i' :
  Wrapper.index_ h = Some i ->
  faiss_write_index i = Returns blob ->
  blob <> [] ->
  faiss_read_index blob = Returns (Some i') ->
  (forall q k, faiss_search i' q k = faiss_search i q k) ->
  Wrapper.serialize h = blob
  /\ fst (Wrapper.deserialize h2 (Wrapper.serialize h)) = 0
  /\ forall query k,
      Wrapper.search (snd (Wrapper.deserialize h2 (Wrapper.serialize h)))
                     query k
      = Wrapper.search h query k.
Proof.
  intros Hi Hw Hne Hr Heq.
  assert (Hs : Wrapper.serialize h = blob).
  { unfold Wrapper.serialize. now rewrite Hi, Hw. }
  rewrite Hs. split; [reflexivity|].
  unfold Wrapper.deserialize.
  destruct blob as [|b blob]; [congruence|]. rewrite Hr. cbn [fst snd].
  split; [reflexivity|].
  intros query k. unfold Wrapper.search.
  cbn [Wrapper.set_trained Wrapper.set_index Wrapper.index_]. rewrite Hi.
  destruct query as [q|]; [|reflexivity].
  now rewrite Heq.
Qed.

End WrapperProps.

(* ------------------------------------------------------------------ *)
(** ** The stub *)

Section StubProps.

Variable F : Type.
Variable flt : F -> F -> bool.

Implicit Types h : Stub.FAISSWrapper F.

Lemma insert_by_distance_length x (l : list (SearchResult F)) :
  List.length (Stub.insert_by_distance flt x l) = S (List.length l).
Proof.
  induction l as [|y l IH]; [reflexivity|].
  cbn [Stub.insert_by_distance].
  destruct (flt (distance y) (distance x)); cbn [List.length]; now rewrite ?IH.
Qed.

Lemma sort_by_distance_length (l : list (SearchResult F)) :
  List.length (Stub.sort_by_distance flt l) = List.length l.
Proof.
  induction l as [|x l IH]; [reflexivity|].
  cbn [Stub.sort_by_distance fold_right].
  rewrite insert_by_distance_length. cbn [List.length]. f_equal. exact IH.
Qed.

Lemma insert_by_distance_in x y (l : list (SearchResult F)) :
  In y (Stub.insert_by_distance flt x l) -> y = x \/ In y l.
Proof.
  induction l as [|z l IH]; cbn [Stub.insert_by_distance].
  - intros [->|[]]. now left.
  - destruct (flt (distance z) (distance x)).
    + intros [->|Hin]; [right; now left|].
      destruct (IH Hin) as [->|Hl]; [now left|right; now right].
    + intros [->|Hin]; [now left|now right].
Qed.

Lemma sort_by_distance_in y (l : list (SearchResult F)) :
  In y (Stub.sort_by_distance flt l) -> In y l.
Proof.
  induction l as [|x l IH]; [easy|].
  cbn [Stub.sort_by_distance fold_right]. intro Hin.
  destruct (insert_by_distance_in _ _ _ Hin) as [->|Hl];
    [now left|right; now apply IH].
Qed.

Lemma stub_search_length h query k dis :
  List.length (Stub.search flt h query k dis)
  = N.to_nat (N.min k (Stub.get_ntotal h)).
Proof.
  unfold Stub.search, Stub.get_ntotal.
  rewrite sort_by_distance_length.
  rewrite (length_flat_map_if
             (fun i => (i <? List.length (Stub.ids (Stub.index_ h)))%nat)
             (fun i => mkSearchResult (nth i (Stub.ids (Stub.index_ h)) 0)
                                      (dis i))).
  rewrite length_filter_below. lia.
Qed.

(** Every distance the stub reports is one of the random draws: none is
    computed from the query or from a stored vector. *)
Lemma stub_search_distances_are_draws h query k dis r :
  In r (Stub.search flt h query k dis) ->
  exists i, (i < List.length (Stub.ids (Stub.index_ h)))%nat
            /\ id r = nth i (Stub.ids (Stub.index_ h)) 0
            /\ distance r = dis i.
Proof.
  unfold Stub.search. intro Hin. apply sort_by_distance_in in Hin.
  apply in_flat_map in Hin. destruct Hin as (i & _ & Hi).
  destruct (i <? List.length (Stub.ids (Stub.index_ h)))%nat eqn:E;
    [|destruct Hi].
  destruct Hi as [<-|[]]. exists i. apply Nat.ltb_lt in E. auto.
Qed.

End StubProps.

(* ------------------------------------------------------------------ *)
(** ** The row encoding *)

Section PgvProps.

Local Open Scope string_scope.

Lemma string_app_assoc (a b c : string) : (a ++ b) ++ c = a ++ (b ++ c).
Proof. induction a as [|ch a IH]; cbn; [reflexivity|now rewrite IH]. Qed.

Lemma string_length_app (a b : string) :
  String.length (a ++ b) = (String.length a + String.length b)%nat.
Proof. induction a as [|ch a IH]; cbn; [reflexivity|now rewrite IH]. Qed.

Lemma fixed_digits_length (w : nat) : forall n,
  String.length (Pgv.fixed_digits w n) = w.
Proof.
  induction w as [|w IH]; intro n; cbn [Pgv.fixed_digits]; [reflexivity|].
  rewrite string_length_app, IH. cbn. lia.
Qed.

(** Under [std::fixed << std::setprecision(6)] a component is written with a
    decimal point followed by exactly six digits. *)
Lemma fmt_fixed_six_fraction_digits (x : Q) :
  exists int_part fraction,
    Pgv.fmt_fixed 6 x = int_part ++ "." ++ fraction
    /\ String.length fraction = 6%nat.
Proof.
  unfold Pgv.fmt_fixed.
  eexists (Pgv.sign_of x ++ _), _. split.
  - rewrite string_app_assoc. reflexivity.
  - apply fixed_digits_length.
Qed.

Lemma for_each_fixed (v : list Q) : forall i os,
  Pgv.str
    (Pgv.for_each
       (fun i x os =>
          Pgv.put_float x
            (Pgv.setprecision 6 (Pgv.fixed (Pgv.comma_if_not_first i os))))
       i v os)
  = Pgv.str os ++ Pgv.fixed6_list i v.
Proof.
  induction v as [|x v IH]; intros i os; cbn [Pgv.for_each Pgv.fixed6_list].
  - clear. induction (Pgv.str os) as [|c s IHs]; cbn; congruence.
  - rewrite IH. destruct i; cbn; now rewrite ?string_app_assoc.
Qed.

(** [insert_vector] writes every component of its vector in that form. *)
Lemma insert_vector_query_fixed (table_name : string) (id : Z) (v : list Q) :
  Pgv.insert_vector_query table_name id v
  = "INSERT INTO " ++ table_name ++ " (id, embedding) VALUES ("
    ++ Pgv.dec_of_Z id ++ ", '[" ++ Pgv.fixed6_list 0 v ++ "]')".
Proof.
  unfold Pgv.insert_vector_query. cbn [Pgv.put Pgv.str].
  rewrite for_each_fixed. cbn [Pgv.put_int Pgv.put Pgv.str Pgv.ostringstream].
  cbn [String.append]. now rewrite !string_app_assoc.
Qed.

End PgvProps.

(* ------------------------------------------------------------------ *)
(** ** The two builds side by side *)


Lemma length_filter_of_map {A B} (p : B -> bool) (f : A -> B) (l : list A) :
  List.length (filter p (map f l))
  = List.length (filter (fun a => p (f a)) l).
Proof.
  induction l as [|a l IH]; [reflexivity|].
  cbn [map filter]. destruct (p (f a)); cbn [List.length]; now rewrite IH.
Qed.






(** C1, in the stub build.  The stub's [serialize] writes nothing of the
    index: its blob is the same 21 bytes for every handle.  Its
    [deserialize] reads nothing: whatever the blob, it answers 0 and the
    receiving handle is what it was.  So [deserialize(serialize(h))] gives a
    handle that answers as the receiving handle did, not as [h] does:
    restored into a handle holding no vector it finds nothing, where [h],
    holding at least one vector, returns [min k n] >= 1 entries for every
    positive [k]. *)
Theorem stub_roundtrip_restores_nothing :
  forall (F : Type) (flt : F -> F -> bool) (h r : Stub.FAISSWrapper F)
         (q : list F) (k : N) (dis dis' : nat -> F),
    k <> 0%N ->
    Stub.ids (Stub.index_ h) <> [] ->
    Stub.ids (Stub.index_ r) = [] ->
    Stub.serialize h = list_byte_of_string "stub_faiss_index_v1.0"
    /\ (forall data, Stub.deserialize r data = (0, r))
    /\ Stub.search flt (snd (Stub.deserialize r (Stub.serialize h))) q k dis'
       = []
    /\ List.length (Stub.search flt h q k dis)
       = N.to_nat (N.min k (Stub.get_ntotal h))
    /\ Stub.search flt h q k dis <> [].
Proof.
  intros F flt h r q k dis dis' Hk Hh Hr.
  pose proof (stub_search_length flt h q k dis) as Hlen.
  split; [reflexivity|]. split; [reflexivity|]. split; [|split].
  - cbn [Stub.deserialize snd]. apply length_zero_iff_nil.
    rewrite stub_search_length. unfold Stub.get_ntotal. rewrite Hr.
    cbn. lia.
  - exact Hlen.
  - intro Hnil. rewrite Hnil in Hlen. cbn [List.length] in Hlen.
    unfold Stub.get_ntotal in Hlen.
    destruct (Stub.ids (Stub.index_ h)); [congruence|].
    cbn [List.length] in Hlen. lia.
Qed.

(** C4: the stub on the scenario of three vectors of dimension 4 with
    identifiers 1, 2, 3 and the query [0,0,0,0], [k = 2].  With the draws
    5.0 and 0.5 it answers identifier 2 at distance 0.5, then identifier 1
    at distance 5.0: the distances are the draws, not the distances 0 and 1
    of the stored vectors, and the order follows the draws. *)
Theorem stub_search_scenario_follows_the_draws :
  Stub.search Qltb Examples.stub_loaded Examples.origin 2 Examples.draws
  = [mkSearchResult 2 (1 # 2)%Q; mkSearchResult 1 5%Q]
  /\ map id (Stub.search Qltb Examples.stub_loaded Examples.origin 2
                         Examples.draws) <> [1; 2]
  /\ map distance (Stub.search Qltb Examples.stub_loaded Examples.origin 2
                               Examples.draws) <> [0%Q; 1%Q]
  /\ RefFaiss.l2sqr Examples.origin [0; 0; 0; 0]%Q = 0%Q
  /\ RefFaiss.l2sqr Examples.origin [1; 0; 0; 0]%Q = 1%Q.
Proof.
  repeat split; try reflexivity; vm_compute; discriminate.
Qed.

(** C9: [store_vectors] writes the components 0.5 and 1234567.0 as [0.5]
    and [1.23457e+06], in the stream's default format (six significant
    digits), where [insert_vector] and [batch_insert_vectors] write
    [0.500000] and [1234567.000000]. *)
Theorem store_vectors_writes_default_format :
  Pgv.store_vectors Examples.accept_all Examples.open_conn "items"
                    [[1 # 2; 1234567]]%Q [1]
  = (Returns true,
     ["BEGIN";
      "INSERT INTO items (id, embedding) VALUES (1, '[0.5,1.23457e+06]')";
      "COMMIT"]%string)
  /\ Pgv.insert_vector Examples.accept_all Examples.open_conn "items" 1
                       [1 # 2; 1234567]%Q
     = (true,
        ["INSERT INTO items (id, embedding) VALUES (1, '[0.500000,1234567.000000]')"]%string)
  /\ Pgv.batch_insert_vectors Examples.accept_all Examples.open_conn "items"
                              [1] [[1 # 2; 1234567]]%Q
     = (true,
        ["INSERT INTO items (id, embedding) VALUES (1, '[0.500000,1234567.000000]')"]%string).
Proof.
  repeat split; vm_compute; reflexivity.
Qed.

(* ------------------------------------------------------------------ *)
(** ** Instances on concrete handles *)

(** C3 on [Examples.ivf_handle].  Over the reference index, whose
    training returns: two adds, one training call, of the first batch.
    Over the index that refuses to train on fewer vectors than it has
    clusters: four adds of the three-vector batch, four training calls. *)
Lemma first_add_trains_exactly_once_witness :
  (Wrapper.index_type_ Examples.ivf_handle = "IVFFlat"%string
   /\ Wrapper.is_trained Examples.ivf_handle = false
   /\ snd (faiss_train (N.min 3 100000) Examples.three_vectors
             (RefFaiss.mkIndex (RefFaiss.IVFFlat 1264) 4 false [] []))
      = None
   /\ faiss_train (FaissLib := StrictFaiss.lib) (N.min 3 100000)
        Examples.three_vectors MoreExamples.empty_ivf
      = (MoreExamples.empty_ivf, Some "Error: 'nx >= k' failed"%string))
  /\ train_count
       (snd (Wrapper.add_all Examples.ivf_handle
               [(Some Examples.three_vectors, Some Examples.three_ids, 3%N);
                (Some Examples.three_vectors, None, 3%N)]))
     = 1%nat
  /\ train_count
       (snd (Wrapper.add_all (H := StrictFaiss.lib) Examples.ivf_handle
               (repeat MoreExamples.small_batch 4)))
     = 4%nat.
Proof.
  split; [repeat split|].
  pose proof (@first_add_trains_exactly_once Q RefFaiss.index RefFaiss.lib
                Examples.ivf_handle
                (RefFaiss.mkIndex (RefFaiss.IVFFlat 1264) 4 false [] [])
                Examples.three_vectors (Some Examples.three_ids) 3%N
                eq_refl eq_refl eq_refl ltac:(discriminate)) as W.
  pose proof (@first_add_trains_exactly_once Q RefFaiss.index StrictFaiss.lib
                Examples.ivf_handle MoreExamples.empty_ivf
                Examples.three_vectors (Some Examples.three_ids) 3%N
                eq_refl eq_refl eq_refl ltac:(discriminate)) as S.
  split.
  - exact (proj1 (proj2 (proj1 (proj2 W) eq_refl) []
                    [(Some Examples.three_vectors, None, 3%N)] eq_refl)).
  - exact (proj2 (proj2 (proj2 (proj2 (proj2 S))
                           "Error: 'nx >= k' failed"%string
                           "Error: 'is_trained' failed"%string
                           eq_refl eq_refl)
                        4%nat)).
Defined.

(** C2 on the loaded reference handle: the index answers three slots with
    the identifiers 1, 2, 3 and two with the filler, and the result is what
    [collect] makes of them. *)
Lemma search_returns_without_training_witness :
  faiss_search
    (RefFaiss.mkIndex (RefFaiss.IVFFlat 1264) 4 true [1; 2; 3]
       [[0; 0; 0; 0]; [1; 0; 0; 0]; [0; 1; 0; 0]]%Q)
    Examples.origin 5
  = Returns ([0; 1; 1; RefFaiss.FLT_MAX; RefFaiss.FLT_MAX]%Q,
             [1; 2; 3; -1; -1])
  /\ Wrapper.search Examples.ivf_loaded (Some Examples.origin) 5
     = (Returns [mkSearchResult 1 0%Q; mkSearchResult 2 1%Q;
                 mkSearchResult 3 1%Q],
        [CSearch Examples.origin 5]).
Proof.
  split; [reflexivity|].
  exact (proj1
           (proj2 (proj2 (proj2 (proj2
              (@search_returns_without_training Q RefFaiss.index
                 RefFaiss.lib Examples.ivf_loaded (Some Examples.origin)
                 5%N))))
              (RefFaiss.mkIndex (RefFaiss.IVFFlat 1264) 4 true [1; 2; 3]
                 [[0; 0; 0; 0]; [1; 0; 0; 0]; [0; 1; 0; 0]]%Q)
              Examples.origin
              [0; 1; 1; RefFaiss.FLT_MAX; RefFaiss.FLT_MAX]%Q
              [1; 2; 3; -1; -1]
              eq_refl eq_refl ltac:(discriminate) eq_refl)).
Defined.

(** C7 on the family name "LSH". *)
Lemma unrecognized_family_falls_back_to_flat_witness :
  ("LSH" <> "Flat" /\ "LSH" <> "IVFFlat" /\ "LSH" <> "HNSW")%string
  /\ Wrapper.create_index (H := RefFaiss.lib) true true "LSH" 8
     = Returns (RefFaiss.mkIndex RefFaiss.Flat 8 true [] []).
Proof.
  split; [repeat split; discriminate|].
  exact (proj1 (@unrecognized_family_falls_back_to_flat Q RefFaiss.index
                  RefFaiss.lib true 1 "LSH"%string 8 true 0
                  ltac:(discriminate) ltac:(discriminate)
                  ltac:(discriminate))
               true).
Defined.



(** C1 on the stub handle holding the three vectors, restored into the
    handle [FAISSWrapper(4, "Flat")]: the restored handle finds nothing,
    the original returns two entries. *)
Lemma stub_roundtrip_restores_nothing_witness :
  (Stub.ids (Stub.index_ Examples.stub_loaded) <> []
   /\ Stub.ids (Stub.index_ Examples.stub_flat) = [])
  /\ Stub.deserialize Examples.stub_flat
       (Stub.serialize Examples.stub_loaded)
     = (0, Examples.stub_flat)
  /\ Stub.search Qltb
       (snd (Stub.deserialize Examples.stub_flat
               (Stub.serialize Examples.stub_loaded)))
       Examples.origin 2 Examples.draws
     = []
  /\ List.length (Stub.search Qltb Examples.stub_loaded Examples.origin 2
                              Examples.draws)
     = 2%nat.
Proof.
  assert (Hh : Stub.ids (Stub.index_ Examples.stub_loaded) <> [])
    by discriminate.
  split; [split; [exact Hh|reflexivity]|].
  pose proof (@stub_roundtrip_restores_nothing Q Qltb Examples.stub_loaded
                Examples.stub_flat Examples.origin 2%N Examples.draws
                Examples.draws ltac:(discriminate) Hh eq_refl) as W.
  destruct W as (_ & Hd & Hs & Hl & _).
  split; [apply Hd|]. split; [exact Hs|exact Hl].
Defined.

(* ------------------------------------------------------------------ *)
(** ** Where the code departs from the stated behaviour *)

(** C2 as stated fails: on the untrained inverted-file handle a search
    returns normally, with an empty vector; no error comes back. *)
Lemma search_untrained_ivf_reports_no_error :
  Wrapper.index_type_ Examples.ivf_handle = "IVFFlat"%string
  /\ Wrapper.is_trained Examples.ivf_handle = false
  /\ Wrapper.search Examples.ivf_handle (Some Examples.origin) 2
     = (Returns [], [CSearch Examples.origin 2])
  /\ ~ (exists e,
          fst (Wrapper.search Examples.ivf_handle (Some Examples.origin) 2)
          = Throws e).
Proof.
  repeat split. intros [e He]. discriminate He.
Qed.

(** C3 as stated fails: on the untrained inverted-file handle, with an
    index that refuses to train on fewer vectors than it has clusters, each
    of three adds of a three-vector batch calls [index->train] again; the
    run holds three training calls, every add answers -2 and the handle is
    still untrained. *)
Lemma small_batches_train_every_time :
  Wrapper.index_type_ Examples.ivf_handle = "IVFFlat"%string
  /\ Wrapper.is_trained (H := StrictFaiss.lib) Examples.ivf_handle = false
  /\ Wrapper.add_vectors (H := StrictFaiss.lib) Examples.ivf_handle
       (Some Examples.three_vectors) (Some Examples.three_ids) 3
     = (-2, Examples.ivf_handle,
        [CTrain 3 Examples.three_vectors;
         CAddWithIds 3 Examples.three_vectors Examples.three_ids])
  /\ train_count
       (snd (Wrapper.add_all (H := StrictFaiss.lib) Examples.ivf_handle
               [MoreExamples.small_batch; MoreExamples.small_batch;
                MoreExamples.small_batch]))
     = 3%nat
  /\ Wrapper.is_trained (H := StrictFaiss.lib)
       (fst (Wrapper.add_all (H := StrictFaiss.lib) Examples.ivf_handle
               [MoreExamples.small_batch; MoreExamples.small_batch;
                MoreExamples.small_batch]))
     = false.
Proof.
  repeat split.
Qed.




(* ================================================================== *)
(** * Further properties *)

(* ------------------------------------------------------------------ *)
(** ** The FAISS-backed wrapper: statuses, bounds, sessions *)

Section WrapperMore.

Context {F I : Type} `{FaissLib F I}.

Implicit Types h : Wrapper.FAISSWrapper (I := I).

(** X1.  [add_vectors] has three outcomes.  It answers -1, leaving the
    handle alone and calling nothing, exactly when the index pointer or the
    [vectors] pointer is null or [count] is 0.  Otherwise, [i] being the
    index the handle holds: if the handle is untrained and of type
    "IVFFlat", [index->train] is called first, once, on the batch with the
    count capped at 100000; then one insertion call ([add_with_ids] if
    identifiers were given, [add] if not) is made on that same index, in
    the state the training left it in; the handle holds the index as the
    insertion left it, and the answer is 0 if the insertion returned and -2
    if it threw. *)
Theorem add_vectors_statuses :
  forall h vectors ids count,
    (Wrapper.add_vectors h vectors ids count = (-1, h, [])
     /\ (Wrapper.index_ h = None
         \/ Wrapper.rejected (vectors, ids, count) = true))
    \/ exists x i,
        vectors = Some x /\ count <> 0%N /\ Wrapper.index_ h = Some i
        /\ let trains :=
             negb (Wrapper.is_trained h)
             && (Wrapper.index_type_ h =? "IVFFlat")%string in
           let i1 :=
             if trains then fst (faiss_train (N.min count 100000) x i)
             else i in
           Wrapper.index_
             (snd (fst (Wrapper.add_vectors h vectors ids count)))
           = Some (fst (Session.insertion x ids count i1))
           /\ fst (fst (Wrapper.add_vectors h vectors ids count))
              = match snd (Session.insertion x ids count i1) with
                | None => 0
                | Some _ => -2
                end
           /\ snd (Wrapper.add_vectors h vectors ids count)
              = ((if trains then [CTrain (N.min count 100000) x] else [])
                 ++ [add_call x ids count])%list.
Proof.
  intros h vectors ids count. unfold Wrapper.add_vectors.
  destruct (Wrapper.index_ h) as [i|] eqn:Hi; [|left; auto].
  destruct vectors as [x|]; [|left; auto].
  destruct (count =? 0)%N eqn:Hc; [left; cbn; rewrite Hc; auto|].
  assert (Hne : count <> 0%N) by now apply N.eqb_neq.
  right. exists x, i. split; [reflexivity|]. split; [exact Hne|].
  split; [reflexivity|]. cbv zeta.
  destruct (negb (Wrapper.is_trained h)
            && (Wrapper.index_type_ h =? "IVFFlat")%string) eqn:Et.
  - assert (Hfi : faiss_is_trained i = false).
    { apply andb_prop in Et. destruct Et as [Hu _].
      apply negb_true_iff in Hu.
      now destruct (untrained_parts h Hi Hu). }
    unfold Wrapper.train. rewrite Hi, Hc, Hfi. cbn [negb].
    destruct (faiss_train (N.min count 100000) x i) as [i' [e|]];
      cbn [fst Wrapper.set_index Wrapper.set_trained Wrapper.index_];
      unfold Session.insertion, add_call; destruct ids;
      [destruct (faiss_add_with_ids count x l i') as [? [?|]]
      |destruct (faiss_add count x i') as [? [?|]]
      |destruct (faiss_add_with_ids count x l i') as [? [?|]]
      |destruct (faiss_add count x i') as [? [?|]]];
      cbn; repeat split.
  - rewrite Hi.
    unfold Session.insertion, add_call; destruct ids;
      [destruct (faiss_add_with_ids count x l i) as [? [?|]]
      |destruct (faiss_add count x i) as [? [?|]]];
      cbn; repeat split.
Qed.

(** *** What [search] hands back *)

Lemma flat_map_map {A B C} (f : B -> list C) (g : A -> B) (l : list A) :
  flat_map f (map g l) = flat_map (fun a => f (g a)) l.
Proof.
  induction l as [|a l IH]; [reflexivity|]. cbn. now rewrite IH.
Qed.

Lemma collect_bounds (k : N) distances labels :
  (List.length (Wrapper.collect (F := F) k distances labels)
   <= N.to_nat k)%nat
  /\ Forall (fun r => 0 <= id r) (Wrapper.collect k distances labels).
Proof.
  unfold Wrapper.collect. split.
  - rewrite (length_flat_map_if (fun i => 0 <=? nth i labels 0)
               (fun i => mkSearchResult (nth i labels 0)
                                        (nth i distances fzero))).
    etransitivity; [apply filter_length_le|]. now rewrite length_seq.
  - apply Forall_forall. intros r Hin. apply in_flat_map in Hin.
    destruct Hin as (j & _ & Hj).
    destruct (0 <=? nth j labels 0) eqn:E; [|destruct Hj].
    destruct Hj as [<-|[]]. cbn. now apply Z.leb_le.
Qed.

(** X2.  A search never fails, never returns more than [k] entries and
    never returns a negative identifier, whatever the index answers. *)
Theorem search_results_bounded :
  forall h query k,
    exists results,
      fst (Wrapper.search h query k) = Returns results
      /\ (List.length results <= N.to_nat k)%nat
      /\ Forall (fun r => 0 <= id r) results.
Proof.
  intros h query k. unfold Wrapper.search.
  destruct (Wrapper.index_ h) as [i|];
    [|exists []; cbn; repeat split; [lia|constructor]].
  destruct query as [q|];
    [|exists []; cbn; repeat split; [lia|constructor]].
  destruct (k =? 0)%N;
    [exists []; cbn; repeat split; [lia|constructor]|].
  destruct (faiss_search i q k) as [[ds ls]|e].
  - exists (Wrapper.collect k ds ls). cbn [fst].
    split; [reflexivity|]. apply collect_bounds.
  - exists []. cbn. repeat split; [lia|constructor].
Qed.

Lemma collect_full (labels : list Z) : forall distances : list F,
  List.length distances = List.length labels ->
  flat_map
    (fun i =>
       if 0 <=? nth i labels 0
       then [mkSearchResult (nth i labels 0) (nth i distances fzero)]
       else [])
    (seq 0 (List.length labels))
  = map (fun p => mkSearchResult (fst p) (snd p))
        (filter (fun p => 0 <=? fst p) (combine labels distances)).
Proof.
  induction labels as [|l labels IH]; intros [|d distances] Hlen;
    try discriminate; [reflexivity|].
  cbn [List.length seq flat_map combine filter nth fst].
  rewrite <- seq_shift, flat_map_map. cbn [nth].
  rewrite IH by (cbn in Hlen; lia).
  destruct (0 <=? l); reflexivity.
Qed.

(** X3.  When the index writes all [k] slots, the result is exactly the
    slots with a non-negative label, in the order the index wrote them, each
    identifier paired with the distance of its own slot. *)
Theorem search_keeps_slot_order :
  forall h i q k distances labels,
    Wrapper.index_ h = Some i ->
    k <> 0%N ->
    faiss_search i q k = Returns (distances, labels) ->
    List.length labels = N.to_nat k ->
    List.length distances = N.to_nat k ->
    fst (Wrapper.search h (Some q) k)
    = Returns (map (fun p => mkSearchResult (fst p) (snd p))
                   (filter (fun p => 0 <=? fst p)
                           (combine labels distances))).
Proof.
  intros h i q k ds ls Hi Hk Hs Hl Hd. unfold Wrapper.search.
  rewrite Hi. apply N.eqb_neq in Hk. rewrite Hk, Hs. cbn [fst].
  unfold Wrapper.collect. rewrite <- Hl. f_equal.
  apply collect_full. congruence.
Qed.

(** *** Training *)

Lemma train_keeps_config h data count :
  Session.config (fst (Wrapper.train h data count)) = Session.config h.
Proof.
  unfold Wrapper.train.
  destruct (Wrapper.index_ h) as [i|]; [|reflexivity].
  destruct data as [x|]; [|reflexivity].
  destruct (count =? 0)%N; [reflexivity|].
  destruct (negb (faiss_is_trained i)); [|reflexivity].
  destruct (faiss_train _ _ _) as [i' [e|]]; reflexivity.
Qed.

Lemma train_keeps_trained h data count :
  Wrapper.trained_ h = true ->
  Wrapper.trained_ (fst (Wrapper.train h data count)) = true.
Proof.
  intro Ht. unfold Wrapper.train.
  destruct (Wrapper.index_ h) as [i|]; [|exact Ht].
  destruct data as [x|]; [|exact Ht].
  destruct (count =? 0)%N; [exact Ht|].
  destruct (negb (faiss_is_trained i)); [|reflexivity].
  destruct (faiss_train _ _ _) as [i' [e|]]; [exact Ht|reflexivity].
Qed.

Lemma train_count_le_1 h data count :
  (train_count (snd (Wrapper.train h data count)) <= 1)%nat.
Proof.
  unfold Wrapper.train.
  destruct (Wrapper.index_ h) as [i|]; [|cbn; lia].
  destruct data as [x|]; [|cbn; lia].
  destruct (count =? 0)%N; [cbn; lia|].
  destruct (negb (faiss_is_trained i)); [|cbn; lia].
  destruct (faiss_train _ _ _) as [i' [e|]]; cbn; lia.
Qed.

(** X4.  [train] with a null pointer or a zero count is a silent no-op.
    Any other call reaches [index->train] at most once, and then with the
    caller's array and [min count 100000] as the number of vectors, never
    more than 100000 nor than [count]; and no call ever clears the
    [trained_] flag. *)
Theorem train_discipline :
  (forall h count, Wrapper.train h None count = (h, []))
  /\ (forall h data, Wrapper.train h data 0 = (h, []))
  /\ forall h x count,
      (snd (Wrapper.train h (Some x) count) = []
       \/ snd (Wrapper.train h (Some x) count)
          = [CTrain (N.min count 100000) x])
      /\ (N.min count 100000 <= 100000)%N
      /\ (N.min count 100000 <= count)%N
      /\ implb (Wrapper.trained_ h)
               (Wrapper.trained_ (fst (Wrapper.train h (Some x) count)))
         = true.
Proof.
  split; [|split].
  - intros h count. unfold Wrapper.train.
    now destruct (Wrapper.index_ h).
  - intros h data. unfold Wrapper.train.
    now destruct (Wrapper.index_ h), data.
  - intros h x count. repeat split; try lia.
    + unfold Wrapper.train.
      destruct (Wrapper.index_ h) as [i|]; [|now left].
      destruct (count =? 0)%N; [now left|].
      destruct (negb (faiss_is_trained i)); [|now left].
      destruct (faiss_train _ _ _) as [i' [e|]]; now right.
    + destruct (Wrapper.trained_ h) eqn:Et; [|reflexivity].
      cbn [implb]. now apply train_keeps_trained.
Qed.

(** X5.  When the automatic training of the first add throws, and FAISS
    then refuses the insertion into the still untrained index, [add_vectors]
    answers -2 and the handle stays untrained; the next add therefore calls
    [index->train] again, so that two such adds make two training calls. *)
Theorem failed_training_is_retried :
  forall h i x ids count i' e e',
    Wrapper.index_ h = Some i ->
    Wrapper.index_type_ h = "IVFFlat"%string ->
    Wrapper.is_trained h = false ->
    count <> 0%N ->
    faiss_train (N.min count 100000) x i = (i', Some e) ->
    faiss_is_trained i' = false ->
    Session.insertion x ids count i' = (i', Some e') ->
    Wrapper.add_vectors h (Some x) ids count
    = (-2, Wrapper.set_index h (Some i'),
       [CTrain (N.min count 100000) x; add_call x ids count])
    /\ Wrapper.is_trained (Wrapper.set_index h (Some i')) = false
    /\ train_count
         (snd (Wrapper.add_all h [(Some x, ids, count); (Some x, ids, count)]))
       = 2%nat.
Proof.
  intros h i x ids count i' e e' Hi Hty Hu Hc Ht Hfi' Hins.
  destruct (untrained_parts h Hi Hu) as [Hfi Htr].
  assert (Hadd : Wrapper.add_vectors h (Some x) ids count
                 = (-2, Wrapper.set_index h (Some i'),
                    [CTrain (N.min count 100000) x; add_call x ids count])).
  { unfold Wrapper.add_vectors. rewrite Hi.
    pose proof Hc as Hc'. apply N.eqb_neq in Hc'. rewrite Hc', Hu, Hty.
    cbn [negb andb String.eqb Ascii.eqb Bool.eqb].
    unfold Wrapper.train. rewrite Hi, Hc', Hfi, Ht. cbn [negb].
    cbn [Wrapper.set_index Wrapper.index_].
    unfold Session.insertion in Hins. unfold add_call.
    destruct ids; rewrite Hins; reflexivity. }
  assert (Hu' : Wrapper.is_trained (Wrapper.set_index h (Some i')) = false).
  { unfold Wrapper.is_trained. cbn. now rewrite Hfi', Htr. }
  split; [exact Hadd|]. split; [exact Hu'|].
  cbn [Wrapper.add_all]. rewrite Hadd.
  pose proof (untrained_add_log (Wrapper.set_index h (Some i')) x ids
                eq_refl Hty Hu' Hc) as Hlog.
  destruct (Wrapper.add_vectors (Wrapper.set_index h (Some i')) (Some x)
                                ids count) as [[st2 h2] log2].
  cbn [snd] in *. subst log2. unfold train_count.
  cbn [app filter is_train]. rewrite !add_call_not_train. reflexivity.
Qed.

(** *** Sessions *)

Lemma search_log_no_train h query k :
  train_count (snd (Wrapper.search h query k)) = 0%nat.
Proof.
  unfold Wrapper.search.
  destruct (Wrapper.index_ h) as [i|]; [|reflexivity].
  destruct query as [q|]; [|reflexivity].
  destruct (k =? 0)%N; [reflexivity|].
  destruct (faiss_search i q k) as [[ds ls]|e]; reflexivity.
Qed.

Lemma step_keeps_trained h o :
  Wrapper.trained_ h = true ->
  Session.is_deserialize o = false ->
  Wrapper.trained_ (fst (Session.step h o)) = true
  /\ (train_count (snd (Session.step h o))
      <= if Session.is_train_op o then 1 else 0)%nat.
Proof.
  intros Ht Hd. destruct o as [d c|v ids c|q k|data]; cbn [Session.step
    Session.is_train_op]; [| | |discriminate].
  - split; [now apply train_keeps_trained|apply train_count_le_1].
  - destruct (add_vectors_keeps_trained h v ids c Ht) as [Ht1 Hc1].
    destruct (Wrapper.add_vectors h v ids c) as [[st h1] log].
    cbn [fst snd] in *. split; [exact Ht1|lia].
  - cbn [fst snd]. split; [exact Ht|]. rewrite search_log_no_train. lia.
Qed.

(** X6.  Once the [trained_] flag of a handle is set, no sequence of
    [train], [add_vectors] and [search] calls clears it, and none of the
    adds or searches trains: the training calls of the whole session are at
    most as many as its explicit [train] calls. *)
Theorem trained_flag_is_kept :
  forall ops h,
    Wrapper.trained_ h = true ->
    forallb (fun o => negb (Session.is_deserialize o)) ops = true ->
    Wrapper.trained_ (fst (Session.run h ops)) = true
    /\ (train_count (snd (Session.run h ops))
        <= List.length (filter Session.is_train_op ops))%nat.
Proof.
  induction ops as [|o ops IH]; intros h Ht Hops.
  - cbn. split; [exact Ht|lia].
  - cbn [forallb] in Hops. apply andb_prop in Hops.
    destruct Hops as [Ho Hops]. apply negb_true_iff in Ho.
    destruct (step_keeps_trained h o Ht Ho) as [Ht1 Hc1].
    cbn [Session.run]. destruct (Session.step h o) as [h1 log1].
    cbn [fst snd] in *. destruct (IH h1 Ht1 Hops) as [Ht2 Hc2].
    destruct (Session.run h1 ops) as [h2 log2]. cbn [fst snd] in *.
    split; [exact Ht2|].
    unfold train_count in *. rewrite filter_app, length_app.
    cbn [filter]. destruct (Session.is_train_op o); cbn [List.length]; lia.
Qed.

Lemma add_vectors_keeps_config h vectors ids count :
  Session.config (snd (fst (Wrapper.add_vectors h vectors ids count)))
  = Session.config h.
Proof.
  unfold Wrapper.add_vectors.
  destruct (Wrapper.index_ h) as [i|] eqn:Hi; [|reflexivity].
  destruct vectors as [x|]; [|reflexivity].
  destruct (count =? 0)%N; [reflexivity|].
  pose proof (train_keeps_config h (Some x) count) as Hc.
  destruct (negb (Wrapper.is_trained h)
            && (Wrapper.index_type_ h =? "IVFFlat")%string).
  - destruct (Wrapper.train h (Some x) count) as [h1 log1].
    cbn [fst] in Hc. rewrite <- Hc.
    destruct (Wrapper.index_ h1); [|reflexivity].
    destruct ids; [destruct (faiss_add_with_ids _ _ _ _) as [? [?|]]
                  |destruct (faiss_add _ _ _) as [? [?|]]]; reflexivity.
  - rewrite Hi.
    destruct ids; [destruct (faiss_add_with_ids _ _ _ _) as [? [?|]]
                  |destruct (faiss_add _ _ _) as [? [?|]]]; reflexivity.
Qed.

Lemma deserialize_keeps_config h data :
  Session.config (snd (Wrapper.deserialize h data)) = Session.config h.
Proof.
  unfold Wrapper.deserialize. destruct data as [|b data]; [reflexivity|].
  destruct (faiss_read_index (b :: data)) as [[i'|]|e]; reflexivity.
Qed.

(** X7.  Dimension, index type, GPU flag and device of a handle are fixed
    by its constructor: no sequence of [train], [add_vectors], [search] and
    [deserialize] calls changes them, not even a [deserialize] that installs
    an index of another kind or dimension. *)
Theorem config_is_immutable :
  forall ops h, Session.config (fst (Session.run h ops)) = Session.config h.
Proof.
  induction ops as [|o ops IH]; intro h; [reflexivity|].
  cbn [Session.run].
  assert (Hs : Session.config (fst (Session.step h o)) = Session.config h).
  { destruct o as [d c|v ids c|q k|data]; cbn [Session.step].
    - apply train_keeps_config.
    - pose proof (add_vectors_keeps_config h v ids c) as Hc.
      destruct (Wrapper.add_vectors h v ids c) as [[st h1] log].
      exact Hc.
    - reflexivity.
    - apply deserialize_keeps_config. }
  destruct (Session.step h o) as [h1 log1]. cbn [fst] in Hs.
  specialize (IH h1). destruct (Session.run h1 ops) as [h2 log2].
  cbn [fst] in *. congruence.
Qed.

(** X8.  [deserialize] answers 0 exactly when the blob is non-empty and
    the FAISS reader returns an index; the handle then holds that index,
    its training state is the loaded index's own (whatever the flag was
    before) and its size is the loaded index's.  In every other case the
    status is negative and the handle is untouched. *)
Theorem deserialize_statuses :
  forall h data,
    (exists loaded,
        data <> []
        /\ faiss_read_index data = Returns (Some loaded)
        /\ fst (Wrapper.deserialize h data) = 0
        /\ Wrapper.index_ (snd (Wrapper.deserialize h data)) = Some loaded
        /\ Wrapper.is_trained (snd (Wrapper.deserialize h data))
           = faiss_is_trained loaded
        /\ Wrapper.get_ntotal (snd (Wrapper.deserialize h data))
           = faiss_ntotal loaded)
    \/ (fst (Wrapper.deserialize h data) < 0
        /\ snd (Wrapper.deserialize h data) = h
        /\ (data = [] \/ Wrapper.reader_rejects data = true)).
Proof.
  intros h data. unfold Wrapper.deserialize, Wrapper.reader_rejects.
  destruct data as [|b data]; [right; cbn; repeat split; auto; lia|].
  destruct (faiss_read_index (b :: data)) as [[loaded|]|e].
  - left. exists loaded. cbn. repeat split; try discriminate.
    unfold Wrapper.is_trained. cbn. apply orb_diag.
  - right. cbn. repeat split; auto; lia.
  - right. cbn. repeat split; auto; lia.
Qed.

(** *** Construction *)

Lemma create_index_cpu (W : bool) index_type dimension :
  exists i : I,
    Wrapper.create_index W false index_type dimension = Returns i.
Proof.
  unfold Wrapper.create_index. rewrite andb_false_r.
  destruct (index_type =? "Flat")%string; [eexists; reflexivity|].
  destruct (index_type =? "IVFFlat")%string; [eexists; reflexivity|].
  destruct (index_type =? "HNSW")%string; eexists; reflexivity.
Qed.

(** X9.  In a build without GPU support, or when no GPU was asked for, or
    when the device number is not below the number of devices, the
    constructor cannot fail: it builds the CPU index of the requested family
    and records [use_gpu_ = false]. *)
Theorem constructor_falls_back_to_cpu :
  forall (WITH_GPU : bool) (getNumDevices dimension : Z)
         (index_type : string) (use_gpu : bool) (gpu_device : Z),
    WITH_GPU = false \/ use_gpu = false \/ getNumDevices <= gpu_device ->
    exists i,
      Wrapper.create_index false false index_type dimension = Returns i
      /\ Wrapper.new WITH_GPU getNumDevices dimension index_type use_gpu
                     gpu_device
         = Returns (Wrapper.mkWrapper (Some i) dimension false gpu_device
                                      index_type false).
Proof.
  intros W nd dim ty ug dev Hcase.
  destruct (create_index_cpu false ty dim) as [i Hi].
  exists i. split; [exact Hi|].
  assert (Hsame : forall W', Wrapper.create_index W' false ty dim
                             = Returns i).
  { intro W'. revert Hi. unfold Wrapper.create_index.
    now rewrite !andb_false_r. }
  unfold Wrapper.new, Wrapper.setup_gpu_resources.
  destruct W.
  - destruct ug.
    + destruct Hcase as [Hc|[Hc|Hc]]; try discriminate.
      apply Z.leb_le in Hc. rewrite Hc. now rewrite Hsame.
    + now rewrite Hsame.
  - now rewrite Hsame.
Qed.

(** X10.  With GPU support compiled in and a valid device, an exception of
    the GPU index constructor leaves the wrapper's constructor as well:
    there is no fallback to a CPU index at that point. *)
Theorem constructor_propagates_gpu_failure :
  forall (getNumDevices dimension : Z) (index_type : string)
         (gpu_device : Z) (e : exn),
    gpu_device < getNumDevices ->
    (index_type = "Flat"%string /\ new_GpuIndexFlat dimension = Throws e)
    \/ (index_type = "IVFFlat"%string
        /\ new_GpuIndexIVFFlat dimension 1264 = Throws e) ->
    Wrapper.new true getNumDevices dimension index_type true gpu_device
    = Throws e.
Proof.
  intros nd dim ty dev e Hdev Hcase.
  unfold Wrapper.new, Wrapper.setup_gpu_resources.
  apply Z.leb_gt in Hdev. rewrite Hdev.
  unfold Wrapper.create_index. cbn [andb].
  destruct Hcase as [[-> Hg]|[-> Hg]]; cbn.
  - now rewrite Hg.
  - change Wrapper.ncentroids with 1264. now rewrite Hg.
Qed.

End WrapperMore.

(* ------------------------------------------------------------------ *)
(** ** The GPU helper *)

Section GPUImplProps.

Context {F I : Type} `{FaissLib F I}.

Variable getNumDevices : Z.
Variable cudaSetDevice_ok : Z -> bool.
Variable resources_throw : bool.
Variable free_mem : N.

(** X11.  When the device number is not below the number of devices, or
    [cudaSetDevice] fails, or setting up the resources throws, the helper
    holds no resources, and no GPU index is created for any family: both
    [GPUImpl::create_gpu_index] and [FAISSWrapper::create_gpu_index] return
    a null pointer. *)
Theorem no_gpu_resources_no_gpu_index :
  forall (device : Z) (use_gpu : bool) (index_type : string) (dimension : Z),
    getNumDevices <= device
    \/ cudaSetDevice_ok device = false
    \/ resources_throw = true ->
    GPUImpl.gpu_resources
      (GPUImpl.new getNumDevices cudaSetDevice_ok resources_throw free_mem
                   device) = None
    /\ GPUImpl.create_gpu_index (I := I)
         (GPUImpl.new getNumDevices cudaSetDevice_ok resources_throw free_mem
                      device)
         index_type dimension = None
    /\ GPUImpl.wrapper_create_gpu_index (I := I) use_gpu
         (GPUImpl.wrapper_setup_gpu_resources getNumDevices cudaSetDevice_ok
            resources_throw free_mem use_gpu device)
         index_type dimension = None.
Proof.
  intros device use_gpu ty dim Hcase.
  assert (Hr : GPUImpl.setup_gpu_resources getNumDevices cudaSetDevice_ok
                 resources_throw free_mem device = None).
  { unfold GPUImpl.setup_gpu_resources.
    destruct (getNumDevices <=? device) eqn:E1; [reflexivity|].
    destruct (cudaSetDevice_ok device) eqn:E2; [|reflexivity].
    destruct resources_throw eqn:E3; [reflexivity|].
    apply Z.leb_gt in E1. destruct Hcase as [Hc|[Hc|Hc]];
      [lia|discriminate|discriminate]. }
  assert (Hc : GPUImpl.create_gpu_index (I := I)
                 (GPUImpl.new getNumDevices cudaSetDevice_ok resources_throw
                              free_mem device) ty dim = None).
  { unfold GPUImpl.create_gpu_index, GPUImpl.has_resources, GPUImpl.new.
    cbn [GPUImpl.gpu_resources]. now rewrite Hr. }
  split; [exact Hr|]. split; [exact Hc|].
  unfold GPUImpl.wrapper_create_gpu_index,
    GPUImpl.wrapper_setup_gpu_resources.
  destruct use_gpu; [exact Hc|reflexivity].
Qed.

(** X12.  When the helper does hold resources, the temporary memory it set
    is a quarter of the free device memory, rounded down, capped at
    1610612736 bytes (1.5 GiB): four times it never exceeds the free memory,
    and it is the cap as soon as 6 GiB are free. *)
Theorem gpu_temp_memory_budget :
  forall (device : Z) (temp_mem : N),
    GPUImpl.gpu_resources
      (GPUImpl.new getNumDevices cudaSetDevice_ok resources_throw free_mem
                   device) = Some temp_mem ->
    (4 * temp_mem <= free_mem)%N
    /\ (temp_mem <= 1610612736)%N
    /\ ((free_mem < 6442450944)%N -> temp_mem = (free_mem / 4)%N)
    /\ ((6442450944 <= free_mem)%N -> temp_mem = 1610612736%N)
    /\ device < getNumDevices
    /\ cudaSetDevice_ok device = true.
Proof.
  intros device t. unfold GPUImpl.new, GPUImpl.setup_gpu_resources.
  cbn [GPUImpl.gpu_resources].
  destruct (getNumDevices <=? device) eqn:E1; [discriminate|].
  destruct (cudaSetDevice_ok device) eqn:E2; [|discriminate].
  destruct resources_throw; [discriminate|]. cbn [negb].
  intro Ht. injection Ht as <-. apply Z.leb_gt in E1.
  change GPUImpl.temp_mem_cap with 1610612736%N.
  pose proof (N.Div0.mul_div_le free_mem 4) as Hq.
  assert (Hdiv : (free_mem < 6442450944 <-> free_mem / 4 < 1610612736)%N).
  { split; intro Hlt.
    - apply N.Div0.div_lt_upper_bound. lia.
    - destruct (N.lt_ge_cases free_mem 6442450944) as [Hl|Hg]; [exact Hl|].
      pose proof (N.Div0.div_le_mono 6442450944 free_mem 4 Hg) as Hm.
      change (6442450944 / 4)%N with 1610612736%N in Hm. lia. }
  repeat split; lia.
Qed.

(** X13.  [GPUImpl::create_gpu_index] knows two families only: for any
    other family name, "HNSW" included, it returns a null pointer even when
    the resources are there; it has no fallback to a flat index. *)
Theorem gpu_index_has_no_fallback :
  forall (g : GPUImpl.GPUImpl) (index_type : string) (dimension : Z),
    index_type <> "Flat"%string ->
    index_type <> "IVFFlat"%string ->
    GPUImpl.create_gpu_index (I := I) g index_type dimension = None.
Proof.
  intros g ty dim H1 H2.
  unfold GPUImpl.create_gpu_index, Wrapper.GPUImpl_create_gpu_index.
  rewrite (eqb_of_neq H1), (eqb_of_neq H2).
  now destruct (negb (GPUImpl.has_resources g)).
Qed.

End GPUImplProps.

(* ------------------------------------------------------------------ *)
(** ** The stub: what it stores and what it returns *)

Section StubMore.

Variable F : Type.
Variable flt : F -> F -> bool.

Implicit Types h : Stub.FAISSWrapper F.

Lemma add_one_none dim (vecs : list F) (xids : list Z) (l : list nat) :
  fold_left (Stub.add_one (F := F) dim vecs xids) l None = None.
Proof. induction l as [|i l IH]; [reflexivity|exact IH]. Qed.

Lemma firstn_succ_nth_error {A} (l : list A) : forall n x,
  nth_error l n = Some x -> firstn (S n) l = firstn n l ++ [x].
Proof.
  induction l as [|a l IH]; intros [|n] x Hn; try discriminate.
  - injection Hn as ->. reflexivity.
  - cbn [nth_error] in Hn. cbn [firstn app]. f_equal. now apply IH.
Qed.

Lemma add_loop_spec dim (vecs : list F) (xids : list Z) (n : nat) :
  forall idx idx',
  fold_left (Stub.add_one dim vecs xids) (seq 0 n) (Some idx) = Some idx' ->
  Stub.dimension idx' = Stub.dimension idx
  /\ Stub.ids idx' = Stub.ids idx ++ firstn n xids
  /\ Stub.vectors idx'
     = Stub.vectors idx ++ map (StubInv.row dim vecs) (seq 0 n)
  /\ (n <= List.length xids)%nat
  /\ (n <> 0%nat ->
      0 <= dim /\ Z.of_nat n * dim <= Z.of_nat (List.length vecs)).
Proof.
  induction n as [|n IH]; intros idx idx' Hf.
  - injection Hf as <-. cbn. rewrite !app_nil_r.
    repeat split; try lia; congruence.
  - rewrite seq_S, fold_left_app in Hf. cbn [fold_left Nat.add] in Hf.
    destruct (fold_left (Stub.add_one dim vecs xids) (seq 0 n) (Some idx))
      as [idx1|] eqn:E; [|discriminate].
    destruct (IH idx idx1 E) as (Hd & Hi & Hv & Hl & Hb).
    unfold Stub.add_one in Hf.
    destruct (Stub.slice (Z.of_nat n * dim) dim vecs) as [vec|] eqn:Es;
      [|discriminate].
    destruct (nth_error xids n) as [xid|] eqn:Ex; [|discriminate].
    injection Hf as <-. cbn [Stub.dimension Stub.ids Stub.vectors].
    unfold Stub.slice in Es.
    destruct ((0 <=? Z.of_nat n * dim) && (0 <=? dim)
              && (Z.of_nat n * dim + dim <=? Z.of_nat (List.length vecs)))
      eqn:Eb; [|discriminate].
    injection Es as <-.
    apply andb_prop in Eb. destruct Eb as [Eb E3].
    apply andb_prop in Eb. destruct Eb as [E1 E2].
    apply Z.leb_le in E1, E2, E3.
    assert (Hlt : (n < List.length xids)%nat).
    { apply nth_error_Some. congruence. }
    split; [exact Hd|]. split; [|split; [|split; [lia|intros _; lia]]].
    + rewrite Hi, (firstn_succ_nth_error xids n Ex). now rewrite app_assoc.
    + rewrite Hv, seq_S, map_app, app_assoc. reflexivity.
Qed.

Lemma add_loop_defined dim (vecs : list F) (xids : list Z) (n : nat) :
  forall idx,
  0 <= dim ->
  Z.of_nat n * dim <= Z.of_nat (List.length vecs) ->
  (n <= List.length xids)%nat ->
  exists idx',
    fold_left (Stub.add_one (F := F) dim vecs xids) (seq 0 n) (Some idx)
    = Some idx'.
Proof.
  induction n as [|n IH]; intros idx Hd Hv Hx; [now exists idx|].
  destruct (IH idx Hd ltac:(nia) ltac:(lia)) as [idx1 E].
  rewrite seq_S, fold_left_app, E. cbn [fold_left Nat.add Stub.add_one].
  unfold Stub.slice.
  assert (E1 : (0 <=? Z.of_nat n * dim) = true) by (apply Z.leb_le; nia).
  assert (E2 : (0 <=? dim) = true) by now apply Z.leb_le.
  assert (E3 : (Z.of_nat n * dim + dim <=? Z.of_nat (List.length vecs))
               = true) by (apply Z.leb_le; nia).
  rewrite E1, E2, E3. cbn [andb].
  destruct (nth_error xids n) as [xid|] eqn:Ex.
  - eexists. reflexivity.
  - apply nth_error_None in Ex. lia.
Qed.

(** X14.  When [add_vectors] of the stub returns, it answers 0 and has
    appended the [count] identifiers and the [count] vectors it was given,
    in order, behind those already stored; nothing stored before is changed
    and the size grows by [count].  It can only have returned if the arrays
    held that many identifiers and vectors. *)
Theorem stub_add_vectors_appends :
  forall h vecs xids count status h',
    Stub.add_vectors h vecs xids count = Some (status, h') ->
    status = 0
    /\ Stub.ids (Stub.index_ h')
       = Stub.ids (Stub.index_ h) ++ firstn (N.to_nat count) xids
    /\ Stub.vectors (Stub.index_ h')
       = Stub.vectors (Stub.index_ h)
         ++ map (StubInv.row (Stub.dimension_ h) vecs)
                (seq 0 (N.to_nat count))
    /\ Stub.get_ntotal h' = (Stub.get_ntotal h + count)%N
    /\ (N.to_nat count <= List.length xids)%nat
    /\ h' = Stub.set_index h (Stub.index_ h').
Proof.
  intros h vecs xids count status h' Hadd. unfold Stub.add_vectors in Hadd.
  destruct (fold_left _ _ _) as [idx'|] eqn:E; [|discriminate].
  injection Hadd as <- <-.
  destruct (@add_loop_spec _ _ _ _ _ _ E) as (Hd & Hi & Hv & Hl & _).
  cbn [Stub.set_index Stub.index_]. repeat split; auto.
  unfold Stub.get_ntotal. cbn [Stub.set_index Stub.index_].
  rewrite Hi, length_app, length_firstn. lia.
Qed.

(** X15.  [add_vectors] of the stub stays within its arrays, and so
    returns, whenever they hold [count] vectors of [dimension_] components
    and [count] identifiers; and it keeps a handle well formed: afterwards
    again every stored vector has one identifier and [dimension_]
    components. *)
Theorem stub_add_vectors_keeps_well_formed :
  forall h vecs xids count,
    StubInv.readable (Stub.dimension_ h) vecs xids count ->
    StubInv.well_formed h ->
    exists h',
      Stub.add_vectors h vecs xids count = Some (0, h')
      /\ StubInv.well_formed h'.
Proof.
  intros h vecs xids count (Hd & Hv & Hx) (Hlen & Hall).
  destruct (@add_loop_defined (Stub.dimension_ h) vecs xids (N.to_nat count)
              (Stub.index_ h) Hd ltac:(lia) Hx) as [idx' E].
  exists (Stub.set_index h idx'). unfold Stub.add_vectors. rewrite E.
  split; [reflexivity|].
  destruct (@add_loop_spec _ _ _ _ _ _ E) as (_ & Hi & Hvs & _ & _).
  unfold StubInv.well_formed. cbn [Stub.set_index Stub.index_ Stub.dimension_].
  rewrite Hi, Hvs. split.
  - rewrite !length_app, length_map, length_seq, length_firstn. lia.
  - apply Forall_app. split; [exact Hall|].
    apply Forall_forall. intros v Hin. apply in_map_iff in Hin.
    destruct Hin as (j & <- & Hj). apply in_seq in Hj.
    unfold StubInv.row. rewrite length_firstn, length_skipn. nia.
Qed.

(** *** Search *)

Lemma insert_by_distance_perm x (l : list (SearchResult F)) :
  Permutation (Stub.insert_by_distance flt x l) (x :: l).
Proof.
  induction l as [|y l IH]; [reflexivity|].
  cbn [Stub.insert_by_distance].
  destruct (flt (distance y) (distance x)); [|reflexivity].
  rewrite IH. apply perm_swap.
Qed.

Lemma sort_by_distance_perm (l : list (SearchResult F)) :
  Permutation (Stub.sort_by_distance flt l) l.
Proof.
  induction l as [|x l IH]; [reflexivity|].
  cbn [Stub.sort_by_distance fold_right].
  rewrite insert_by_distance_perm. now constructor.
Qed.

Lemma map_nth_seq_firstn (l : list Z) : forall c,
  (c <= List.length l)%nat ->
  map (fun i => nth i l 0) (seq 0 c) = firstn c l.
Proof.
  induction l as [|a l IH]; intros [|c] Hc; try reflexivity.
  - cbn in Hc. lia.
  - cbn [seq map nth firstn]. f_equal.
    rewrite <- seq_shift, map_map. cbn [nth]. apply IH. cbn in Hc. lia.
Qed.

Lemma stub_candidates (ids : list Z) (dis : nat -> F) (c : nat) :
  (c <= List.length ids)%nat ->
  flat_map
    (fun i =>
       if (i <? List.length ids)%nat
       then [mkSearchResult (nth i ids 0) (dis i)]
       else [])
    (seq 0 c)
  = map (fun i => mkSearchResult (nth i ids 0) (dis i)) (seq 0 c).
Proof.
  intro Hc. rewrite flat_map_concat_map.
  rewrite (map_ext_in _ (fun i => [mkSearchResult (nth i ids 0) (dis i)])).
  - induction (seq 0 c) as [|i l IH]; [reflexivity|]. cbn. now rewrite IH.
  - intros i Hi. apply in_seq in Hi.
    destruct (i <? List.length ids)%nat eqn:E; [reflexivity|].
    apply Nat.ltb_ge in E. lia.
Qed.

(** X16.  Whatever the query and whatever the stored vectors, the
    identifiers the stub's [search] returns are the first [min k n] stored
    identifiers, each once, in some order. *)
Theorem stub_search_returns_first_ids :
  forall h query k dis,
    Permutation (map id (Stub.search flt h query k dis))
                (firstn (N.to_nat k) (Stub.ids (Stub.index_ h))).
Proof.
  intros h query k dis. unfold Stub.search.
  rewrite sort_by_distance_perm.
  set (ids := Stub.ids (Stub.index_ h)).
  assert (Hc : (N.to_nat (N.min k (N.of_nat (List.length ids)))
                <= List.length ids)%nat) by lia.
  rewrite (stub_candidates ids dis Hc), map_map. cbn [id].
  rewrite (map_nth_seq_firstn ids Hc).
  replace (N.to_nat (N.min k (N.of_nat (List.length ids))))
    with (Nat.min (N.to_nat k) (List.length ids)) by lia.
  rewrite <- firstn_firstn.
  now rewrite (firstn_all ids).
Qed.

Lemma insert_by_distance_sorted x (l : list (SearchResult F)) :
  (forall a b, flt a b = true -> flt b a = false) ->
  Sorted (fun a b => flt (distance b) (distance a) = false) l ->
  Sorted (fun a b => flt (distance b) (distance a) = false)
         (Stub.insert_by_distance flt x l).
Proof.
  intros Hasym. induction l as [|y l IH]; intro Hs.
  - repeat constructor.
  - cbn [Stub.insert_by_distance].
    destruct (flt (distance y) (distance x)) eqn:E.
    + apply Sorted_inv in Hs. destruct Hs as [Hs Hhd].
      constructor; [now apply IH|].
      destruct l as [|z l]; cbn [Stub.insert_by_distance].
      * constructor. now apply Hasym.
      * destruct (flt (distance z) (distance x)).
        -- constructor. now apply HdRel_inv in Hhd.
        -- constructor. now apply Hasym.
    + constructor; [exact Hs|]. constructor. exact E.
Qed.

(** X17.  The entries the stub's [search] returns are in non-decreasing
    order of the distance they report: no entry is followed by one with a
    smaller distance.  All this needs of [<] on [float] is that [a < b]
    excludes [b < a]. *)
Theorem stub_search_sorted_by_reported_distance :
  forall h query k dis,
    (forall a b, flt a b = true -> flt b a = false) ->
    Sorted (fun a b => flt (distance b) (distance a) = false)
           (Stub.search flt h query k dis).
Proof.
  intros h query k dis Hasym. unfold Stub.search, Stub.sort_by_distance.
  induction (flat_map _ _) as [|x l IH]; [constructor|].
  cbn [fold_right]. now apply insert_by_distance_sorted.
Qed.

End StubMore.

(* ------------------------------------------------------------------ *)
(** ** Reading back what was written *)

Section PgvTextProps.

Local Open Scope string_scope.

Variable stof : string -> option Q.

Lemma list_ascii_app (a b : string) :
  list_ascii_of_string (a ++ b)
  = (list_ascii_of_string a ++ list_ascii_of_string b)%list.
Proof. induction a as [|c a IH]; cbn; [reflexivity|now rewrite IH]. Qed.

Lemma comma_free_app (a b : string) :
  PgvIO.comma_free a -> PgvIO.comma_free b -> PgvIO.comma_free (a ++ b).
Proof.
  unfold PgvIO.comma_free. intros Ha Hb.
  rewrite list_ascii_app. apply Forall_app. now split.
Qed.

Lemma string_app_nil_r (a : string) : a ++ "" = a.
Proof. induction a as [|c a IH]; cbn; [reflexivity|now rewrite IH]. Qed.

Lemma getline_item_then_comma (a : string) : forall item read rest,
  PgvIO.comma_free a ->
  PgvIO.getline_items (a ++ String "," rest) item read
  = ((item ++ a)%string :: PgvIO.getline_items rest "" false)%list.
Proof.
  induction a as [|c a IH]; intros item read rest Ha.
  - cbn. now rewrite string_app_nil_r.
  - unfold PgvIO.comma_free in Ha. cbn in Ha.
    apply Forall_cons_iff in Ha. destruct Ha as [Hc Ha].
    cbn [String.append PgvIO.getline_items].
    destruct (Ascii.eqb c ",") eqn:E; [apply Ascii.eqb_eq in E; contradiction|].
    rewrite IH by exact Ha. now rewrite string_app_assoc.
Qed.

Lemma getline_last_item (a : string) : forall item read,
  PgvIO.comma_free a ->
  read = true \/ a <> "" ->
  PgvIO.getline_items a item read = [(item ++ a)%string]%list.
Proof.
  induction a as [|c a IH]; intros item read Ha Hr.
  - destruct Hr as [->|Hne]; [|contradiction].
    cbn. now rewrite string_app_nil_r.
  - unfold PgvIO.comma_free in Ha. cbn in Ha.
    apply Forall_cons_iff in Ha. destruct Ha as [Hc Ha].
    cbn [PgvIO.getline_items].
    destruct (Ascii.eqb c ",") eqn:E; [apply Ascii.eqb_eq in E; contradiction|].
    rewrite IH by auto. now rewrite string_app_assoc.
Qed.

Lemma getline_join (items : list string) :
  Forall (fun a => PgvIO.comma_free a /\ a <> "") items ->
  PgvIO.getline_items (PgvIO.join "," items) "" false = items.
Proof.
  induction items as [|a items IH]; intro Hall; [reflexivity|].
  apply Forall_cons_iff in Hall. destruct Hall as [[Ha Hne] Hall].
  destruct items as [|b items].
  - cbn [PgvIO.join]. now rewrite getline_last_item by auto.
  - change (PgvIO.join "," (a :: b :: items))
      with (a ++ "," ++ PgvIO.join "," (b :: items)).
    cbn [String.append].
    rewrite getline_item_then_comma by exact Ha.
    cbn [String.append]. f_equal. now apply IH.
Qed.

Lemma substring_prefix (a b : string) :
  String.substring 0 (String.length a) (a ++ b) = a.
Proof. induction a as [|c a IH]; cbn; [now destruct b|now rewrite IH]. Qed.

Lemma get_after (a : string) (c : ascii) (b : string) :
  String.get (String.length a) (a ++ String c b) = Some c.
Proof. induction a as [|d a IH]; cbn; [reflexivity|exact IH]. Qed.

Lemma join_nonempty (a : string) (items : list string) :
  a <> "" -> PgvIO.join "," (a :: items) <> "".
Proof.
  intro Hne. destruct items; cbn [PgvIO.join]; destruct a; cbn; congruence.
Qed.

Lemma parse_bracketed (inner : string) :
  inner <> "" ->
  PgvIO.parse_vector_text stof ("[" ++ inner ++ "]")
  = flat_map (PgvIO.push_stof stof)
             (PgvIO.getline_items inner "" false).
Proof.
  intro Hne. unfold PgvIO.parse_vector_text.
  assert (Hlen : String.length ("[" ++ inner ++ "]")
                 = S (S (String.length inner))).
  { cbn. rewrite string_length_app. cbn. lia. }
  rewrite Hlen. cbn [String.append String.get Nat.sub].
  rewrite Nat.sub_0_r.
  rewrite (get_after inner "]" "").
  assert (Hgt : (2 <? S (S (String.length inner)))%nat = true).
  { apply Nat.ltb_lt. destruct inner; [contradiction|cbn; lia]. }
  rewrite Hgt. cbn [andb Ascii.eqb Bool.eqb].
  cbn [String.substring]. now rewrite substring_prefix.
Qed.

(** X18.  A bracketed, comma-separated text whose items are non-empty and
    free of commas is read back by the row parser of [fetch_vectors] item by
    item, in order: each item is handed to [std::stof], and an item it
    rejects is skipped. *)
Theorem parse_reads_each_item :
  forall items : list string,
    Forall (fun a => PgvIO.comma_free a /\ a <> "") items ->
    PgvIO.parse_vector_text stof ("[" ++ PgvIO.join "," items ++ "]")
    = flat_map (PgvIO.push_stof stof) items.
Proof.
  intros items Hall. destruct items as [|a items]; [reflexivity|].
  pose proof Hall as Hall'.
  apply Forall_cons_iff in Hall'. destruct Hall' as [[_ Hne] _].
  rewrite parse_bracketed by now apply join_nonempty.
  now rewrite getline_join.
Qed.

Lemma comma_free_uint (d : Decimal.uint) :
  PgvIO.comma_free (NilEmpty.string_of_uint d).
Proof.
  unfold PgvIO.comma_free.
  induction d; cbn; constructor; (discriminate || assumption).
Qed.

Lemma comma_free_dec_of_Z (z : Z) : PgvIO.comma_free (Pgv.dec_of_Z z).
Proof.
  unfold Pgv.dec_of_Z, NilZero.string_of_int, NilZero.string_of_uint.
  destruct (Z.to_int z) as [d|d].
  - destruct d; try apply comma_free_uint.
    unfold PgvIO.comma_free. cbn. repeat constructor. discriminate.
  - unfold PgvIO.comma_free. cbn [list_ascii_of_string].
    constructor; [discriminate|].
    destruct d; try apply comma_free_uint.
    cbn. repeat constructor. discriminate.
Qed.

Lemma digit_char_not_comma (d : Z) : Pgv.digit_char d <> ","%char.
Proof.
  unfold Pgv.digit_char.
  assert (Hr : (Z.to_nat (d mod 10) < 10)%nat).
  { pose proof (Z.mod_pos_bound d 10 ltac:(lia)). lia. }
  destruct (Z.to_nat (d mod 10)) as [|[|[|[|[|[|[|[|[|[|n]]]]]]]]]];
    try discriminate. lia.
Qed.

Lemma comma_free_fixed_digits (w : nat) : forall n,
  PgvIO.comma_free (Pgv.fixed_digits w n).
Proof.
  induction w as [|w IH]; intro n; cbn [Pgv.fixed_digits].
  - constructor.
  - apply comma_free_app; [apply IH|].
    unfold PgvIO.comma_free. cbn. constructor; [|constructor].
    apply digit_char_not_comma.
Qed.

Lemma fmt_fixed_item (x : Q) :
  PgvIO.comma_free (Pgv.fmt_fixed 6 x) /\ Pgv.fmt_fixed 6 x <> "".
Proof.
  unfold Pgv.fmt_fixed. split.
  - apply comma_free_app; [|apply comma_free_app; [|apply comma_free_app]].
    + unfold Pgv.sign_of. destruct (Qnum x <? 0)%Z;
        unfold PgvIO.comma_free; cbn; repeat constructor; discriminate.
    + apply comma_free_dec_of_Z.
    + unfold PgvIO.comma_free. cbn. repeat constructor. discriminate.
    + apply comma_free_fixed_digits.
  - intro Hempty. apply (f_equal String.length) in Hempty.
    rewrite !string_length_app in Hempty. cbn in Hempty. lia.
Qed.

Lemma fixed6_list_succ (v : list Q) : forall i,
  Pgv.fixed6_list (S i) v
  = match v with
    | [] => ""
    | _ => "," ++ PgvIO.join "," (map (Pgv.fmt_fixed 6) v)
    end.
Proof.
  induction v as [|x v IH]; intro i; [reflexivity|].
  cbn [Pgv.fixed6_list]. rewrite IH.
  destruct v as [|y v]; cbn [map PgvIO.join].
  - cbn. now rewrite string_app_nil_r.
  - reflexivity.
Qed.

Lemma fixed6_list_join (v : list Q) :
  Pgv.fixed6_list 0 v = PgvIO.join "," (map (Pgv.fmt_fixed 6) v).
Proof.
  destruct v as [|x v]; [reflexivity|].
  cbn [Pgv.fixed6_list]. rewrite fixed6_list_succ.
  destruct v as [|y v]; cbn [map PgvIO.join].
  - cbn. now rewrite string_app_nil_r.
  - reflexivity.
Qed.

(** X19.  What [insert_vector] writes, the row parser of [fetch_vectors]
    reads back: the bracketed text inside the statement is split into exactly
    the six-digit literals of the components, in order, so that with a
    [std::stof] that accepts them the parsed vector has as many components
    as the one written, each the converted literal. *)
Theorem insert_literal_is_read_back :
  forall (table_name : string) (id : Z) (v : list Q),
    exists literal,
      Pgv.insert_vector_query table_name id v
      = "INSERT INTO " ++ table_name ++ " (id, embedding) VALUES ("
        ++ Pgv.dec_of_Z id ++ ", '" ++ literal ++ "')"
      /\ PgvIO.parse_vector_text stof literal
         = flat_map (PgvIO.push_stof stof) (map (Pgv.fmt_fixed 6) v)
      /\ forall g,
          (forall x, In x v -> stof (Pgv.fmt_fixed 6 x) = Some (g x)) ->
          PgvIO.parse_vector_text stof literal = map g v.
Proof.
  intros table_name id v.
  exists ("[" ++ PgvIO.join "," (map (Pgv.fmt_fixed 6) v) ++ "]").
  assert (Hp : PgvIO.parse_vector_text stof
                 ("[" ++ PgvIO.join "," (map (Pgv.fmt_fixed 6) v) ++ "]")
               = flat_map (PgvIO.push_stof stof)
                          (map (Pgv.fmt_fixed 6) v)).
  { apply parse_reads_each_item. apply Forall_forall.
    intros a Ha. apply in_map_iff in Ha. destruct Ha as (x & <- & _).
    apply fmt_fixed_item. }
  split; [|split; [exact Hp|]].
  - rewrite insert_vector_query_fixed, fixed6_list_join.
    cbn [String.append]. now rewrite !string_app_assoc.
  - intros g Hg. rewrite Hp. clear Hp.
    induction v as [|x v IH]; [reflexivity|].
    cbn [map flat_map]. unfold PgvIO.push_stof at 1.
    rewrite (Hg x (or_introl eq_refl)). cbn [app]. f_equal.
    apply IH. intros y Hy. apply Hg. now right.
Qed.

End PgvTextProps.

(* ------------------------------------------------------------------ *)
(** ** The statements sent to the server *)

Section PgvStatementProps.

Local Open Scope string_scope.

Variable command_ok : string -> bool.
Variable tuples : string -> option (list (list string)).
Variable stof : string -> option Q.
Variable stoll : string -> option Z.
Variable PQescapeByteaConn : list Byte.byte -> option string.
Variable PQunescapeBytea : string -> option (list Byte.byte).

Lemma str_put (text : string) (os : Pgv.ostream) :
  Pgv.str (Pgv.put text os) = Pgv.str os ++ text.
Proof. reflexivity. Qed.

Lemma row_text (xid : Z) (v : list Q) (os : Pgv.ostream) :
  Pgv.str
    (Pgv.put "]')"
       (Pgv.for_each
          (fun j x os =>
             Pgv.put_float x
               (Pgv.setprecision 6
                  (Pgv.fixed (Pgv.comma_if_not_first j os))))
          0 v (Pgv.put ", '[" (Pgv.put_int xid (Pgv.put "(" os)))))
  = Pgv.str os ++ PgvIO.row_values (xid, v).
Proof.
  rewrite str_put, for_each_fixed, fixed6_list_join.
  unfold PgvIO.row_values, Pgv.put_int. rewrite !str_put. cbn [fst snd].
  now rewrite !string_app_assoc.
Qed.

Lemma skipn_nth_cons {A} (d : A) (l : list A) : forall i,
  (i < List.length l)%nat ->
  skipn i l = (nth i l d :: skipn (S i) l)%list.
Proof.
  induction l as [|a l IH]; intros [|i] Hi; cbn in Hi; try lia.
  - reflexivity.
  - cbn [skipn nth]. rewrite IH by lia. reflexivity.
Qed.

Lemma batch_rows (all : list (list Q)) (ids : list Z) : forall i os,
  (i + List.length ids)%nat = List.length all ->
  Pgv.str
    (Pgv.for_each
       (fun i xid os =>
          let os := match i with O => os | S _ => Pgv.put ", " os end in
          let os := Pgv.put ", '[" (Pgv.put_int xid (Pgv.put "(" os)) in
          let os :=
            Pgv.for_each
              (fun j x os =>
                 Pgv.put_float x
                   (Pgv.setprecision 6
                      (Pgv.fixed (Pgv.comma_if_not_first j os))))
              0 (nth i all []) os in
          Pgv.put "]')" os)
       i ids os)
  = Pgv.str os
    ++ match i, ids with
       | S _, _ :: _ => ", "
       | _, _ => ""
       end
    ++ PgvIO.join ", " (map PgvIO.row_values (combine ids (skipn i all))).
Proof.
  induction ids as [|xid ids IH]; intros i os Hlen.
  - cbn. destruct i; now rewrite !string_app_nil_r.
  - cbn [Pgv.for_each]. cbn [List.length] in Hlen.
    rewrite IH by lia. rewrite row_text.
    rewrite (@skipn_nth_cons _ [] all i) by lia.
    cbn [combine map].
    assert (Hos : forall os' : Pgv.ostream,
               Pgv.str (match i with O => os' | S _ => Pgv.put ", " os' end)
               = Pgv.str os' ++ match i with O => "" | S _ => ", " end).
    { intro os'. destruct i; [now rewrite string_app_nil_r|reflexivity]. }
    rewrite Hos.
    destruct ids as [|xid2 ids].
    + cbn [combine map PgvIO.join].
      rewrite !string_app_nil_r. destruct i; cbn [String.append];
        now rewrite ?string_app_assoc.
    + assert (Hlt : (S i < List.length all)%nat) by (cbn in Hlen; lia).
      rewrite (@skipn_nth_cons _ [] all (S i) Hlt).
      cbn [combine map]. 
      change (PgvIO.join ", "
                (PgvIO.row_values (xid, nth i all [])
                 :: PgvIO.row_values (xid2, nth (S i) all [])
                 :: map PgvIO.row_values
                      (combine ids (skipn (S (S i)) all)))%list)
        with (PgvIO.row_values (xid, nth i all []) ++ ", "
              ++ PgvIO.join ", "
                   (PgvIO.row_values (xid2, nth (S i) all [])
                    :: map PgvIO.row_values
                         (combine ids (skipn (S (S i)) all)))%list).
      destruct i; cbn [String.append]; now rewrite ?string_app_assoc.
Qed.

(** X20.  [batch_insert_vectors] writes one statement whose [VALUES] list
    is, row for row and separated by ", ", exactly what [insert_vector]
    writes for each (identifier, vector) pair; a batch of one row is the
    single insert. *)
Theorem batch_insert_is_joined_single_inserts :
  forall (table_name : string) (ids : list Z) (vectors : list (list Q)),
    List.length ids = List.length vectors ->
    Pgv.batch_insert_vectors_query table_name ids vectors
    = "INSERT INTO " ++ table_name ++ " (id, embedding) VALUES "
      ++ PgvIO.join ", " (map PgvIO.row_values (combine ids vectors))
    /\ forall id v,
        Pgv.insert_vector_query table_name id v
        = "INSERT INTO " ++ table_name ++ " (id, embedding) VALUES "
          ++ PgvIO.row_values (id, v).
Proof.
  intros table_name ids vectors Hlen. split.
  - unfold Pgv.batch_insert_vectors_query.
    rewrite (batch_rows vectors ids 0 _ Hlen). rewrite !str_put.
    cbn [skipn].
    cbn [Pgv.str Pgv.ostringstream String.append].
    rewrite ?string_app_assoc; reflexivity.
  - intros id v. rewrite insert_vector_query_fixed, fixed6_list_join.
    unfold PgvIO.row_values. cbn [fst snd String.append].
    rewrite ?string_app_assoc; reflexivity.
Qed.

(** *** [store_vectors] as a transaction *)

Lemma for_each_default_extends (v : list Q) : forall i os,
  exists t,
    Pgv.str
      (Pgv.for_each
         (fun j x os => Pgv.put_float x (Pgv.comma_if_not_first j os))
         i v os)
    = Pgv.str os ++ t.
Proof.
  induction v as [|x v IH]; intros i os; cbn [Pgv.for_each].
  - exists "". now rewrite string_app_nil_r.
  - destruct (IH (S i) (Pgv.put_float x (Pgv.comma_if_not_first i os)))
      as [t ->].
    unfold Pgv.put_float.
    destruct (Pgv.flags_floatfield (Pgv.comma_if_not_first i os));
      rewrite str_put; destruct i; cbn [Pgv.comma_if_not_first];
      rewrite ?str_put, ?string_app_assoc; eexists; reflexivity.
Qed.

Lemma store_vectors_query_starts (table_name : string) (id : Z)
    (v : list Q) :
  exists t, Pgv.store_vectors_query table_name id v = "INSERT INTO " ++ t.
Proof.
  unfold Pgv.store_vectors_query. rewrite str_put.
  destruct (for_each_default_extends v 0
              (Pgv.put ", '["
                 (Pgv.put_int id
                    (Pgv.put " (id, embedding) VALUES ("
                       (Pgv.put table_name
                          (Pgv.put "INSERT INTO " Pgv.ostringstream))))))
    as [t ->].
  unfold Pgv.put_int. rewrite !str_put.
  cbn [Pgv.str Pgv.ostringstream]. 
  change ("" ++ "INSERT INTO ") with "INSERT INTO ".
  rewrite !string_app_assoc. eexists. reflexivity.
Qed.

Lemma store_rows_accepted (table_name : string) (rows : list (list Q * Z)) :
  Forall (fun r => command_ok
                     (Pgv.store_vectors_query table_name (snd r) (fst r))
                   = true) rows ->
  Pgv.store_rows command_ok table_name rows
  = (true,
     map (fun r => Pgv.store_vectors_query table_name (snd r) (fst r)) rows).
Proof.
  induction rows as [|[v id] rows IH]; intro Hall; [reflexivity|].
  apply Forall_cons_iff in Hall. destruct Hall as [Hr Hall].
  cbn [Pgv.store_rows map fst snd] in *. rewrite Hr, (IH Hall). reflexivity.
Qed.

Lemma store_rows_refused (table_name : string) (pre : list (list Q * Z)) :
  forall r post,
    Forall (fun r => command_ok
                       (Pgv.store_vectors_query table_name (snd r) (fst r))
                     = true) pre ->
    command_ok (Pgv.store_vectors_query table_name (snd r) (fst r)) = false ->
    Pgv.store_rows command_ok table_name (pre ++ r :: post)
    = (false,
       (map (fun r => Pgv.store_vectors_query table_name (snd r) (fst r)) pre
        ++ [Pgv.store_vectors_query table_name (snd r) (fst r); "ROLLBACK"])
       %list).
Proof.
  induction pre as [|[v id] pre IH]; intros [v' id'] post Hall Hr.
  - cbn [app Pgv.store_rows map fst snd] in *. now rewrite Hr.
  - apply Forall_cons_iff in Hall. destruct Hall as [Hp Hall].
    cbn [app Pgv.store_rows map fst snd] in *.
    rewrite Hp, (IH (v', id') post Hall Hr). reflexivity.
Qed.

(** X21.  On a non-null connection, with as many vectors as identifiers,
    once [BEGIN] is accepted and every [INSERT] is accepted,
    [store_vectors] has sent [BEGIN], one [INSERT] per row in order, then
    [COMMIT], and returns whether the [COMMIT] was accepted. *)
Theorem store_vectors_commits_all_rows :
  forall (c : Pgv.PGVConnection) (table_name : string)
         (vectors : list (list Q)) (ids : list Z),
    Pgv.conn_ c <> None ->
    List.length vectors = List.length ids ->
    command_ok "BEGIN" = true ->
    Forall (fun r => command_ok
                       (Pgv.store_vectors_query table_name (snd r) (fst r))
                     = true)
           (combine vectors ids) ->
    Pgv.store_vectors command_ok c table_name vectors ids
    = (Returns (command_ok "COMMIT"),
       ("BEGIN"
        :: map (fun r => Pgv.store_vectors_query table_name (snd r) (fst r))
               (combine vectors ids)
        ++ ["COMMIT"])%list).
Proof.
  intros c table_name vectors ids Hc Hlen Hb Hall.
  unfold Pgv.store_vectors.
  destruct (Pgv.conn_ c); [|congruence].
  apply Nat.eqb_eq in Hlen. rewrite Hlen, Hb. cbn [negb].
  now rewrite (store_rows_accepted table_name Hall).
Qed.

(** X22.  If instead some [INSERT] is refused, [store_vectors] returns
    false having sent [BEGIN], the inserts up to and including the refused
    one, and [ROLLBACK]: no later row is sent and no [COMMIT]. *)
Theorem store_vectors_rolls_back :
  forall (c : Pgv.PGVConnection) (table_name : string)
         (vectors : list (list Q)) (ids : list Z)
         (pre post : list (list Q * Z)) (r : list Q * Z),
    Pgv.conn_ c <> None ->
    List.length vectors = List.length ids ->
    command_ok "BEGIN" = true ->
    combine vectors ids = (pre ++ r :: post)%list ->
    Forall (fun r => command_ok
                       (Pgv.store_vectors_query table_name (snd r) (fst r))
                     = true) pre ->
    command_ok (Pgv.store_vectors_query table_name (snd r) (fst r)) = false ->
    Pgv.store_vectors command_ok c table_name vectors ids
    = (Returns false,
       ("BEGIN"
        :: map (fun r => Pgv.store_vectors_query table_name (snd r) (fst r))
               pre
        ++ [Pgv.store_vectors_query table_name (snd r) (fst r); "ROLLBACK"])
       %list)
    /\ ~ In "COMMIT"
           (snd (Pgv.store_vectors command_ok c table_name vectors ids)).
Proof.
  intros c table_name vectors ids pre post r Hc Hlen Hb Hrows Hall Hr.
  assert (Hs : Pgv.store_vectors command_ok c table_name vectors ids
               = (Returns false,
                  ("BEGIN"
                   :: map (fun r => Pgv.store_vectors_query table_name
                                      (snd r) (fst r)) pre
                   ++ [Pgv.store_vectors_query table_name (snd r) (fst r);
                       "ROLLBACK"])%list)).
  { unfold Pgv.store_vectors.
    destruct (Pgv.conn_ c); [|congruence].
    apply Nat.eqb_eq in Hlen. rewrite Hlen, Hb. cbn [negb].
    now rewrite Hrows, (store_rows_refused table_name r post Hall Hr). }
  split; [exact Hs|]. rewrite Hs. cbn [snd].
  assert (Hq : forall id v, Pgv.store_vectors_query table_name id v
                            <> "COMMIT").
  { intros id v. destruct (store_vectors_query_starts table_name id v)
      as [t ->]. discriminate. }
  intros [Hin|Hin]; [discriminate|].
  apply in_app_or in Hin. destruct Hin as [Hin|[Hin|[Hin|[]]]].
  - apply in_map_iff in Hin. destruct Hin as (r' & Heq & _).
    now apply Hq in Heq.
  - now apply Hq in Hin.
  - discriminate.
Qed.

(** X23.  [store_vectors] throws, before anything is sent, when the
    connection pointer is null or when the numbers of vectors and of
    identifiers differ; a refused [BEGIN] makes it return false with nothing
    else sent. *)
Theorem store_vectors_refuses_early :
  forall (c : Pgv.PGVConnection) (table_name : string)
         (vectors : list (list Q)) (ids : list Z),
    Pgv.conn_ c = None
    \/ List.length vectors <> List.length ids
    \/ command_ok "BEGIN" = false ->
    (exists e, Pgv.store_vectors command_ok c table_name vectors ids
               = (Throws e, []%list))
    \/ Pgv.store_vectors command_ok c table_name vectors ids
       = (Returns false, ["BEGIN"]%list).
Proof.
  intros c table_name vectors ids Hcase. unfold Pgv.store_vectors.
  destruct (Pgv.conn_ c) as [b|]; [|left; eauto].
  destruct (List.length vectors =? List.length ids)%nat eqn:E;
    cbn [negb]; [|left; eauto].
  destruct (command_ok "BEGIN") eqn:Eb; cbn [negb]; [|now right].
  apply Nat.eqb_eq in E.
  destruct Hcase as [Hc|[Hc|Hc]]; [discriminate|contradiction|discriminate].
Qed.

(** *** A closed connection *)

(** X24.  On a connection that is not open, no method that goes through
    [execute_query] or [execute_query_result] sends anything: the inserts,
    [create_table] and [create_extension] return false, [save_index] -1,
    [similarity_search] an empty list and [load_index] no bytes. *)
Theorem closed_connection_sends_nothing :
  forall (c : Pgv.PGVConnection) (table_name : string) (id : Z)
         (v : list Q) (ids : list Z) (vectors : list (list Q))
         (dimension : Z) (data : list Byte.byte) (k : N),
    Pgv.is_connected c = false ->
    Pgv.insert_vector command_ok c table_name id v = (false, []%list)
    /\ Pgv.batch_insert_vectors command_ok c table_name ids vectors
       = (false, []%list)
    /\ PgvIO.create_table command_ok c table_name dimension
       = (false, []%list)
    /\ PgvIO.create_extension command_ok c = (false, []%list)
    /\ PgvIO.save_index command_ok PQescapeByteaConn c table_name data
       = (-1, []%list)
    /\ PgvIO.similarity_search tuples stof stoll c table_name v k
       = (Returns []%list, []%list)
    /\ PgvIO.load_index tuples PQunescapeBytea c table_name
       = ([]%list, []%list).
Proof.
  intros c table_name id v ids vectors dimension data k Hc.
  unfold Pgv.insert_vector, Pgv.batch_insert_vectors, PgvIO.create_table,
    PgvIO.create_extension, PgvIO.save_index, PgvIO.similarity_search,
    PgvIO.load_index, PgvIO.execute_query_result, Pgv.execute_query.
  rewrite Hc. cbn [negb app].
  repeat split.
  - now destruct (negb (List.length ids =? List.length vectors)%nat).
  - now destruct (PQescapeByteaConn data).
Qed.

(** *** Index storage *)

(** X25.  On an open connection [save_index] first sends the
    [CREATE TABLE] and the [DELETE] for the [_faiss_index] table, whatever
    happens afterwards; it answers 0 only if the bytes could be escaped and
    the one [INSERT] that follows was accepted, and -1 otherwise, the
    results of the first two commands being ignored. *)
Theorem save_index_deletes_first :
  forall (c : Pgv.PGVConnection) (table_name : string)
         (data : list Byte.byte),
    Pgv.is_connected c = true ->
    exists rest,
      snd (PgvIO.save_index command_ok PQescapeByteaConn c table_name data)
      = (("CREATE TABLE IF NOT EXISTS " ++ (table_name ++ "_faiss_index")
          ++ " (id SERIAL PRIMARY KEY, index_data BYTEA)")%string
         :: ("DELETE FROM " ++ (table_name ++ "_faiss_index"))%string
         :: rest)%list
      /\ ((fst (PgvIO.save_index command_ok PQescapeByteaConn c table_name
                                 data) = 0
           /\ exists escaped,
               PQescapeByteaConn data = Some escaped
               /\ rest = [PgvIO.save_index_insert table_name escaped]%list
               /\ command_ok (PgvIO.save_index_insert table_name escaped)
                  = true)
          \/ (fst (PgvIO.save_index command_ok PQescapeByteaConn c
                                    table_name data) = -1
              /\ (PQescapeByteaConn data = None
                  \/ exists escaped,
                      PQescapeByteaConn data = Some escaped
                      /\ command_ok
                           (PgvIO.save_index_insert table_name escaped)
                         = false))).
Proof.
  intros c table_name data Hc.
  unfold PgvIO.save_index, Pgv.execute_query, PgvIO.index_table.
  rewrite Hc. cbn [negb].
  destruct (PQescapeByteaConn data) as [escaped|] eqn:Ee.
  - destruct (command_ok (PgvIO.save_index_insert table_name escaped))
      eqn:Ei; eexists; cbn [fst snd app]; (split; [reflexivity|]).
    + left. split; [reflexivity|]. exists escaped. auto.
    + right. split; [reflexivity|]. right. exists escaped. auto.
  - exists []%list. cbn [fst snd app]. split; [reflexivity|].
    right. auto.
Qed.

(** X26.  The statement of [similarity_search] carries the same literal
    twice, the six-digit rendering of the query vector, once in the selected
    distance and once in the [ORDER BY], and ends in [LIMIT k]. *)
Theorem similarity_search_statement :
  forall (table_name : string) (query : list Q) (k : N),
    PgvIO.similarity_search_query table_name query k
    = "SELECT id, embedding <-> '["
      ++ PgvIO.join "," (map (Pgv.fmt_fixed 6) query)
      ++ "]' AS distance FROM " ++ table_name
      ++ " ORDER BY embedding <-> '["
      ++ PgvIO.join "," (map (Pgv.fmt_fixed 6) query)
      ++ "]' LIMIT " ++ Pgv.dec_of_Z (Z.of_N k).
Proof.
  intros table_name query k. unfold PgvIO.similarity_search_query,
    PgvIO.fixed6_component, Pgv.put_int.
  rewrite !str_put, for_each_fixed, !str_put, for_each_fixed, str_put.
  rewrite !fixed6_list_join.
  cbn [Pgv.str Pgv.ostringstream String.append].
  rewrite ?string_app_assoc; reflexivity.
Qed.

End PgvStatementProps.

(* ------------------------------------------------------------------ *)
(** ** The recall measure *)

Section BenchmarkProps.

Lemma matches_acc (ground_truth result_ids : list Z) (l : list nat) :
  forall m,
    fold_left
      (fun m i =>
         if Benchmark.found (nth i ground_truth 0) result_ids
         then S m else m) l m
    = (m + List.length
             (filter (fun i => Benchmark.found (nth i ground_truth 0%Z)
                                               result_ids) l))%nat.
Proof.
  induction l as [|i l IH]; intro m; cbn [fold_left filter].
  - cbn. lia.
  - rewrite IH.
    destruct (Benchmark.found (nth i ground_truth 0) result_ids);
      cbn [List.length]; lia.
Qed.

Lemma matches_le (ground_truth result_ids : list Z) :
  (Benchmark.matches ground_truth result_ids
   <= Benchmark.check_count ground_truth result_ids)%nat.
Proof.
  unfold Benchmark.matches. rewrite matches_acc. cbn [Nat.add].
  etransitivity; [apply filter_length_le|]. now rewrite length_seq.
Qed.

Lemma matches_counts_found (ground_truth result_ids : list Z) :
  Benchmark.matches ground_truth result_ids
  = List.length
      (filter (fun g => Benchmark.found g result_ids)
              (firstn (Benchmark.check_count ground_truth result_ids)
                      ground_truth)).
Proof.
  unfold Benchmark.matches. rewrite matches_acc. cbn [Nat.add].
  rewrite <- (map_nth_seq_firstn ground_truth)
    by (unfold Benchmark.check_count; lia).
  now rewrite length_filter_of_map.
Qed.

Lemma found_iff (g : Z) (result_ids : list Z) :
  Benchmark.found g result_ids = true <-> In g result_ids.
Proof.
  unfold Benchmark.found. rewrite existsb_exists. split.
  - intros (r & Hr & E). apply Z.eqb_eq in E. now subst.
  - intro Hin. exists g. split; [exact Hin|apply Z.eqb_refl].
Qed.

(** X27.  The recall the benchmark computes is 0 when the result or the
    ground truth is empty.  Otherwise, with [c = min(|ground truth|, count)],
    it is the number of those among the first [c] ground-truth identifiers
    that occur in the result, divided by [c]: the counter [matches] is that
    number, an identifier counts when it is a member of the result, and the
    value returned is that number over [c].  It always lies between 0 and
    1. *)
Theorem recall_is_a_fraction :
  forall ground_truth result_ids : list Z,
    Benchmark.matches ground_truth result_ids
    = List.length
        (filter (fun g => Benchmark.found g result_ids)
                (firstn (Nat.min (List.length ground_truth)
                                 (List.length result_ids))
                        ground_truth))
    /\ (forall g, Benchmark.found g result_ids = true <-> In g result_ids)
    /\ (forall g gt r ids,
          Benchmark.calculate_recall (g :: gt) (r :: ids)
          = (Z.of_nat
               (List.length
                  (filter (fun a => Benchmark.found a (r :: ids))
                          (firstn (Nat.min (List.length (g :: gt))
                                           (List.length (r :: ids)))
                                  (g :: gt))))
             # Pos.of_nat (Nat.min (List.length (g :: gt))
                                   (List.length (r :: ids)))))
    /\ (Benchmark.matches ground_truth result_ids
        <= Benchmark.check_count ground_truth result_ids)%nat
    /\ (0 <= Benchmark.calculate_recall ground_truth result_ids)%Q
    /\ (Benchmark.calculate_recall ground_truth result_ids <= 1)%Q
    /\ Benchmark.calculate_recall ground_truth [] = 0%Q
    /\ Benchmark.calculate_recall [] result_ids = 0%Q.
Proof.
  intros gt ids. pose proof (matches_le gt ids) as Hle.
  split; [apply matches_counts_found|].
  split; [intro g; apply found_iff|].
  split.
  { intros g gt' r ids'. unfold Benchmark.calculate_recall.
    now rewrite matches_counts_found. }
  split; [exact Hle|].
  assert (Hb : (0 <= Benchmark.calculate_recall gt ids
                /\ Benchmark.calculate_recall gt ids <= 1)%Q).
  { unfold Benchmark.calculate_recall.
    destruct ids as [|r ids]; [split; discriminate|].
    destruct gt as [|g gt]; [split; discriminate|].
    set (m := Benchmark.matches (g :: gt) (r :: ids)) in *.
    set (c := Benchmark.check_count (g :: gt) (r :: ids)) in *.
    assert (Hc : (0 < c)%nat) by (subst c; cbn; lia).
    assert (Hp : Z.pos (Pos.of_nat c) = Z.of_nat c).
    { rewrite <- positive_nat_Z. now rewrite Nat2Pos.id by lia. }
    unfold Qle. cbn [Qnum Qden]. rewrite Hp. subst m c. split; lia. }
  destruct Hb as [H0 H1]. repeat split; try assumption.
  now destruct ids.
Qed.

Lemma filter_keeps_all {A} (p : A -> bool) (l : list A) :
  List.length (filter p l) = List.length l <->
  (forall x, In x l -> p x = true).
Proof.
  induction l as [|a l IH]; cbn [filter List.length In].
  - split; [intros _ x []|reflexivity].
  - pose proof (filter_length_le p l) as Hle.
    destruct (p a) eqn:E; cbn [List.length].
    + split.
      * intros Hlen x [<-|Hx]; [exact E|]. apply IH; [lia|exact Hx].
      * intro Hall. f_equal. apply IH. intros x Hx. apply Hall. now right.
    + split; [lia|].
      intro Hall. specialize (Hall a (or_introl eq_refl)). congruence.
Qed.

Lemma in_firstn_nth (l : list Z) : forall c g,
  (c <= List.length l)%nat ->
  (In g (firstn c l) <-> exists i, (i < c)%nat /\ nth i l 0 = g).
Proof.
  induction l as [|a l IH]; intros [|c] g Hc; cbn in Hc; try lia.
  - cbn. split; [intros []|intros (i & Hi & _); lia].
  - cbn. split; [intros []|intros (i & Hi & _); lia].
  - cbn [firstn In]. rewrite IH by lia. split.
    + intros [<-|(i & Hi & <-)]; [exists O|exists (S i)]; split; try lia;
        reflexivity.
    + intros ([|i] & Hi & <-); [now left|right]. exists i. split; [lia|].
      reflexivity.
Qed.

(** X28.  With a non-empty result and ground truth, the recall is 1
    exactly when each of the first [min(|ground truth|, count)] ground-truth
    identifiers occurs somewhere in the result: the order of the result does
    not matter, and ground-truth entries beyond the result's length are not
    looked at. *)
Theorem full_recall :
  forall ground_truth result_ids : list Z,
    ground_truth <> [] ->
    result_ids <> [] ->
    (Benchmark.calculate_recall ground_truth result_ids == 1)%Q
    <-> forall g,
         In g (firstn (Benchmark.check_count ground_truth result_ids)
                      ground_truth) ->
         In g result_ids.
Proof.
  intros gt ids Hgt Hids.
  set (c := Benchmark.check_count gt ids).
  assert (Hc : (0 < c)%nat).
  { subst c. unfold Benchmark.check_count.
    destruct gt; [contradiction|]. destruct ids; [contradiction|]. cbn. lia. }
  assert (Hcl : (c <= List.length gt)%nat)
    by (subst c; unfold Benchmark.check_count; lia).
  assert (Hp : Z.pos (Pos.of_nat c) = Z.of_nat c).
  { rewrite <- positive_nat_Z. now rewrite Nat2Pos.id by lia. }
  assert (Hr : (Benchmark.calculate_recall gt ids == 1)%Q
               <-> Benchmark.matches gt ids = c).
  { unfold Benchmark.calculate_recall.
    destruct ids as [|r ids]; [contradiction|].
    destruct gt as [|g gt]; [contradiction|].
    fold c. unfold Qeq. cbn [Qnum Qden]. rewrite Hp. lia. }
  rewrite Hr. unfold Benchmark.matches. fold c.
  rewrite matches_acc. cbn [Nat.add].
  pose proof (filter_keeps_all
                (fun i => Benchmark.found (nth i gt 0) ids) (seq 0 c)) as Hk.
  rewrite length_seq in Hk. rewrite Hk.
  split.
  - intros Hall g Hg. apply (in_firstn_nth gt g Hcl) in Hg.
    destruct Hg as (i & Hi & <-). apply found_iff. apply Hall.
    apply in_seq. lia.
  - intros Hall i Hi. apply in_seq in Hi. apply found_iff. apply Hall.
    apply (in_firstn_nth gt _ Hcl). exists i. split; [lia|reflexivity].
Qed.

End BenchmarkProps.

(* ------------------------------------------------------------------ *)
(** ** The cleanup tool *)

Section CleanupProps.

Local Open Scope string_scope.

Variable command_ok : string -> bool.

Lemma prefix_app_l (b c : string) : forall s,
  String.prefix (b ++ c) s = true -> String.prefix b s = true.
Proof.
  induction b as [|x b IH]; intros s Hp; [now destruct s|].
  destruct s as [|y s]; [discriminate|]. cbn [String.append String.prefix] in *.
  destruct (ascii_dec x y); [now apply IH|discriminate].
Qed.

Lemma contains_of_prefix (b : string) (s : string) :
  String.prefix b s = true -> Cleanup.contains b s = true.
Proof. intro Hp. destruct s; cbn [Cleanup.contains]; now rewrite Hp. Qed.

Lemma contains_tail (b : string) (c : ascii) (s : string) :
  Cleanup.contains b s = true -> Cleanup.contains b (String c s) = true.
Proof.
  intro Hc. cbn [Cleanup.contains].
  now destruct (String.prefix b (String c s)).
Qed.

Lemma prefix_inner (a b c : string) : forall s,
  String.prefix (a ++ b ++ c) s = true -> Cleanup.contains b s = true.
Proof.
  induction a as [|x a IH]; intros s Hp.
  - cbn [String.append] in Hp. apply contains_of_prefix.
    now apply prefix_app_l in Hp.
  - destruct s as [|y s]; [discriminate|].
    cbn [String.append String.prefix] in Hp.
    destruct (ascii_dec x y); [|discriminate].
    apply contains_tail. now apply IH.
Qed.

Lemma contains_inner (a b c : string) : forall s,
  Cleanup.contains (a ++ b ++ c) s = true -> Cleanup.contains b s = true.
Proof.
  induction s as [|y s IH]; cbn [Cleanup.contains]; intro Hc.
  - destruct (String.prefix (a ++ b ++ c) "") eqn:E; [|discriminate].
    now apply prefix_inner in E.
  - destruct (String.prefix (a ++ b ++ c) (String y s)) eqn:E.
    + now apply prefix_inner in E.
    + apply contains_tail. now apply IH.
Qed.

Lemma contains_suffix (sub : string) : forall name,
  String.prefix sub sub = true ->
  Cleanup.contains sub (name ++ sub) = true.
Proof.
  intros name Hs. induction name as [|c name IH].
  - now apply contains_of_prefix.
  - cbn [String.append]. now apply contains_tail.
Qed.

(** X29.  Every table [clear_faiss_indices] selects is selected by
    [clear_all_vector_tables] too, because a name containing
    "_faiss_index" contains "faiss"; and the table in which [save_index]
    stores the index of [table_name] is selected by both. *)
Theorem index_tables_are_vector_tables :
  (forall table,
      Cleanup.is_faiss_index_table table = true ->
      Cleanup.is_vector_table table = true)
  /\ forall table_name,
      Cleanup.is_faiss_index_table (PgvIO.index_table table_name) = true
      /\ Cleanup.is_vector_table (PgvIO.index_table table_name) = true.
Proof.
  assert (H1 : forall table,
             Cleanup.is_faiss_index_table table = true ->
             Cleanup.is_vector_table table = true).
  { intros table Hf. unfold Cleanup.is_faiss_index_table in Hf.
    unfold Cleanup.is_vector_table.
    rewrite (contains_inner "_" "faiss" "_index" table Hf).
    now rewrite !orb_true_r. }
  split; [exact H1|]. intro table_name.
  assert (H2 : Cleanup.is_faiss_index_table (PgvIO.index_table table_name)
               = true).
  { unfold Cleanup.is_faiss_index_table, PgvIO.index_table.
    now apply contains_suffix. }
  split; [exact H2|now apply H1].
Qed.

Lemma clear_matching_spec (selected : string -> bool)
    (tables : list string) :
  Cleanup.clear_matching command_ok true selected tables
  = (forallb command_ok
       (map (fun t => "DROP TABLE IF EXISTS " ++ t ++ " CASCADE")
            (filter selected tables)),
     map (fun t => "DROP TABLE IF EXISTS " ++ t ++ " CASCADE")
         (filter selected tables)).
Proof.
  induction tables as [|t tables IH]; [reflexivity|].
  cbn [Cleanup.clear_matching filter]. rewrite IH.
  destruct (selected t); reflexivity.
Qed.

(** X30.  On a non-null connection [clear_all_vector_tables] first asks
    the server for the public tables and then sends one
    [DROP TABLE IF EXISTS ... CASCADE] for every selected table, in the
    order of the answer, going on after a refused one; it returns true
    exactly when every one of them was accepted, so also when the table
    query failed and nothing was dropped.  On a null connection
    [get_tables] yields no table: nothing is sent and the answer is true.
    [clear_faiss_indices] does the same with its own selection. *)
Theorem clear_all_drops_every_selected_table :
  forall tuples : string -> option (list (list string)),
    let tables :=
      match tuples Cleanup.tables_query with
      | Some rows => map (fun r => nth 0 r "") rows
      | None => []%list
      end in
    let drops (selected : string -> bool) :=
      map (fun t => "DROP TABLE IF EXISTS " ++ t ++ " CASCADE")
          (filter selected tables) in
    Cleanup.clear_all_vector_tables command_ok true tuples
    = (forallb command_ok (drops Cleanup.is_vector_table),
       (Cleanup.tables_query :: drops Cleanup.is_vector_table)%list)
    /\ Cleanup.clear_faiss_indices command_ok true tuples
       = (forallb command_ok (drops Cleanup.is_faiss_index_table),
          (Cleanup.tables_query :: drops Cleanup.is_faiss_index_table)%list)
    /\ Cleanup.clear_all_vector_tables command_ok false tuples
       = (true, []%list)
    /\ Cleanup.clear_faiss_indices command_ok false tuples
       = (true, []%list).
Proof.
  intros tuples tables drops.
  unfold Cleanup.clear_all_vector_tables, Cleanup.clear_faiss_indices,
    Cleanup.get_tables. cbn [negb].
  fold tables. rewrite !clear_matching_spec.
  repeat split.
Qed.

End CleanupProps.

(* ------------------------------------------------------------------ *)
(** ** Instances of the further properties *)

Lemma Qltb_asym (a b : Q) : Qltb a b = true -> Qltb b a = false.
Proof.
  unfold Qltb. intro Hab. apply negb_true_iff in Hab.
  apply negb_false_iff. apply Qle_bool_iff.
  destruct (Qlt_le_dec a b) as [Hlt|Hle]; [now apply Qlt_le_weak|].
  apply Qle_bool_iff in Hle. congruence.
Qed.

Lemma search_keeps_slot_order_witness :
  List.length [1; 2; 3; -1; -1] = N.to_nat 5
  /\ fst (Wrapper.search Examples.ivf_loaded (Some Examples.origin) 5)
     = Returns [mkSearchResult 1 0%Q; mkSearchResult 2 1%Q;
                mkSearchResult 3 1%Q].
Proof.
  split; [reflexivity|].
  exact (@search_keeps_slot_order Q RefFaiss.index RefFaiss.lib
           Examples.ivf_loaded MoreExamples.loaded_ivf Examples.origin 5%N
           [0; 1; 1; RefFaiss.FLT_MAX; RefFaiss.FLT_MAX]%Q
           [1; 2; 3; -1; -1]
           eq_refl ltac:(discriminate) eq_refl eq_refl eq_refl).
Defined.

Lemma failed_training_is_retried_witness :
  faiss_train (FaissLib := StrictFaiss.lib) (N.min 3 100000)
              Examples.three_vectors MoreExamples.empty_ivf
  = (MoreExamples.empty_ivf, Some "Error: 'nx >= k' failed"%string)
  /\ train_count
       (snd (Wrapper.add_all (H := StrictFaiss.lib) Examples.ivf_handle
               [(Some Examples.three_vectors, Some Examples.three_ids, 3%N);
                (Some Examples.three_vectors, Some Examples.three_ids, 3%N)]))
     = 2%nat.
Proof.
  split; [reflexivity|].
  exact (proj2 (proj2
           (@failed_training_is_retried Q RefFaiss.index StrictFaiss.lib
              Examples.ivf_handle MoreExamples.empty_ivf
              Examples.three_vectors (Some Examples.three_ids) 3%N
              MoreExamples.empty_ivf
              "Error: 'nx >= k' failed"%string
              "Error: 'is_trained' failed"%string
              eq_refl eq_refl eq_refl ltac:(discriminate)
              eq_refl eq_refl eq_refl))).
Defined.

Lemma trained_flag_is_kept_witness :
  Wrapper.trained_ Examples.ivf_loaded = true
  /\ Wrapper.trained_
       (fst (Session.run Examples.ivf_loaded MoreExamples.session)) = true
  /\ (train_count
        (snd (Session.run Examples.ivf_loaded MoreExamples.session))
      <= 1)%nat.
Proof.
  split; [reflexivity|].
  exact (@trained_flag_is_kept Q RefFaiss.index RefFaiss.lib
           MoreExamples.session Examples.ivf_loaded eq_refl eq_refl).
Defined.

Lemma constructor_falls_back_to_cpu_witness :
  MoreExamples.one_device <= 3
  /\ exists i,
       Wrapper.create_index (H := RefFaiss.lib) false false "IVFFlat" 4
       = Returns i
       /\ Wrapper.new true MoreExamples.one_device 4 "IVFFlat" true 3
          = Returns (Wrapper.mkWrapper (Some i) 4 false 3 "IVFFlat" false).
Proof.
  assert (Hle : MoreExamples.one_device <= 3)
    by (unfold MoreExamples.one_device; lia).
  split; [exact Hle|].
  exact (@constructor_falls_back_to_cpu Q RefFaiss.index RefFaiss.lib
           true MoreExamples.one_device 4 "IVFFlat"%string true 3
           (or_intror (or_intror Hle))).
Defined.

Lemma constructor_propagates_gpu_failure_witness :
  new_GpuIndexFlat (FaissLib := RefFaiss.lib) 4
  = Throws "GPU support not compiled"%string
  /\ Wrapper.new (H := RefFaiss.lib) true MoreExamples.one_device 4 "Flat"
                 true 0
     = Throws "GPU support not compiled"%string.
Proof.
  split; [reflexivity|].
  exact (@constructor_propagates_gpu_failure Q RefFaiss.index RefFaiss.lib
           MoreExamples.one_device 4 "Flat"%string 0
           "GPU support not compiled"%string eq_refl
           (or_introl (conj eq_refl eq_refl))).
Defined.

Lemma no_gpu_resources_no_gpu_index_witness :
  MoreExamples.one_device <= 2
  /\ GPUImpl.create_gpu_index (H := RefFaiss.lib)
       (GPUImpl.new MoreExamples.one_device MoreExamples.set_device_ok false
                    8589934592 2)
       "Flat" 4 = None.
Proof.
  assert (Hle : MoreExamples.one_device <= 2)
    by (unfold MoreExamples.one_device; lia).
  split; [exact Hle|].
  exact (proj1 (proj2
           (@no_gpu_resources_no_gpu_index Q RefFaiss.index RefFaiss.lib
              MoreExamples.one_device MoreExamples.set_device_ok false
              8589934592%N 2 true "Flat"%string 4
              (or_introl Hle)))).
Defined.

Lemma gpu_temp_memory_budget_witness :
  GPUImpl.gpu_resources
    (GPUImpl.new MoreExamples.one_device MoreExamples.set_device_ok false
                 4294967296 0) = Some 1073741824%N
  /\ (4 * 1073741824 <= 4294967296)%N.
Proof.
  split; [reflexivity|].
  exact (proj1
           (@gpu_temp_memory_budget MoreExamples.one_device
              MoreExamples.set_device_ok false 4294967296%N 0
              1073741824%N eq_refl)).
Defined.

Lemma gpu_index_has_no_fallback_witness :
  ("HNSW" <> "Flat" /\ "HNSW" <> "IVFFlat")%string
  /\ GPUImpl.create_gpu_index (H := RefFaiss.lib)
       (GPUImpl.mkGPUImpl (Some 1073741824%N) 0) "HNSW" 4 = None.
Proof.
  split; [split; discriminate|].
  exact (@gpu_index_has_no_fallback Q RefFaiss.index RefFaiss.lib
           (GPUImpl.mkGPUImpl (Some 1073741824%N) 0) "HNSW"%string 4
           ltac:(discriminate) ltac:(discriminate)).
Defined.

Lemma stub_add_vectors_appends_witness :
  Stub.add_vectors Examples.stub_flat Examples.three_vectors
                   Examples.three_ids 3
  = Some (0, Examples.stub_loaded)
  /\ Stub.ids (Stub.index_ Examples.stub_loaded)
     = ([] ++ firstn 3 Examples.three_ids)%list
  /\ Stub.get_ntotal Examples.stub_loaded = 3%N.
Proof.
  split; [reflexivity|].
  pose proof (@stub_add_vectors_appends Q Examples.stub_flat
                Examples.three_vectors Examples.three_ids 3%N 0
                Examples.stub_loaded eq_refl) as W.
  exact (conj (proj1 (proj2 W)) (proj1 (proj2 (proj2 (proj2 W))))).
Defined.

Lemma stub_add_vectors_keeps_well_formed_witness :
  StubInv.readable 4 Examples.three_vectors Examples.three_ids 3
  /\ StubInv.well_formed Examples.stub_flat
  /\ exists h',
       Stub.add_vectors Examples.stub_flat Examples.three_vectors
                        Examples.three_ids 3 = Some (0, h')
       /\ StubInv.well_formed h'.
Proof.
  assert (Hr : StubInv.readable 4 Examples.three_vectors Examples.three_ids 3).
  { unfold StubInv.readable. cbn. repeat split; try discriminate.
    repeat constructor. }
  assert (Hw : StubInv.well_formed Examples.stub_flat).
  { unfold StubInv.well_formed. cbn. split; [reflexivity|constructor]. }
  split; [exact Hr|]. split; [exact Hw|].
  exact (@stub_add_vectors_keeps_well_formed Q Examples.stub_flat
           Examples.three_vectors Examples.three_ids 3%N Hr Hw).
Defined.

Lemma stub_search_sorted_by_reported_distance_witness :
  Sorted (fun a b => Qltb (distance b) (distance a) = false)
         (Stub.search Qltb Examples.stub_loaded Examples.origin 2
                      Examples.draws).
Proof.
  exact (@stub_search_sorted_by_reported_distance Q Qltb
           Examples.stub_loaded Examples.origin 2%N Examples.draws
           Qltb_asym).
Defined.

Lemma parse_reads_each_item_witness :
  Forall (fun a => PgvIO.comma_free a /\ a <> ""%string)
         ["0.500000"; "oops"; "-1.500000"]%string
  /\ PgvIO.parse_vector_text MoreExamples.stof_two
       "[0.500000,oops,-1.500000]"
     = [1 # 2; - (3 # 2)]%Q.
Proof.
  assert (Hitems : Forall (fun a => PgvIO.comma_free a /\ a <> ""%string)
                          ["0.500000"; "oops"; "-1.500000"]%string).
  { repeat constructor; try discriminate;
      unfold PgvIO.comma_free; cbn; repeat constructor; discriminate. }
  split; [exact Hitems|].
  exact (@parse_reads_each_item MoreExamples.stof_two
           ["0.500000"; "oops"; "-1.500000"]%string Hitems).
Defined.

Lemma insert_literal_is_read_back_witness :
  exists literal,
    Pgv.insert_vector_query "items" 7 [1 # 2; - (3 # 2)]%Q
    = ("INSERT INTO items (id, embedding) VALUES (7, '" ++ literal ++ "')")
      %string
    /\ PgvIO.parse_vector_text MoreExamples.stof_two literal
       = [1 # 2; - (3 # 2)]%Q.
Proof.
  destruct (@insert_literal_is_read_back MoreExamples.stof_two
              "items"%string 7 [1 # 2; - (3 # 2)]%Q)
    as (literal & Hq & _ & Hg).
  exists literal. split; [exact Hq|].
  apply (Hg (fun x => x)).
  intros x [<-|[<-|[]]]; reflexivity.
Defined.

Lemma batch_insert_is_joined_single_inserts_witness :
  Pgv.batch_insert_vectors_query "items" [1; 2] [[1 # 2]; [- (3 # 2)]]%Q
  = ("INSERT INTO items (id, embedding) VALUES "
     ++ "(1, '[0.500000]'), (2, '[-1.500000]')")%string.
Proof.
  exact (proj1 (@batch_insert_is_joined_single_inserts "items"%string
                  [1; 2] [[1 # 2]; [- (3 # 2)]]%Q eq_refl)).
Defined.

Lemma store_vectors_commits_all_rows_witness :
  Pgv.store_vectors Examples.accept_all Examples.open_conn "items"
                    [[1 # 2]; [3 # 2]]%Q [1; 2]
  = (Returns true,
     ["BEGIN";
      "INSERT INTO items (id, embedding) VALUES (1, '[0.5]')";
      "INSERT INTO items (id, embedding) VALUES (2, '[1.5]')";
      "COMMIT"]%string).
Proof.
  assert (Hc : Pgv.conn_ Examples.open_conn <> None) by discriminate.
  assert (Hall : Forall
                   (fun r : list Q * Z =>
                      Examples.accept_all
                        (Pgv.store_vectors_query "items" (snd r) (fst r))
                      = true)
                   (combine [[1 # 2]; [3 # 2]]%Q [1; 2]))
    by (repeat constructor).
  exact (@store_vectors_commits_all_rows Examples.accept_all
           Examples.open_conn "items"%string [[1 # 2]; [3 # 2]]%Q [1; 2]
           Hc eq_refl eq_refl Hall).
Defined.

Lemma store_vectors_rolls_back_witness :
  Pgv.store_vectors MoreExamples.refuse_id_2 Examples.open_conn "items"
                    [[1 # 2]; [3 # 2]; [5 # 2]]%Q [1; 2; 3]
  = (Returns false,
     ["BEGIN";
      "INSERT INTO items (id, embedding) VALUES (1, '[0.5]')";
      "INSERT INTO items (id, embedding) VALUES (2, '[1.5]')";
      "ROLLBACK"]%string).
Proof.
  assert (Hc : Pgv.conn_ Examples.open_conn <> None) by discriminate.
  assert (Hpre : Forall
                   (fun r : list Q * Z =>
                      MoreExamples.refuse_id_2
                        (Pgv.store_vectors_query "items" (snd r) (fst r))
                      = true)
                   [([1 # 2]%Q, 1)])
    by (repeat constructor).
  exact (proj1
           (@store_vectors_rolls_back MoreExamples.refuse_id_2
              Examples.open_conn "items"%string
              [[1 # 2]; [3 # 2]; [5 # 2]]%Q [1; 2; 3]
              [([1 # 2]%Q, 1)] [([5 # 2]%Q, 3)] ([3 # 2]%Q, 2)
              Hc eq_refl eq_refl eq_refl Hpre eq_refl)).
Defined.

Lemma store_vectors_refuses_early_witness :
  List.length [[1 # 2]; [3 # 2]]%Q <> List.length [1]
  /\ ((exists e,
         Pgv.store_vectors Examples.accept_all Examples.open_conn "items"
                           [[1 # 2]; [3 # 2]]%Q [1]
         = (Throws e, []))
      \/ Pgv.store_vectors Examples.accept_all Examples.open_conn "items"
                           [[1 # 2]; [3 # 2]]%Q [1]
         = (Returns false, ["BEGIN"%string])).
Proof.
  assert (Hlen : List.length [[1 # 2]; [3 # 2]]%Q <> List.length [1])
    by discriminate.
  split; [exact Hlen|].
  exact (@store_vectors_refuses_early Examples.accept_all
           Examples.open_conn "items"%string [[1 # 2]; [3 # 2]]%Q [1]
           (or_intror (or_introl Hlen))).
Defined.

Lemma closed_connection_sends_nothing_witness :
  Pgv.is_connected MoreExamples.closed_conn = false
  /\ Pgv.insert_vector Examples.accept_all MoreExamples.closed_conn
                       "items" 7 [1 # 2]%Q
     = (false, []).
Proof.
  split; [reflexivity|].
  exact (proj1
           (@closed_connection_sends_nothing Examples.accept_all
              MoreExamples.no_tuples MoreExamples.stof_two
              MoreExamples.stoll_none MoreExamples.escape_none
              MoreExamples.unescape_none MoreExamples.closed_conn
              "items"%string 7 [1 # 2]%Q [7] [[1 # 2]]%Q 1 [] 5%N
              eq_refl)).
Defined.

Lemma save_index_deletes_first_witness :
  Pgv.is_connected Examples.open_conn = true
  /\ exists rest,
       snd (PgvIO.save_index Examples.accept_all MoreExamples.escape_none
                             Examples.open_conn "items" [])
       = (("CREATE TABLE IF NOT EXISTS items_faiss_index"
           ++ " (id SERIAL PRIMARY KEY, index_data BYTEA)")%string
          :: "DELETE FROM items_faiss_index"%string :: rest)%list.
Proof.
  split; [reflexivity|].
  destruct (@save_index_deletes_first Examples.accept_all
              MoreExamples.escape_none Examples.open_conn "items"%string
              [] eq_refl) as (rest & Hs & _).
  exists rest. exact Hs.
Defined.

Lemma full_recall_witness :
  (Benchmark.calculate_recall [1; 2; 3]%Z [2; 1]%Z == 1)%Q.
Proof.
  assert (Hg : [1; 2; 3] <> []) by discriminate.
  assert (Hr : [2; 1] <> []) by discriminate.
  apply (proj2 (@full_recall [1; 2; 3] [2; 1] Hg Hr)).
  intros g [<-|[<-|[]]]; cbn; auto.
Defined.

Lemma index_tables_are_vector_tables_witness :
  Cleanup.is_faiss_index_table "items_faiss_index" = true
  /\ Cleanup.is_vector_table "items_faiss_index" = true.
Proof.
  split; [reflexivity|].
  exact (proj1 index_tables_are_vector_tables "items_faiss_index"%string
               eq_refl).
Defined.

Lemma recall_is_a_fraction_witness :
  Benchmark.calculate_recall [1; 2; 3] [2; 5] = (1 # 2)%Q.
Proof.
  exact (proj1 (proj2 (proj2 (recall_is_a_fraction [1; 2; 3] [2; 5])))
               1 [2; 3] 2 [5]).
Defined.

Lemma clear_all_drops_every_selected_table_witness :
  Cleanup.clear_all_vector_tables Examples.accept_all true
                                  MoreExamples.public_tables
  = (true,
     ["SELECT tablename FROM pg_tables WHERE schemaname = 'public'";
      "DROP TABLE IF EXISTS items_faiss_index CASCADE";
      "DROP TABLE IF EXISTS test_vectors CASCADE"]%string).
Proof.
  exact (proj1 (clear_all_drops_every_selected_table Examples.accept_all
                  MoreExamples.public_tables)).
Defined.
